(** * Dreamer networks: a shallow embedding of [dreamer/networks.py]

    The recurrent state-space model ([TransitionModel]), the policy head
    ([ActorModel]) and the Monte-Carlo wrapper ([SampleDist]) are embedded as
    functions over tensors of real numbers.

    Conventions of the embedding.
    - A rank-2 tensor (batch x features) is a list of rows; a rank-3 tensor
      (time x batch x features, or samples x batch x features) is a list of
      rank-2 tensors.
    - Scalars are mathematical reals: rounding, overflow and NaN of the
      floating-point runtime are not represented.
    - The global random generator is an explicit state: an infinite sequence
      of standard-normal draws and a read position.  Every sampling operation
      reads a window of that sequence and advances the position.
    - Python exceptions are an error outcome of a small state-and-error monad.
      Element-wise operations on operands of incompatible shapes are outside
      the embedding (they truncate instead of raising). *)

From Stdlib Require Import Reals Lra Lia List.
From stdpp Require Import base list strings.
Import ListNotations.
Open Scope R_scope.

(** ** Tensors and the tensor runtime *)

Module Torch.

Definition tensor := list (list R).
Definition tensor3 := list tensor.

(** [F.softplus] with its defaults [beta = 1], [threshold = 20]: the linear
    function above the threshold, [log (1 + exp x)] below. *)
Definition softplus1 (x : R) : R :=
  if Rlt_dec 20 x then x else ln (1 + exp x).

Definition relu1 (x : R) : R := if Rlt_dec 0 x then x else 0.
Definition elu1 (x : R) : R := if Rlt_dec 0 x then x else exp x - 1.
Definition sigmoid1 (x : R) : R := / (1 + exp (- x)).
Definition atanh1 (y : R) : R := ln ((1 + y) / (1 - y)) / 2.

Definition pointwise (f : R -> R) (x : tensor) : tensor := map (map f) x.

Definition softplus : tensor -> tensor := pointwise softplus1.
Definition relu : tensor -> tensor := pointwise relu1.
Definition elu : tensor -> tensor := pointwise elu1.
Definition sigmoid : tensor -> tensor := pointwise sigmoid1.
Definition tanh : tensor -> tensor := pointwise Rtrigo_def.tanh.
Definition atanh : tensor -> tensor := pointwise atanh1.

(** [x + c], [c * x] and [x / c] for a Python number [c]. *)
Definition add_scalar (x : tensor) (c : R) : tensor := pointwise (fun v => v + c) x.
Definition scalar_mul (c : R) (x : tensor) : tensor := pointwise (fun v => c * v) x.
Definition div_scalar (x : tensor) (c : R) : tensor := pointwise (fun v => v / c) x.
Definition neg (x : tensor) : tensor := pointwise Ropp x.

(** Broadcasting of a binary operation along one dimension: a dimension of
    size one is stretched to the size of the other operand. *)
Definition broadcast {A B C} (f : A -> B -> C) (xs : list A) (ys : list B) : list C :=
  match xs, ys with
  | [x], _ => map (f x) ys
  | _, [y] => map (fun x => f x y) xs
  | _, _ => zip_with f xs ys
  end.

Definition binop (f : R -> R -> R) (x y : tensor) : tensor :=
  broadcast (broadcast f) x y.

Definition add : tensor -> tensor -> tensor := binop Rplus.
Definition sub : tensor -> tensor -> tensor := binop Rminus.
Definition mul : tensor -> tensor -> tensor := binop Rmult.
Definition div : tensor -> tensor -> tensor := binop Rdiv.

(** [torch.cat([x, y], dim=1)] (equally [dim=-1] at rank 2). *)
Definition cat (x y : tensor) : tensor := zip_with (@app R) x y.

(** [torch.chunk(x, 2, dim=1)]: pieces of [ceil (n / 2)] columns.  The layers
    that feed it have an even number [2 * n] of output features, which gives
    two pieces of [n] columns; a single column, which yields one piece only,
    does not arise. *)
Definition chunk_size (n : nat) : nat := Nat.div2 (S n).
Definition chunk (x : tensor) : tensor * tensor :=
  (map (fun r => take (chunk_size (length r)) r) x,
   map (fun r => drop (chunk_size (length r)) r) x).

Definition sum_list (l : list R) : R := fold_right Rplus 0 l.

(** [x.sum(-1)]: the sum over the last dimension. *)
Definition sum_last (x : tensor) : list R := map sum_list x.

(** Transposition of the first two dimensions, to [n] columns. *)
Definition column {A} (j : nat) (x : list (list A)) : list A :=
  omap (fun r => r !! j) x.
Definition columns {A} (n : nat) (x : list (list A)) : list (list A) :=
  map (fun j => column j x) (seq 0 n).

Definition mean_list (l : list R) : R := sum_list l / INR (length l).

(** The size of dimension 1 of a stacked value, read off its first slice. *)
Definition size1 {A} (x : list (list A)) : nat :=
  match x with [] => O | r :: _ => length r end.

(** [torch.mean(x, 0)] at rank 2 and rank 3, for at least one slice along
    dimension 0. *)
Definition mean0_2 (x : list (list R)) : list R :=
  map mean_list (columns (size1 x) x).
Definition mean0 (x : tensor3) : tensor :=
  map (fun rows => mean0_2 rows) (columns (size1 x) x).

(** Index of the first maximal entry of a list ([torch.argmax] returns the
    first occurrence among equal maxima). *)
Fixpoint argmax_from (best : R) (ibest i : nat) (l : list R) : nat :=
  match l with
  | [] => ibest
  | v :: l' =>
      if Rlt_dec best v then argmax_from v i (S i) l'
      else argmax_from best ibest (S i) l'
  end.
Definition argmax_list (l : list R) : nat :=
  match l with
  | [] => O
  | v :: l' => argmax_from v O 1%nat l'
  end.

(** [torch.argmax(x, dim=0)] at rank 2. *)
Definition argmax0 (x : list (list R)) : list nat :=
  map argmax_list (columns (size1 x) x).

(** ** The random generator *)

Record Generator := { normal : nat -> R; offset : nat }.

Definition advance (n : nat) (g : Generator) : Generator :=
  {| normal := normal g; offset := (offset g + n)%nat |}.

Definition randn_vec (n : nat) (g : Generator) : list R * Generator :=
  (map (fun i => normal g (offset g + i)%nat) (seq 0 n), advance n g).

(** Standard-normal noise in the shape of given rows, filled in row-major
    order. *)
Fixpoint randn_rows (rows : list nat) (g : Generator) : tensor * Generator :=
  match rows with
  | [] => ([], g)
  | n :: rows' =>
      let (v, g1) := randn_vec n g in
      let (vs, g2) := randn_rows rows' g1 in
      (v :: vs, g2)
  end.

Definition shape (x : tensor) : list nat := map (@length R) x.

(** ** Exceptions and the computation monad *)

Inductive exn := IndexError | RuntimeError | AttributeError | TypeError.

Inductive result (A : Type) :=
| Ok (a : A)
| Raise (e : exn).
Arguments Ok {A} a.
Arguments Raise {A} e.

Definition M (A : Type) : Type := Generator -> result (A * Generator).

Definition ret {A} (a : A) : M A := fun g => Ok (a, g).
Definition raise {A} (e : exn) : M A := fun _ => Raise e.
Definition bind {A B} (m : M A) (k : A -> M B) : M B :=
  fun g => match m g with
           | Ok (a, g') => k a g'
           | Raise e => Raise e
           end.

Declare Scope comp_scope.
Delimit Scope comp_scope with comp.
Notation "'let*' x ':=' m 'in' k" := (bind m (fun x => k))
  (at level 10, x pattern, m at level 100, k at level 200) : comp_scope.
Local Open Scope comp_scope.

(** [torch.randn_like(x)] *)
Definition randn_like (x : tensor) : M tensor :=
  fun g => Ok (randn_rows (shape x) g).

(** [l[i]] for a Python list or along dimension 0 of a tensor, with a
    non-negative index. *)
Definition getitem {A} (l : list A) (i : nat) : M A :=
  match l !! i with
  | Some a => ret a
  | None => raise IndexError
  end.

(** [torch.stack(l, dim=0)] refuses an empty list. *)
Definition stack {A} (l : list A) : M (list A) :=
  match l with
  | [] => raise RuntimeError
  | _ => ret l
  end.

(** [[f(x) for x in l]], effects in list order. *)
Fixpoint mapM {A B} (f : A -> M B) (l : list A) : M (list B) :=
  match l with
  | [] => ret []
  | a :: l' => let* b := f a in let* bs := mapM f l' in ret (b :: bs)
  end.

(** [for t in range(n): st = body t st] *)
Definition for_range {S} (n : nat) (body : nat -> S -> M S) (st : S) : M S :=
  fold_left (fun acc t => bind acc (body t)) (seq 0 n) (ret st).

(** ** Layers *)

(** [nn.Linear]: [y = x W^T + b], [W] of shape (out_features, in_features). *)
Record Linear := { weight : list (list R); bias : list R }.

Definition dot (u v : list R) : R := sum_list (zip_with Rmult u v).

Definition linear (l : Linear) (x : tensor) : tensor :=
  map (fun xr => zip_with (fun wr b => dot wr xr + b) (weight l) (bias l)) x.

(** The shape [nn.Linear(i, o)] gives its parameters. *)
Definition linear_shape (l : Linear) (i o : nat) : Prop :=
  length (weight l) = o /\ Forall (fun wr => length wr = i) (weight l) /\
  length (bias l) = o.

(** [nn.GRUCell]: reset, update and new gates. *)
Record GRUCell := {
  w_ir : Linear; w_hr : Linear;
  w_iz : Linear; w_hz : Linear;
  w_in : Linear; w_hn : Linear
}.

Definition gru_cell (c : GRUCell) (x h : tensor) : tensor :=
  let r := sigmoid (add (linear (w_ir c) x) (linear (w_hr c) h)) in
  let z := sigmoid (add (linear (w_iz c) x) (linear (w_hz c) h)) in
  let n := tanh (add (linear (w_in c) x) (mul r (linear (w_hn c) h))) in
  add (mul (pointwise (fun v => 1 - v) z) n) (mul z h).

End Torch.

(** ** The recurrent state-space model *)

Module TransitionModel.
Import Torch.
Local Open Scope comp_scope.

(** The attributes [__init__] sets; [act_fn] is whatever function of
    [torch.nn.functional] the configured name selects. *)
Record t := {
  act_fn : tensor -> tensor;
  min_std_dev : R;
  fc_embed_state_action : Linear;
  rnn : GRUCell;
  fc_embed_belief_prior : Linear;
  fc_state_prior : Linear;
  fc_embed_belief_posterior : Linear;
  fc_state_posterior : Linear
}.

(** The seven working lists of [forward]. *)
Record lists := {
  beliefs : list tensor;
  prior_states : list tensor;
  prior_means : list tensor;
  prior_std_devs : list tensor;
  posterior_states : list tensor;
  posterior_means : list tensor;
  posterior_std_devs : list tensor
}.

(** [torch.empty(0)] *)
Definition empty : tensor := [].

(** Lines 52-53: the placeholder lists, then the three entries at index 0. *)
Definition init_lists (T : nat) (prev_state prev_belief : tensor) : lists :=
  {| beliefs := <[O := prev_belief]> (replicate T empty);
     prior_states := <[O := prev_state]> (replicate T empty);
     prior_means := replicate T empty;
     prior_std_devs := replicate T empty;
     posterior_states := <[O := prev_state]> (replicate T empty);
     posterior_means := replicate T empty;
     posterior_std_devs := replicate T empty |}.

(** Lines 56-57: the state that enters the recurrence at loop index [t]. *)
Definition select_state (observations nonterminals : option tensor3)
    (st : lists) (t : nat) : M tensor :=
  let* _state := getitem (match observations with
                          | None => prior_states st
                          | Some _ => posterior_states st
                          end) t in
  match nonterminals with
  | None => ret _state
  | Some nt =>
      if (t =? 0)%nat then ret _state
      else let* m := getitem nt (t - 1) in ret (mul _state m)
  end.

(** Lines 63-66 and 71-74: mean, std-dev and reparameterized sample of a
    diagonal Gaussian from the output of a state layer. *)
Definition gaussian (min_std : R) (out : tensor) : M (tensor * tensor * tensor) :=
  let (mean, _std_dev) := chunk out in
  let std_dev := add_scalar (softplus _std_dev) min_std in
  let* noise := randn_like mean in
  ret (mean, std_dev, add mean (mul std_dev noise)).

(** One iteration of the time loop (lines 56-74). *)
Definition step (self : t) (actions : tensor3)
    (observations nonterminals : option tensor3) (t : nat) (st : lists) : M lists :=
  let* _state := select_state observations nonterminals st t in
  let* action := getitem actions t in
  let hidden := act_fn self (linear (fc_embed_state_action self) (cat _state action)) in
  let* belief := getitem (beliefs st) t in
  let belief' := gru_cell (rnn self) hidden belief in
  let hidden := act_fn self (linear (fc_embed_belief_prior self) belief') in
  let* (mean, std_dev, state) :=
    gaussian (min_std_dev self) (linear (fc_state_prior self) hidden) in
  let st := {| beliefs := <[S t := belief']> (beliefs st);
               prior_states := <[S t := state]> (prior_states st);
               prior_means := <[S t := mean]> (prior_means st);
               prior_std_devs := <[S t := std_dev]> (prior_std_devs st);
               posterior_states := posterior_states st;
               posterior_means := posterior_means st;
               posterior_std_devs := posterior_std_devs st |} in
  match observations with
  | None => ret st
  | Some obs =>
      let t_ := (Z.of_nat t - 1)%Z in
      let* observation := getitem obs (Z.to_nat (t_ + 1)) in
      let hidden := act_fn self (linear (fc_embed_belief_posterior self)
                                        (cat belief' observation)) in
      let* (mean, std_dev, state) :=
        gaussian (min_std_dev self) (linear (fc_state_posterior self) hidden) in
      ret {| beliefs := beliefs st;
             prior_states := prior_states st;
             prior_means := prior_means st;
             prior_std_devs := prior_std_devs st;
             posterior_states := <[S t := state]> (posterior_states st);
             posterior_means := <[S t := mean]> (posterior_means st);
             posterior_std_devs := <[S t := std_dev]> (posterior_std_devs st) |}
  end.

(** Lines 51-74: the lists as they stand when the loop ends. *)
Definition run_loop (self : t) (prev_state : tensor) (actions : tensor3)
    (prev_belief : tensor) (observations nonterminals : option tensor3) : M lists :=
  let T := (length actions + 1)%nat in
  for_range (T - 1) (step self actions observations nonterminals)
            (init_lists T prev_state prev_belief).

(** Lines 77-80: the stacked slices [l[1:]]. *)
Definition stack_outputs (observations : option tensor3) (st : lists) : M (list tensor3) :=
  let* b := stack (drop 1 (beliefs st)) in
  let* s := stack (drop 1 (prior_states st)) in
  let* m := stack (drop 1 (prior_means st)) in
  let* d := stack (drop 1 (prior_std_devs st)) in
  let hidden := [b; s; m; d] in
  match observations with
  | None => ret hidden
  | Some _ =>
      let* ps := stack (drop 1 (posterior_states st)) in
      let* pm := stack (drop 1 (posterior_means st)) in
      let* pd := stack (drop 1 (posterior_std_devs st)) in
      ret (hidden ++ [ps; pm; pd])
  end.

Definition forward (self : t) (prev_state : tensor) (actions : tensor3)
    (prev_belief : tensor) (observations nonterminals : option tensor3)
    : M (list tensor3) :=
  let* st := run_loop self prev_state actions prev_belief observations nonterminals in
  stack_outputs observations st.

End TransitionModel.

(** ** The distributions of [torch.distributions] the actor composes *)

Module Distributions.
Import Torch.
Local Open Scope comp_scope.

(** What the code asks of a distribution object with a rank-1 batch shape
    and a rank-1 event shape. *)
Class Distribution (D : Type) := {
  batch_shape : D -> list nat;
  rsample : D -> M tensor;
  log_prob : D -> tensor -> list R
}.

(** [Normal(loc, scale)] *)
Record Normal := { loc : tensor; scale : tensor }.

Definition normal_rsample (d : Normal) : M tensor :=
  let* eps := randn_like (add (loc d) (scale d)) in
  ret (add (loc d) (mul eps (scale d))).

Definition normal_log_prob (d : Normal) (value : tensor) : tensor :=
  let var := mul (scale d) (scale d) in
  let log_scale := pointwise ln (scale d) in
  add_scalar
    (sub (div (neg (mul (sub value (loc d)) (sub value (loc d)))) (scalar_mul 2 var))
         log_scale)
    (- ln (sqrt (2 * PI))).

(** [TanhTransform()] *)
Inductive transform := TanhTransform.

Definition transform_call (tr : transform) (x : tensor) : tensor :=
  match tr with TanhTransform => tanh x end.
Definition transform_inv (tr : transform) (y : tensor) : tensor :=
  match tr with TanhTransform => atanh y end.
Definition log_abs_det_jacobian (tr : transform) (x y : tensor) : tensor :=
  match tr with
  | TanhTransform =>
      scalar_mul 2 (pointwise (fun v => ln 2 - v - softplus1 (-2 * v)) x)
  end.

(** [TransformedDistribution(base_dist, transforms)] *)
Record TransformedDistribution := {
  base_dist : Normal;
  transforms : list transform
}.

Definition transformed_rsample (d : TransformedDistribution) : M tensor :=
  let* x := normal_rsample (base_dist d) in
  ret (fold_left (fun x tr => transform_call tr x) (transforms d) x).

(** The transforms are undone last to first; each contributes its
    log-Jacobian, and the base density is evaluated at the pre-image. *)
Definition transformed_log_prob (d : TransformedDistribution) (value : tensor) : tensor :=
  let '(lp, y) :=
    fold_left (fun '(lp, y) tr =>
                 let x := transform_inv tr y in
                 (sub lp (log_abs_det_jacobian tr x y), x))
              (rev (transforms d)) ([[0]], value) in
  add lp (normal_log_prob (base_dist d) y).

(** [Independent(base, 1)]: the last batch dimension becomes the event. *)
Record Independent := { base : TransformedDistribution }.

#[export] Instance independent_distribution : Distribution Independent := {
  batch_shape d := [length (add (loc (base_dist (base d))) (scale (base_dist (base d))))];
  rsample d := transformed_rsample (base d);
  log_prob d value := sum_last (transformed_log_prob (base d) value)
}.

(** [d.expand((n, *d.batch_shape))]: [n] slices of the same parameters.
    A sample fills the slices in order; a log-density is taken slice-wise. *)
Definition expand {D} (n : nat) (d : D) : list D := replicate n d.

Definition rsample_expanded {D} `{Distribution D} (ds : list D) : M tensor3 :=
  mapM rsample ds.
Definition log_prob_expanded {D} `{Distribution D} (ds : list D) (value : tensor3)
    : list (list R) :=
  zip_with log_prob ds value.

End Distributions.

(** ** Monte-Carlo approximation of mean, mode and entropy *)

Module SampleDist.
Import Torch Distributions.
Local Open Scope comp_scope.

Section Wrapper.
Context {D : Type} `{Distribution D}.

Record t := { _dist : D; _samples : nat }.

(** [__init__(self, dist, samples=100)] *)
Definition default_samples : nat := 100.
Definition init (dist : D) : t := {| _dist := dist; _samples := default_samples |}.
Definition init_with (dist : D) (samples : nat) : t :=
  {| _dist := dist; _samples := samples |}.

Definition mean (self : t) : M tensor :=
  let dist := expand (_samples self) (_dist self) in
  let* sample := rsample_expanded dist in
  ret (mean0 sample).

(** [torch.gather(sample, 0, indices).squeeze(0)] with
    [indices[0][b][f] = index b]. *)
Definition gather0 (sample : tensor3) (indices : list nat) (feature_size : nat)
    : M tensor :=
  mapM (fun '(b, i) =>
          let* slice := getitem sample i in
          let* row := getitem slice b in
          mapM (getitem row) (seq 0 feature_size))
       (zip (seq 0 (length indices)) indices).

Definition mode (self : t) : M tensor :=
  let dist := expand (_samples self) (_dist self) in
  let* sample := rsample_expanded dist in
  let logprob := log_prob_expanded dist sample in
  let* first := getitem sample 0 in
  let batch_size := length first in
  let feature_size := size1 first in
  let indices := argmax0 logprob in
  (* reshape(1, batch_size, 1) takes exactly batch_size indices; expand then
     repeats each of them across the features *)
  if (length indices =? batch_size)%nat
  then gather0 sample indices feature_size
  else raise RuntimeError.

Definition entropy (self : t) : M (list R) :=
  let dist := expand (_samples self) (_dist self) in
  let* sample := rsample_expanded dist in
  let logprob := log_prob_expanded dist sample in
  ret (map Ropp (mean0_2 logprob)).

(** Attribute values, as far as the code distinguishes them: strings,
    integers, the wrapped object, shapes, a property that samples on access,
    and bound methods. *)
Inductive value :=
| VStr (s : string)
| VInt (n : nat)
| VDist (d : D)
| VShape (sh : list nat)
| VTensor (m : M tensor)
| VEntropy (m : M (list R))
| VSampler (m : M tensor)
| VLogProb (f : tensor -> list R).

(** Attribute lookup on the wrapped distribution object, for the attributes
    the code reads from it. *)
Definition dist_getattr (d : D) (name : string) : option value :=
  if String.eqb name "batch_shape" then Some (VShape (batch_shape d))
  else if String.eqb name "rsample" then Some (VSampler (rsample d))
  else if String.eqb name "log_prob" then Some (VLogProb (log_prob d))
  else None.

(** Attribute lookup on the wrapper: the attributes of the instance and of
    its class first (a property is evaluated on access); [__getattr__]
    serves every other name from the wrapped object. *)
Definition getattr (self : t) (name : string) : option value :=
  if String.eqb name "_dist" then Some (VDist (_dist self))
  else if String.eqb name "_samples" then Some (VInt (_samples self))
  else if String.eqb name "name" then Some (VStr "SampleDist")
  else if String.eqb name "mean" then Some (VTensor (mean self))
  else if String.eqb name "mode" then Some (VSampler (mode self))
  else if String.eqb name "entropy" then Some (VEntropy (entropy self))
  else dist_getattr (_dist self) name.

End Wrapper.
Arguments t D : clear implicits.

End SampleDist.

(** ** The policy head *)

Module ActorModel.
Import Torch Distributions.
Local Open Scope comp_scope.

Record t := {
  act_fn : tensor -> tensor;
  fc1 : Linear; fc2 : Linear; fc3 : Linear; fc4 : Linear; fc5 : Linear;
  min_std : R;
  init_std : R;
  mean_scale : R
}.

(** Lines 161-169: mean and std-dev of the pre-transform Gaussian. *)
Definition raw_init_std (self : t) : R := ln (exp (init_std self) - 1).

Definition network (self : t) (belief state : tensor) : tensor :=
  let hidden := act_fn self (linear (fc1 self) (cat belief state)) in
  let hidden := act_fn self (linear (fc2 self) hidden) in
  let hidden := act_fn self (linear (fc3 self) hidden) in
  let hidden := act_fn self (linear (fc4 self) hidden) in
  linear (fc5 self) hidden.

Definition squash_mean (self : t) (mean : tensor) : tensor :=
  scalar_mul (mean_scale self) (tanh (div_scalar mean (mean_scale self))).

Definition constrain_std (self : t) (std : tensor) : tensor :=
  add_scalar (softplus (add_scalar std (raw_init_std self))) (min_std self).

Definition mean_std (self : t) (belief state : tensor) : tensor * tensor :=
  let (mean, std) := chunk (network self belief state) in
  (squash_mean self mean, constrain_std self std).

(** Lines 170-174: the wrapped action distribution. *)
Definition action_dist (mean std : tensor) : Independent :=
  let dist := {| loc := mean; scale := std |} in
  let transform := [TanhTransform] in
  let dist := {| base_dist := dist; transforms := transform |} in
  {| base := dist |}.

Definition distribution (self : t) (belief state : tensor) : SampleDist.t Independent :=
  let (mean, std) := mean_std self belief state in
  SampleDist.init (action_dist mean std).

(** [dist.mean], [dist.rsample()] and [dist.log_prob(action)], each through
    attribute lookup on the wrapper. *)
Definition get_mean (dist : SampleDist.t Independent) : M tensor :=
  match SampleDist.getattr dist "mean" with
  | Some (SampleDist.VTensor m) => m
  | Some _ => raise TypeError
  | None => raise AttributeError
  end.

Definition call_rsample (dist : SampleDist.t Independent) : M tensor :=
  match SampleDist.getattr dist "rsample" with
  | Some (SampleDist.VSampler m) => m
  | Some _ => raise TypeError
  | None => raise AttributeError
  end.

Definition call_log_prob (dist : SampleDist.t Independent) (action : tensor) : M (list R) :=
  match SampleDist.getattr dist "log_prob" with
  | Some (SampleDist.VLogProb f) => ret (f action)
  | Some _ => raise TypeError
  | None => raise AttributeError
  end.

Definition forward (self : t) (belief state : tensor)
    (deterministic with_logprob : bool) : M (tensor * option (list R)) :=
  let dist := distribution self belief state in
  let* action := if deterministic then get_mean dist else call_rsample dist in
  let* logp_pi := if with_logprob
                  then let* lp := call_log_prob dist action in ret (Some lp)
                  else ret None in
  ret (action, logp_pi).

End ActorModel.

(** ** Squeezing, and the helper [bottle] *)

Module Shapes.
Import Torch.
Local Open Scope comp_scope.

(** A value of rank 1 or of rank 2. *)
Inductive squeezed :=
| Rank1 (v : list R)
| Rank2 (x : tensor).

(** [x.squeeze(dim)] at rank 2: dimension [dim] is removed if its size is
    one, and a dimension outside [-2 .. 1] is refused.  A tensor without rows
    is taken to have the width the squeeze expects. *)
Definition squeeze (dim : Z) (x : tensor) : M squeezed :=
  if ((dim =? 1) || (dim =? -1))%Z then
    if forallb (fun r => (length r =? 1)%nat) x
    then ret (Rank1 (map (fun r => nth 0 r 0) x))
    else ret (Rank2 x)
  else if ((dim =? 0) || (dim =? -2))%Z then
    match x with
    | [r] => ret (Rank1 r)
    | _ => ret (Rank2 x)
    end
  else raise IndexError.

(** A point-wise function on a value of either rank. *)
Definition squeezed_map (f : R -> R) (y : squeezed) : squeezed :=
  match y with
  | Rank1 v => Rank1 (map f v)
  | Rank2 x => Rank2 (pointwise f x)
  end.

(** The result of [bottle]: rank 2 or rank 3, the first two dimensions being
    time and batch. *)
Inductive bottled :=
| Seq2 (x : tensor)
| Seq3 (x : tensor3).

(** [x.size()] as far as [bottle] reads it: sizes of dimensions 0 and 1. *)
Definition size01 (x : tensor3) : nat * nat := (length x, size1 x).

(** [x.view(x.size(0) * x.size(1), *x.size()[2:])] *)
Definition flatten (x : tensor3) : tensor := concat x.

(** The rows of a flat sequence, [B] at a time, [T] times. *)
Fixpoint unflatten {A} (T B : nat) (y : list A) : list (list A) :=
  match T with
  | O => []
  | S T' => take B y :: unflatten T' B (drop B y)
  end.

(** [y.view(T, B, *y.size()[1:])]: the number of elements must be kept.  A
    result without rows is taken to have width zero. *)
Definition view (T B : nat) (y : squeezed) : M bottled :=
  match y with
  | Rank1 v =>
      if (length v =? T * B)%nat then ret (Seq2 (unflatten T B v))
      else raise RuntimeError
  | Rank2 x =>
      if (size1 x =? 0)%nat then ret (Seq3 (replicate T (replicate B [])))
      else if (length x =? T * B)%nat then ret (Seq3 (unflatten T B x))
      else raise RuntimeError
  end.

(** Lines 11-16.  The sizes are read first; [f] is called on the flattened
    arguments; the sizes of the first argument shape the result. *)
Definition bottle (f : list tensor -> M squeezed) (x_tuple : list tensor3)
    : M bottled :=
  let x_sizes := map size01 x_tuple in
  let* y := f (map flatten x_tuple) in
  let* s := getitem x_sizes 0 in
  view (fst s) (snd s) y.

End Shapes.

(** ** The encoder *)

Module Encoder.
Import Torch.

Record t := {
  act_fn : tensor -> tensor;
  fc1 : Linear; fc2 : Linear; fc3 : Linear
}.

Definition forward (self : t) (observation : tensor) : tensor :=
  let hidden := act_fn self (linear (fc1 self) observation) in
  let hidden := act_fn self (linear (fc2 self) hidden) in
  let hidden := linear (fc3 self) hidden in
  hidden.

End Encoder.

(** ** The decoder heads *)

Module ObservationModel.
Import Torch.

Record t := {
  act_fn : tensor -> tensor;
  fc1 : Linear; fc2 : Linear; fc3 : Linear
}.

Definition forward (self : t) (belief state : tensor) : tensor :=
  let hidden := act_fn self (linear (fc1 self) (cat belief state)) in
  let hidden := act_fn self (linear (fc2 self) hidden) in
  let observation := linear (fc3 self) hidden in
  observation.

End ObservationModel.

Module RewardModel.
Import Torch Shapes.

Record t := {
  act_fn : tensor -> tensor;
  fc1 : Linear; fc2 : Linear; fc3 : Linear
}.

Definition forward (self : t) (belief state : tensor) : M squeezed :=
  let x := cat belief state in
  let hidden := act_fn self (linear (fc1 self) x) in
  let hidden := act_fn self (linear (fc2 self) hidden) in
  let reward := linear (fc3 self) hidden in
  squeeze (-1) reward.

End RewardModel.

Module ValueModel.
Import Torch Shapes.

Record t := {
  act_fn : tensor -> tensor;
  fc1 : Linear; fc2 : Linear; fc3 : Linear; fc4 : Linear
}.

Definition forward (self : t) (belief state : tensor) : M squeezed :=
  let x := cat belief state in
  let hidden := act_fn self (linear (fc1 self) x) in
  let hidden := act_fn self (linear (fc2 self) hidden) in
  let hidden := act_fn self (linear (fc3 self) hidden) in
  squeeze 1 (linear (fc4 self) hidden).

End ValueModel.

Module PCONTModel.
Import Torch Shapes.
Local Open Scope comp_scope.

Record t := {
  act_fn : tensor -> tensor;
  fc1 : Linear; fc2 : Linear; fc3 : Linear; fc4 : Linear
}.

Definition forward (self : t) (belief state : tensor) : M squeezed :=
  let x := cat belief state in
  let hidden := act_fn self (linear (fc1 self) x) in
  let hidden := act_fn self (linear (fc2 self) hidden) in
  let hidden := act_fn self (linear (fc3 self) hidden) in
  let* x := squeeze 1 (linear (fc4 self) hidden) in
  let p := squeezed_map sigmoid1 x in
  ret p.

End PCONTModel.

(** ** The vocabulary of the specification *)

Module Contract.
Import Torch Distributions.

(** Sequence lengths a call may rely on: an observation per action, and a
    mask entry for every step but the first. *)
Definition valid_lengths (actions : tensor3)
    (observations nonterminals : option tensor3) : Prop :=
  match observations with
  | Some obs => (length actions <= length obs)%nat
  | None => True
  end /\
  match nonterminals with
  | Some nt => (length actions - 1 <= length nt)%nat
  | None => True
  end.

(** Every working list has [T] entries. *)
Definition lengths (T : nat) (st : TransitionModel.lists) : Prop :=
  length (TransitionModel.beliefs st) = T /\
  length (TransitionModel.prior_states st) = T /\
  length (TransitionModel.prior_means st) = T /\
  length (TransitionModel.prior_std_devs st) = T /\
  length (TransitionModel.posterior_states st) = T /\
  length (TransitionModel.posterior_means st) = T /\
  length (TransitionModel.posterior_std_devs st) = T.

(** Two collections of lists with the same entries up to index [n]. *)
Definition agree_upto (n : nat) (st st' : TransitionModel.lists) : Prop :=
  forall i, (i <= n)%nat ->
    TransitionModel.beliefs st' !! i = TransitionModel.beliefs st !! i /\
    TransitionModel.prior_states st' !! i = TransitionModel.prior_states st !! i /\
    TransitionModel.prior_means st' !! i = TransitionModel.prior_means st !! i /\
    TransitionModel.prior_std_devs st' !! i = TransitionModel.prior_std_devs st !! i /\
    TransitionModel.posterior_states st' !! i = TransitionModel.posterior_states st !! i /\
    TransitionModel.posterior_means st' !! i = TransitionModel.posterior_means st !! i /\
    TransitionModel.posterior_std_devs st' !! i = TransitionModel.posterior_std_devs st !! i.

(** state_used[t]: the posterior state if observations were supplied, else
    the prior state; multiplied by mask[t-1] if [t > 0] and a mask is given. *)
Definition state_used (observations nonterminals : option tensor3)
    (st : TransitionModel.lists) (t : nat) (s : tensor) : Prop :=
  exists s0,
    match observations with
    | None => TransitionModel.prior_states st
    | Some _ => TransitionModel.posterior_states st
    end !! t = Some s0 /\
    match nonterminals, t with
    | None, _ => s = s0
    | Some _, O => s = s0
    | Some nt, S k => exists m, nt !! k = Some m /\ s = mul s0 m
    end.

(** A window of the generator's sequence, in the shape of [x]. *)
Definition noise_like (g0 : Generator) (x noise : tensor) : Prop :=
  exists off,
    noise = fst (randn_rows (shape x) {| normal := normal g0; offset := off |}).

(** (mean, raw_std) = split(out, 2); std = softplus(raw_std) + min_std_dev;
    state = mean + std * noise. *)
Definition gaussian_of (min_std : R) (g0 : Generator) (out mean std state : tensor)
    : Prop :=
  mean = fst (chunk out) /\
  std = add_scalar (softplus (snd (chunk out))) min_std /\
  exists noise, noise_like g0 mean noise /\ state = add mean (mul std noise).

(** The equations of step [t], [1 <= t <= T-1], over the working lists.
    The embedding of time [t] is entry [t-1] of the observations argument. *)
Definition step_equations (self : TransitionModel.t) (actions : tensor3)
    (observations nonterminals : option tensor3) (g0 : Generator)
    (st : TransitionModel.lists) (t : nat) : Prop :=
  exists s a b_prev b,
    state_used observations nonterminals st (t - 1) s /\
    actions !! (t - 1)%nat = Some a /\
    TransitionModel.beliefs st !! (t - 1)%nat = Some b_prev /\
    TransitionModel.beliefs st !! t = Some b /\
    b = gru_cell (TransitionModel.rnn self)
          (TransitionModel.act_fn self
             (linear (TransitionModel.fc_embed_state_action self) (cat s a)))
          b_prev /\
    (exists mean std state,
       TransitionModel.prior_means st !! t = Some mean /\
       TransitionModel.prior_std_devs st !! t = Some std /\
       TransitionModel.prior_states st !! t = Some state /\
       gaussian_of (TransitionModel.min_std_dev self) g0
         (linear (TransitionModel.fc_state_prior self)
            (TransitionModel.act_fn self
               (linear (TransitionModel.fc_embed_belief_prior self) b)))
         mean std state) /\
    (forall obs, observations = Some obs ->
       exists e mean std state,
         obs !! (t - 1)%nat = Some e /\
         TransitionModel.posterior_means st !! t = Some mean /\
         TransitionModel.posterior_std_devs st !! t = Some std /\
         TransitionModel.posterior_states st !! t = Some state /\
         gaussian_of (TransitionModel.min_std_dev self) g0
           (linear (TransitionModel.fc_state_posterior self)
              (TransitionModel.act_fn self
                 (linear (TransitionModel.fc_embed_belief_posterior self) (cat b e))))
           mean std state).

(** The returned sequences, read off the working lists. *)
Definition outputs (observations : option tensor3) (st : TransitionModel.lists)
    : list tensor3 :=
  [drop 1 (TransitionModel.beliefs st);
   drop 1 (TransitionModel.prior_states st);
   drop 1 (TransitionModel.prior_means st);
   drop 1 (TransitionModel.prior_std_devs st)] ++
  match observations with
  | None => []
  | Some _ => [drop 1 (TransitionModel.posterior_states st);
               drop 1 (TransitionModel.posterior_means st);
               drop 1 (TransitionModel.posterior_std_devs st)]
  end.

Definition all_zero (x : tensor) : Prop := Forall (Forall (fun v => v = 0)) x.

(** Every entry of a tensor satisfies [P]. *)
Definition entries (P : R -> Prop) (x : tensor) : Prop := Forall (Forall P) x.

(** Entry [(b, f)] of a rank-2 tensor, and the tensors of shape [B x F]. *)
Definition entry (s : tensor) (b f : nat) : R := nth f (nth b s []) 0.
Definition rectangular (B F : nat) (s : tensor) : Prop :=
  length s = B /\ Forall (fun r => length r = F) s.

(** The [B x F] tensor with entry [h b f] at [(b, f)]. *)
Definition tabulate (B F : nat) (h : nat -> nat -> R) : tensor :=
  map (fun b => map (fun f => h b f) (seq 0 F)) (seq 0 B).

(** The density of Normal(mu, sigma) at [x], and the density at [y] of its
    image under tanh: the Normal density at the pre-image [atanh y] divided
    by the derivative [1 - y^2] of tanh there. *)
Definition normal_density (mu sigma x : R) : R :=
  / (sigma * sqrt (2 * PI)) * exp (- ((x - mu) * (x - mu)) / (2 * (sigma * sigma))).
Definition tanh_normal_density (mu sigma y : R) : R :=
  normal_density mu sigma (atanh1 y) / (1 - y * y).

(** The log-density of the independent joint of tanh-Normal components with
    parameters [mean], [std] at [action], one value per batch row of
    [action_size] components. *)
Definition joint_log_density (action_size : nat) (mean std action : tensor)
    : list R :=
  map (fun b =>
         sum_list (map (fun j => ln (tanh_normal_density (entry mean b j)
                                       (entry std b j) (entry action b j)))
                       (seq 0 action_size)))
      (seq 0 (length action)).

(** The number of entries of a tensor with the given row lengths. *)
Definition numel (rows : list nat) : nat := fold_right Nat.add O rows.

(** One reparameterized sample of the tanh-transformed Gaussian, and [n]
    of them in a row. *)
Definition draw (d : Distributions.Independent) (g : Generator) : tensor * Generator :=
  let n := Distributions.base_dist (Distributions.base d) in
  let (eps, g') :=
    randn_rows (shape (add (Distributions.loc n) (Distributions.scale n))) g in
  (tanh (add (Distributions.loc n) (mul eps (Distributions.scale n))), g').

Fixpoint draws (n : nat) (d : Distributions.Independent) (g : Generator)
    : tensor3 * Generator :=
  match n with
  | O => ([], g)
  | S n' =>
      let (x, g1) := draw d g in
      let (xs, g2) := draws n' d g1 in
      (x :: xs, g2)
  end.

(** The distribution object [ActorModel.forward] wraps. *)
Definition wrapped (self : ActorModel.t) (belief state : tensor)
    : Distributions.Independent :=
  ActorModel.action_dist (fst (ActorModel.mean_std self belief state))
                         (snd (ActorModel.mean_std self belief state)).

(** The optional second component of the result of [ActorModel.forward]. *)
Definition logp_of (with_logprob : bool) (d : Distributions.Independent)
    (action : tensor) : option (list R) :=
  if with_logprob then Some (Distributions.log_prob d action) else None.

(** The number of draws one sample consumes. *)
Definition sample_numel (d : Distributions.Independent) : nat :=
  let n := Distributions.base_dist (Distributions.base d) in
  numel (shape (add (Distributions.loc n) (Distributions.scale n))).

(** Two generators whose next [n] draws coincide. *)
Definition same_draws (n : nat) (g1 g2 : Generator) : Prop :=
  forall i, (i < n)%nat ->
    normal g1 (offset g1 + i)%nat = normal g2 (offset g2 + i)%nat.

End Contract.

(** ** Row-wise reading of the feed-forward networks *)

Module Rows.
Import Torch Shapes.

(** An activation that acts entry by entry, as [relu] and [elu] do. *)
Definition pointwise_act (f : tensor -> tensor) (a : R -> R) : Prop :=
  forall x, f x = pointwise a x.

(** One row through a linear layer. *)
Definition linear_row (l : Linear) (xr : list R) : list R :=
  zip_with (fun wr b => dot wr xr + b) (weight l) (bias l).

(** One row through a layer followed by the activation. *)
Definition layer_row (a : R -> R) (l : Linear) (xr : list R) : list R :=
  map a (linear_row l xr).

Definition encoder_row (self : Encoder.t) (a : R -> R) (o : list R) : list R :=
  linear_row (Encoder.fc3 self)
    (layer_row a (Encoder.fc2 self) (layer_row a (Encoder.fc1 self) o)).

Definition observation_row (self : ObservationModel.t) (a : R -> R)
    (b s : list R) : list R :=
  linear_row (ObservationModel.fc3 self)
    (layer_row a (ObservationModel.fc2 self)
       (layer_row a (ObservationModel.fc1 self) (b ++ s))).

Definition reward_row (self : RewardModel.t) (a : R -> R) (b s : list R) : R :=
  nth 0 (linear_row (RewardModel.fc3 self)
           (layer_row a (RewardModel.fc2 self)
              (layer_row a (RewardModel.fc1 self) (b ++ s)))) 0.

Definition value_row (self : ValueModel.t) (a : R -> R) (b s : list R) : R :=
  nth 0 (linear_row (ValueModel.fc4 self)
           (layer_row a (ValueModel.fc3 self)
              (layer_row a (ValueModel.fc2 self)
                 (layer_row a (ValueModel.fc1 self) (b ++ s))))) 0.

Definition pcont_row (self : PCONTModel.t) (a : R -> R) (b s : list R) : R :=
  sigmoid1
    (nth 0 (linear_row (PCONTModel.fc4 self)
              (layer_row a (PCONTModel.fc3 self)
                 (layer_row a (PCONTModel.fc2 self)
                    (layer_row a (PCONTModel.fc1 self) (b ++ s))))) 0).

(** A callable of one tensor, and of two, applied to unpacked arguments. *)
Definition call1 (h : tensor -> M squeezed) (args : list tensor) : M squeezed :=
  match args with
  | [x] => h x
  | _ => raise TypeError
  end.
Definition call2 (h : tensor -> tensor -> M squeezed) (args : list tensor)
    : M squeezed :=
  match args with
  | [x; y] => h x y
  | _ => raise TypeError
  end.

(** A sequence of [T] slices of [B] rows each. *)
Definition slices (T B : nat) (x : tensor3) : Prop :=
  length x = T /\ Forall (fun s => length s = B) x.

End Rows.

(** ** One iteration of the recurrence as a function of what it reads *)

Module Chunks.
Import Torch.
Local Open Scope comp_scope.

(** What an iteration writes at index [t + 1]: the belief, the prior mean,
    std-dev and state, and with observations the posterior mean, std-dev and
    state. *)
Record step_values := {
  sv_belief : tensor;
  sv_prior_mean : tensor;
  sv_prior_std : tensor;
  sv_prior_state : tensor;
  sv_posterior : option (tensor * tensor * tensor)
}.

Definition write (t : nat) (v : step_values) (st : TransitionModel.lists)
    : TransitionModel.lists :=
  {| TransitionModel.beliefs := <[S t := sv_belief v]> (TransitionModel.beliefs st);
     TransitionModel.prior_states :=
       <[S t := sv_prior_state v]> (TransitionModel.prior_states st);
     TransitionModel.prior_means :=
       <[S t := sv_prior_mean v]> (TransitionModel.prior_means st);
     TransitionModel.prior_std_devs :=
       <[S t := sv_prior_std v]> (TransitionModel.prior_std_devs st);
     TransitionModel.posterior_states :=
       match sv_posterior v with
       | Some (_, _, s) => <[S t := s]> (TransitionModel.posterior_states st)
       | None => TransitionModel.posterior_states st
       end;
     TransitionModel.posterior_means :=
       match sv_posterior v with
       | Some (m, _, _) => <[S t := m]> (TransitionModel.posterior_means st)
       | None => TransitionModel.posterior_means st
       end;
     TransitionModel.posterior_std_devs :=
       match sv_posterior v with
       | Some (_, d, _) => <[S t := d]> (TransitionModel.posterior_std_devs st)
       | None => TransitionModel.posterior_std_devs st
       end |}.

(** The values of an iteration from the selected state [s], the action [a],
    the previous belief [b] and, with observations, the looked-up embedding
    ([Some None] when the index is out of range). *)
Definition compute (self : TransitionModel.t) (s a b : tensor)
    (e : option (option tensor)) : M step_values :=
  let belief' :=
    gru_cell (TransitionModel.rnn self)
      (TransitionModel.act_fn self
         (linear (TransitionModel.fc_embed_state_action self) (cat s a))) b in
  let* (mean, std_dev, state) :=
    TransitionModel.gaussian (TransitionModel.min_std_dev self)
      (linear (TransitionModel.fc_state_prior self)
         (TransitionModel.act_fn self
            (linear (TransitionModel.fc_embed_belief_prior self) belief'))) in
  match e with
  | None =>
      ret {| sv_belief := belief'; sv_prior_mean := mean; sv_prior_std := std_dev;
             sv_prior_state := state; sv_posterior := None |}
  | Some None => raise IndexError
  | Some (Some observation) =>
      let* (qmean, qstd_dev, qstate) :=
        TransitionModel.gaussian (TransitionModel.min_std_dev self)
          (linear (TransitionModel.fc_state_posterior self)
             (TransitionModel.act_fn self
                (linear (TransitionModel.fc_embed_belief_posterior self)
                   (cat belief' observation)))) in
      ret {| sv_belief := belief'; sv_prior_mean := mean; sv_prior_std := std_dev;
             sv_prior_state := state;
             sv_posterior := Some (qmean, qstd_dev, qstate) |}
  end.

(** What iteration [t] reads, and the values it computes from that. *)
Definition values (self : TransitionModel.t) (actions : tensor3)
    (observations nonterminals : option tensor3) (t : nat)
    (st : TransitionModel.lists) : M step_values :=
  let* s := TransitionModel.select_state observations nonterminals st t in
  let* a := getitem actions t in
  let* b := getitem (TransitionModel.beliefs st) t in
  compute self s a b (option_map (fun obs => obs !! t) observations).

(** The same entries at indices [k + i] of one collection of lists and [i]
    of another, for [1 <= i <= m]; the posterior lists count only when
    observations are given. *)
Definition shifted (k m : nat) (with_posterior : bool)
    (st1 st2 : TransitionModel.lists) : Prop :=
  forall i, (1 <= i <= m)%nat ->
    TransitionModel.beliefs st1 !! (k + i)%nat = TransitionModel.beliefs st2 !! i /\
    TransitionModel.prior_states st1 !! (k + i)%nat
      = TransitionModel.prior_states st2 !! i /\
    TransitionModel.prior_means st1 !! (k + i)%nat
      = TransitionModel.prior_means st2 !! i /\
    TransitionModel.prior_std_devs st1 !! (k + i)%nat
      = TransitionModel.prior_std_devs st2 !! i /\
    (with_posterior = true ->
     TransitionModel.posterior_states st1 !! (k + i)%nat
       = TransitionModel.posterior_states st2 !! i /\
     TransitionModel.posterior_means st1 !! (k + i)%nat
       = TransitionModel.posterior_means st2 !! i /\
     TransitionModel.posterior_std_devs st1 !! (k + i)%nat
       = TransitionModel.posterior_std_devs st2 !! i).

(** The iterations [k, k + 1, ..., k + m - 1] of the loop, from given lists. *)
Definition iterate_from (self : TransitionModel.t) (actions : tensor3)
    (observations nonterminals : option tensor3) (k m : nat)
    (st : TransitionModel.lists) : M TransitionModel.lists :=
  fold_left (fun acc t =>
               bind acc (TransitionModel.step self actions observations nonterminals t))
            (seq k m) (ret st).

(** The last entry of a returned sequence. *)
Definition last_of (x : tensor3) : tensor := List.last x [].

(** What a caller carries from one call into the next: the last belief, and
    the last state of the kind the loop selects, multiplied by the mask entry
    of the last step when a mask is given. *)
Definition carry_belief (out : list tensor3) : tensor := last_of (nth 0 out []).

Definition carry_state (observations nonterminals : option tensor3) (n : nat)
    (out : list tensor3) : tensor :=
  let s := last_of (nth (match observations with None => 1 | Some _ => 4 end)%nat
                        out []) in
  match nonterminals with
  | None => s
  | Some nt => mul s (nth (n - 1) nt [])
  end.

(** Optional sequence arguments that are both absent, or both present with
    the same first [n] entries. *)
Definition same_upto (n : nat) (x y : option tensor3) : Prop :=
  match x, y with
  | None, None => True
  | Some u, Some v => take n u = take n v
  | _, _ => False
  end.

End Chunks.

(** ** Small concrete instances *)

Module Examples.
Import Torch.

(** A linear layer of the given shape with zero weights and zero bias. *)
Definition zeros_linear (i o : nat) : Linear :=
  {| weight := replicate o (replicate i 0); bias := replicate o 0 |}.

Definition gru : GRUCell :=
  {| w_ir := zeros_linear 1 1; w_hr := zeros_linear 1 1;
     w_iz := zeros_linear 1 1; w_hz := zeros_linear 1 1;
     w_in := zeros_linear 1 1; w_hn := zeros_linear 1 1 |}.

(** [TransitionModel(1, 1, 1, 1, 1)] *)
Definition rssm : TransitionModel.t :=
  {| TransitionModel.act_fn := relu;
     TransitionModel.min_std_dev := 0.1;
     TransitionModel.fc_embed_state_action := zeros_linear 2 1;
     TransitionModel.rnn := gru;
     TransitionModel.fc_embed_belief_prior := zeros_linear 1 1;
     TransitionModel.fc_state_prior := zeros_linear 1 2;
     TransitionModel.fc_embed_belief_posterior := zeros_linear 2 1;
     TransitionModel.fc_state_posterior := zeros_linear 1 2 |}.

(** Two time steps, batch size one. *)
Definition actions2 : tensor3 := [[[1]]; [[1]]].
Definition observations2 : tensor3 := [[[0]]; [[0]]].
Definition nonterminals1 : tensor3 := [[[0]]].
Definition state0 : tensor := [[1]].
Definition belief0 : tensor := [[0]].

(** Three time steps that start like the two above. *)
Definition actions3 : tensor3 := [[[1]]; [[2]]; [[3]]].
Definition observations3 : tensor3 := [[[0]]; [[5]]; [[5]]].
Definition nonterminals2 : tensor3 := [[[1]]; [[1]]].

Definition zero_noise : Generator := {| normal := fun _ => 0; offset := 0 |}.

(** A generator whose first hundred draws are 0 and whose later draws are 1. *)
Definition late_noise : Generator :=
  {| normal := fun i => if (i <? 100)%nat then 0 else 1; offset := 0 |}.

(** [ActorModel(1, 1, 1, 1)] with the default hyperparameters. *)
Definition actor : ActorModel.t :=
  {| ActorModel.act_fn := elu;
     ActorModel.fc1 := zeros_linear 2 1;
     ActorModel.fc2 := zeros_linear 1 1;
     ActorModel.fc3 := zeros_linear 1 1;
     ActorModel.fc4 := zeros_linear 1 1;
     ActorModel.fc5 := zeros_linear 1 2;
     ActorModel.min_std := 0.0001;
     ActorModel.init_std := 5;
     ActorModel.mean_scale := 5 |}.

(** The std-dev of its action distribution. *)
Definition sigma : R := softplus1 (0 + ActorModel.raw_init_std actor) + 0.0001.

(** [RewardModel(1, 1, 1)] and a sequence of two time steps of two rows. *)
Definition reward_model : RewardModel.t :=
  {| RewardModel.act_fn := relu;
     RewardModel.fc1 := zeros_linear 2 1;
     RewardModel.fc2 := zeros_linear 1 1;
     RewardModel.fc3 := zeros_linear 1 1 |}.

Definition pcont_model : PCONTModel.t :=
  {| PCONTModel.act_fn := relu;
     PCONTModel.fc1 := zeros_linear 2 1;
     PCONTModel.fc2 := zeros_linear 1 1;
     PCONTModel.fc3 := zeros_linear 1 1;
     PCONTModel.fc4 := zeros_linear 1 1 |}.

Definition value_model : ValueModel.t :=
  {| ValueModel.act_fn := relu;
     ValueModel.fc1 := zeros_linear 2 1;
     ValueModel.fc2 := zeros_linear 1 1;
     ValueModel.fc3 := zeros_linear 1 1;
     ValueModel.fc4 := zeros_linear 1 1 |}.

Definition observation_model : ObservationModel.t :=
  {| ObservationModel.act_fn := relu;
     ObservationModel.fc1 := zeros_linear 2 1;
     ObservationModel.fc2 := zeros_linear 1 1;
     ObservationModel.fc3 := zeros_linear 1 3 |}.

Definition encoder : Encoder.t :=
  {| Encoder.act_fn := relu;
     Encoder.fc1 := zeros_linear 3 2;
     Encoder.fc2 := zeros_linear 2 2;
     Encoder.fc3 := zeros_linear 2 2 |}.

Definition beliefs22 : tensor3 := [[[1]; [2]]; [[3]; [4]]].
Definition states22 : tensor3 := [[[5]; [6]]; [[7]; [8]]].

End Examples.

(** ** Properties of the tensor runtime *)

Section RuntimeFacts.
Import Torch.

Lemma softplus1_pos (x : R) : 0 < softplus1 x.
Proof.
  unfold softplus1. destruct (Rlt_dec 20 x) as [Hx | Hx]; [lra |].
  rewrite <- ln_1. apply ln_increasing; [lra |].
  pose proof (exp_pos x). lra.
Qed.

Lemma Rdiv_lt_upper (a b c : R) : 0 < c -> a < b * c -> a / c < b.
Proof.
  intros Hc H. apply Rmult_lt_reg_r with c; [exact Hc |].
  replace (a / c * c) with a by (field; lra). exact H.
Qed.

Lemma Rdiv_lt_lower (a b c : R) : 0 < c -> a * c < b -> a < b / c.
Proof.
  intros Hc H. apply Rmult_lt_reg_r with c; [exact Hc |].
  replace (b / c * c) with b by (field; lra). exact H.
Qed.

Lemma tanh_bounds (x : R) : -1 < Rtrigo_def.tanh x < 1.
Proof.
  unfold Rtrigo_def.tanh, sinh, cosh.
  pose proof (exp_pos x) as Hp. pose proof (exp_pos (- x)) as Hn.
  assert (Hc : 0 < (exp x + exp (- x)) / 2) by lra.
  split.
  - apply Rdiv_lt_lower; [exact Hc | lra].
  - apply Rdiv_lt_upper; [exact Hc | lra].
Qed.

Lemma for_range_S {S} (n : nat) (body : nat -> S -> M S) (st : S) :
  for_range (Datatypes.S n) body st = bind (for_range n body st) (body n).
Proof.
  unfold for_range. rewrite seq_S, fold_left_app. reflexivity.
Qed.

Lemma randn_rows_normal rows : forall g, normal (snd (randn_rows rows g)) = normal g.
Proof.
  induction rows as [| n rows IH]; intros g; simpl; [reflexivity |].
  destruct (randn_rows rows (advance n g)) as [vs g2] eqn:E.
  simpl. specialize (IH (advance n g)). rewrite E in IH. exact IH.
Qed.

End RuntimeFacts.

(** ** The time loop of [TransitionModel.forward] *)

Section LoopFacts.
Import Torch Contract.

Variable self : TransitionModel.t.
Variable actions : tensor3.
Variable g0 : Generator.

Lemma gaussian_run (min_std : R) (out : tensor) (g : Generator) :
  normal g = normal g0 ->
  exists mean std state g',
    TransitionModel.gaussian min_std out g = Ok (mean, std, state, g') /\
    normal g' = normal g0 /\
    gaussian_of min_std g0 out mean std state.
Proof.
  intros Hg. unfold TransitionModel.gaussian.
  destruct (chunk out) as [mean raw] eqn:Hc.
  unfold bind, randn_like, ret.
  destruct (randn_rows (shape mean) g) as [noise g'] eqn:Hn.
  exists mean, (add_scalar (softplus raw) min_std),
    (add mean (mul (add_scalar (softplus raw) min_std) noise)), g'.
  split; [reflexivity |]. split.
  - pose proof (randn_rows_normal (shape mean) g) as Hk.
    rewrite Hn in Hk. simpl in Hk. congruence.
  - unfold gaussian_of. rewrite Hc. simpl.
    split; [reflexivity |]. split; [reflexivity |].
    exists noise. split; [| reflexivity].
    exists (offset g). destruct g as [nm off]. simpl in *. subst nm.
    rewrite Hn. reflexivity.
Qed.

Lemma lookup_lt_Some_ex {A} (l : list A) (i : nat) :
  (i < length l)%nat -> exists x, l !! i = Some x.
Proof. intros H. apply lookup_lt_is_Some_2 in H. destruct H as [x Hx]. eauto. Qed.

Lemma select_state_run (observations nonterminals : option tensor3)
    (st : TransitionModel.lists) (t T : nat) (g : Generator) :
  lengths T st -> (t < T)%nat -> (T = length actions + 1)%nat ->
  (t < length actions)%nat ->
  valid_lengths actions observations nonterminals ->
  exists s,
    TransitionModel.select_state observations nonterminals st t g = Ok (s, g) /\
    state_used observations nonterminals st t s.
Proof.
  intros HL Ht HT Hta [_ Hnt]. unfold TransitionModel.select_state, state_used.
  destruct HL as (_ & Hps & _ & _ & Hqs & _).
  assert (Hsel : exists s0,
    match observations with
    | Some _ => TransitionModel.posterior_states st
    | None => TransitionModel.prior_states st
    end !! t = Some s0).
  { destruct observations; apply lookup_lt_Some_ex; lia. }
  destruct Hsel as [s0 Hs0].
  unfold bind, getitem at 1. rewrite Hs0. unfold ret at 1.
  destruct nonterminals as [nt |].
  - destruct t as [| k]; simpl.
    + exists s0. split; [reflexivity |]. exists s0. auto.
    + destruct (lookup_lt_Some_ex nt k ltac:(lia)) as [m Hm].
      unfold getitem. rewrite Nat.sub_0_r, Hm. unfold ret.
      exists (mul s0 m). split; [reflexivity |].
      exists s0. split; [reflexivity |]. exists m. auto.
  - exists s0. split; [reflexivity |]. exists s0. auto.
Qed.

Lemma state_used_agree (observations nonterminals : option tensor3)
    (st st' : TransitionModel.lists) (n t : nat) (s : tensor) :
  agree_upto n st st' -> (t <= n)%nat ->
  state_used observations nonterminals st t s ->
  state_used observations nonterminals st' t s.
Proof.
  intros Ha Ht [s0 [Hs0 Hm]]. exists s0. split; [| exact Hm].
  destruct (Ha t Ht) as (_ & Hps & _ & _ & Hqs & _).
  destruct observations; congruence.
Qed.

Lemma step_run (observations nonterminals : option tensor3)
    (st : TransitionModel.lists) (t T : nat) (g : Generator) :
  lengths T st -> (T = length actions + 1)%nat -> (t < length actions)%nat ->
  valid_lengths actions observations nonterminals ->
  normal g = normal g0 ->
  exists st' g',
    TransitionModel.step self actions observations nonterminals t st g = Ok (st', g') /\
    lengths T st' /\ agree_upto t st st' /\ normal g' = normal g0 /\
    step_equations self actions observations nonterminals g0 st' (S t).
Proof.
  intros HL HT Ht Hv Hg.
  destruct (select_state_run observations nonterminals st t T g HL ltac:(lia) HT Ht Hv) as [s [Hsel Hused]].
  destruct (lookup_lt_Some_ex actions t Ht) as [a Ha].
  pose proof HL as (Hb & Hps & Hpm & Hpd & Hqs & Hqm & Hqd).
  destruct (lookup_lt_Some_ex (TransitionModel.beliefs st) t ltac:(lia)) as [b Hbt].
  unfold TransitionModel.step.
  unfold bind at 1. rewrite Hsel.
  unfold bind at 1. unfold getitem at 1. rewrite Ha. unfold ret at 1.
  unfold bind at 1. unfold getitem at 1. rewrite Hbt. unfold ret at 1.
  set (b' := gru_cell (TransitionModel.rnn self)
               (TransitionModel.act_fn self
                  (linear (TransitionModel.fc_embed_state_action self) (cat s a))) b).
  destruct (gaussian_run (TransitionModel.min_std_dev self)
              (linear (TransitionModel.fc_state_prior self)
                 (TransitionModel.act_fn self
                    (linear (TransitionModel.fc_embed_belief_prior self) b'))) g Hg)
    as (mean & std & state & g1 & Hrun1 & Hg1 & Hgauss1).
  unfold bind at 1. rewrite Hrun1.
  destruct observations as [obs |].
  - destruct Hv as [Hvo _].
    replace (Z.to_nat (Z.of_nat t - 1 + 1)) with t by lia.
    destruct (lookup_lt_Some_ex obs t ltac:(lia)) as [e He].
    unfold bind at 1. unfold getitem at 1. rewrite He. unfold ret at 1.
    destruct (gaussian_run (TransitionModel.min_std_dev self)
                (linear (TransitionModel.fc_state_posterior self)
                   (TransitionModel.act_fn self
                      (linear (TransitionModel.fc_embed_belief_posterior self)
                         (cat b' e)))) g1 Hg1)
      as (qmean & qstd & qstate & g2 & Hrun2 & Hg2 & Hgauss2).
    simpl. unfold bind at 1. rewrite Hrun2. unfold ret.
    eexists _, g2. split; [reflexivity |].
    split; [| split; [| split; [exact Hg2 |]]].
    + unfold lengths; simpl. rewrite !length_insert. tauto.
    + intros i Hi. simpl.
      rewrite !list_lookup_insert_ne by lia. tauto.
    + exists s, a, b, b'. simpl. rewrite Nat.sub_0_r.
      split.
      { eapply state_used_agree with (n := t) (st := st); [| lia | exact Hused].
        intros i Hi. simpl. rewrite !list_lookup_insert_ne by lia. tauto. }
      split; [exact Ha |].
      split; [rewrite list_lookup_insert_ne by lia; exact Hbt |].
      split; [apply list_lookup_insert_eq; lia |].
      split; [reflexivity |].
      split.
      { exists mean, std, state.
        rewrite !list_lookup_insert_eq by lia. auto. }
      intros obs' Heq. inversion Heq; subst obs'.
      exists e, qmean, qstd, qstate.
      rewrite !list_lookup_insert_eq by lia. auto.
  - unfold ret.
    eexists _, g1. split; [reflexivity |].
    split; [| split; [| split; [exact Hg1 |]]].
    + unfold lengths; simpl. rewrite !length_insert. tauto.
    + intros i Hi. simpl.
      rewrite !list_lookup_insert_ne by lia. tauto.
    + exists s, a, b, b'. simpl. rewrite Nat.sub_0_r.
      split.
      { eapply state_used_agree with (n := t) (st := st); [| lia | exact Hused].
        intros i Hi. simpl. rewrite !list_lookup_insert_ne by lia. tauto. }
      split; [exact Ha |].
      split; [rewrite list_lookup_insert_ne by lia; exact Hbt |].
      split; [apply list_lookup_insert_eq; lia |].
      split; [reflexivity |].
      split.
      { exists mean, std, state.
        rewrite !list_lookup_insert_eq by lia. auto. }
      intros obs' Heq. discriminate.
Qed.

Lemma step_equations_agree (observations nonterminals : option tensor3)
    (st st' : TransitionModel.lists) (n t : nat) :
  agree_upto n st st' -> (t <= n)%nat ->
  step_equations self actions observations nonterminals g0 st t ->
  step_equations self actions observations nonterminals g0 st' t.
Proof.
  intros Hag Ht (s & a & bp & b & Hs & Ha & Hbp & Hb & Hbeq & Hprior & Hpost).
  destruct (Hag t Ht) as (Eb & Eps & Epm & Epd & Eqs & Eqm & Eqd).
  destruct (Hag (t - 1)%nat ltac:(lia)) as (Eb1 & _).
  exists s, a, bp, b.
  split; [eapply state_used_agree; [exact Hag | lia | exact Hs] |].
  split; [exact Ha |].
  split; [congruence |]. split; [congruence |]. split; [exact Hbeq |].
  split.
  - destruct Hprior as (m & d & x & H1 & H2 & H3 & H4).
    exists m, d, x. repeat split; try congruence; apply H4.
  - intros obs Ho. destruct (Hpost obs Ho) as (e & m & d & x & H0 & H1 & H2 & H3 & H4).
    exists e, m, d, x. repeat split; try congruence; apply H4.
Qed.

Lemma agree_upto_trans (n m : nat) (st1 st2 st3 : TransitionModel.lists) :
  (n <= m)%nat -> agree_upto n st1 st2 -> agree_upto m st2 st3 ->
  agree_upto n st1 st3.
Proof.
  intros Hnm H12 H23 i Hi.
  destruct (H12 i Hi) as (A1 & A2 & A3 & A4 & A5 & A6 & A7).
  destruct (H23 i ltac:(lia)) as (B1 & B2 & B3 & B4 & B5 & B6 & B7).
  repeat split; congruence.
Qed.

Lemma init_lengths (T : nat) (prev_state prev_belief : tensor) :
  lengths T (TransitionModel.init_lists T prev_state prev_belief).
Proof.
  unfold lengths, TransitionModel.init_lists; simpl.
  rewrite !length_insert, !length_replicate. tauto.
Qed.

(** The first [n] iterations run to completion, leave index 0 as it was
    initialised and establish the step equations up to [n]. *)
Lemma loop_run (observations nonterminals : option tensor3)
    (prev_state prev_belief : tensor) (n : nat) :
  let T := (length actions + 1)%nat in
  let init := TransitionModel.init_lists T prev_state prev_belief in
  (n <= length actions)%nat ->
  valid_lengths actions observations nonterminals ->
  exists st g',
    for_range n (TransitionModel.step self actions observations nonterminals) init g0
      = Ok (st, g') /\
    lengths T st /\ normal g' = normal g0 /\ agree_upto 0 init st /\
    forall t, (1 <= t <= n)%nat ->
      step_equations self actions observations nonterminals g0 st t.
Proof.
  intros T init Hn Hv. induction n as [| n IH].
  - exists init, g0. split; [reflexivity |].
    split; [apply init_lengths |]. split; [reflexivity |].
    split; [intros i _; tauto |]. intros t Ht. lia.
  - destruct (IH ltac:(lia)) as (st & g & Hrun & HL & Hg & Hag & Heq).
    destruct (step_run observations nonterminals st n T g HL eq_refl ltac:(lia) Hv Hg)
      as (st' & g' & Hstep & HL' & Hag' & Hg' & Heq').
    exists st', g'. rewrite for_range_S. unfold bind. rewrite Hrun.
    split; [exact Hstep |]. split; [exact HL' |]. split; [exact Hg' |].
    split; [eapply agree_upto_trans; [| exact Hag | exact Hag']; lia |].
    intros t Ht. destruct (decide (t = S n)) as [-> | Hne]; [exact Heq' |].
    eapply step_equations_agree; [exact Hag' | lia |]. apply Heq. lia.
Qed.

Lemma stack_drop1 {A} (l : list A) (g : Generator) :
  (2 <= length l)%nat -> stack (drop 1 l) g = Ok (drop 1 l, g).
Proof.
  intros H. destruct l as [| x [| y l]]; simpl in H; try lia. reflexivity.
Qed.

(** A call with a non-empty action sequence and sequence arguments of
    sufficient length returns the slices [l[1:]] of the working lists. *)
Lemma forward_run (observations nonterminals : option tensor3)
    (prev_state prev_belief : tensor) :
  (1 <= length actions)%nat ->
  valid_lengths actions observations nonterminals ->
  exists st g',
    TransitionModel.run_loop self prev_state actions prev_belief
      observations nonterminals g0 = Ok (st, g') /\
    TransitionModel.forward self prev_state actions prev_belief
      observations nonterminals g0 = Ok (outputs observations st, g') /\
    lengths (length actions + 1) st /\
    agree_upto 0
      (TransitionModel.init_lists (length actions + 1) prev_state prev_belief) st /\
    forall t, (1 <= t <= length actions)%nat ->
      step_equations self actions observations nonterminals g0 st t.
Proof.
  intros HL Hv.
  destruct (loop_run observations nonterminals prev_state prev_belief
              (length actions) ltac:(lia) Hv)
    as (st & g' & Hrun & Hlen & _ & Hag & Heq).
  exists st, g'.
  assert (Hloop : TransitionModel.run_loop self prev_state actions prev_belief
                    observations nonterminals g0 = Ok (st, g')).
  { unfold TransitionModel.run_loop.
    replace (length actions + 1 - 1)%nat with (length actions) by lia. exact Hrun. }
  split; [exact Hloop |]. split; [| auto].
  unfold TransitionModel.forward, bind. rewrite Hloop.
  destruct Hlen as (H1 & H2 & H3 & H4 & H5 & H6 & H7).
  unfold TransitionModel.stack_outputs, bind, outputs.
  rewrite !stack_drop1 by lia.
  destruct observations; [rewrite !stack_drop1 by lia |]; reflexivity.
Qed.

End LoopFacts.

(** ** Verified properties of [TransitionModel.forward] *)

Section TransitionModelFacts.
Import Torch Contract.

Lemma broadcast_Forall {A B C} (f : A -> B -> C) (P : C -> Prop)
    (xs : list A) (ys : list B) :
  (forall x y, x ∈ xs -> y ∈ ys -> P (f x y)) -> Forall P (broadcast f xs ys).
Proof.
  intros H. apply Forall_forall. intros z Hz. unfold broadcast in Hz.
  assert (Hzip : z ∈ zip_with f xs ys -> P z).
  { intros Hin. apply elem_of_zip_with in Hin.
    destruct Hin as (x & y & -> & Hx & Hy). auto. }
  assert (Hl : forall x, xs = [x] -> z ∈ map (f x) ys -> P z).
  { intros x -> Hin. apply list_elem_of_fmap in Hin.
    destruct Hin as (y & -> & Hy). apply H; [constructor | exact Hy]. }
  assert (Hr : forall y, ys = [y] -> z ∈ map (fun x => f x y) xs -> P z).
  { intros y -> Hin. apply list_elem_of_fmap in Hin.
    destruct Hin as (x & -> & Hx). apply H; [exact Hx | constructor]. }
  destruct xs as [| x [| x' xs']]; destruct ys as [| y [| y' ys']]; eauto.
Qed.

Lemma mul_all_zero (s m : tensor) : all_zero m -> all_zero (mul s m).
Proof.
  intros Hm. unfold all_zero, mul, binop. apply broadcast_Forall.
  intros r mr _ Hmr. apply broadcast_Forall. intros v w _ Hw.
  unfold all_zero in Hm. rewrite Forall_forall in Hm.
  specialize (Hm mr Hmr). rewrite Forall_forall in Hm.
  rewrite (Hm w Hw). lra.
Qed.

Lemma std_dev_above_floor (raw : tensor) (floor : R) :
  entries (fun v => floor <= v /\ floor < v) (add_scalar (softplus raw) floor).
Proof.
  unfold entries, add_scalar, softplus, pointwise.
  rewrite !Forall_map. apply Forall_forall. intros r _.
  rewrite !Forall_map. apply Forall_forall. intros v _.
  pose proof (softplus1_pos v). lra.
Qed.



(** C3.  For an action sequence of length [L >= 1] the call returns
    sequences of length exactly [L]: four of them without observations, seven
    with observations.  Each is the slice [l[1:]] of a working list, so index
    0, which holds the supplied initial belief and state, is not returned. *)
Theorem forward_sequence_lengths (self : TransitionModel.t)
    (prev_state : tensor) (actions : tensor3) (prev_belief : tensor)
    (observations nonterminals : option tensor3) (g : Generator) :
  (1 <= length actions)%nat ->
  valid_lengths actions observations nonterminals ->
  exists st out g',
    TransitionModel.run_loop self prev_state actions prev_belief
      observations nonterminals g = Ok (st, g') /\
    TransitionModel.forward self prev_state actions prev_belief
      observations nonterminals g = Ok (out, g') /\
    Forall (fun s => length s = length actions) out /\
    length out = match observations with None => 4%nat | Some _ => 7%nat end /\
    out = outputs observations st /\
    TransitionModel.beliefs st !! 0%nat = Some prev_belief /\
    TransitionModel.prior_states st !! 0%nat = Some prev_state /\
    TransitionModel.posterior_states st !! 0%nat = Some prev_state.
Proof.
  intros HL Hv.
  destruct (forward_run self actions g observations nonterminals
              prev_state prev_belief HL Hv) as (st & g' & H1 & H2 & Hlen & Hag & _).
  exists st, (outputs observations st), g'.
  destruct Hlen as (L1 & L2 & L3 & L4 & L5 & L6 & L7).
  split; [exact H1 |]. split; [exact H2 |]. split.
  - unfold outputs. destruct observations; simpl;
      repeat (apply List.Forall_cons; [rewrite length_drop; lia |]);
      apply List.Forall_nil.
  - split; [destruct observations; reflexivity |]. split; [reflexivity |].
    destruct (Hag 0%nat ltac:(lia)) as (E1 & E2 & _ & _ & E5 & _).
    rewrite E1, E2, E5. unfold TransitionModel.init_lists; simpl.
    replace (length actions + 1)%nat with (S (length actions)) by lia.
    simpl. auto.
Qed.

Lemma forward_sequence_lengths_witness :
  exists st out g',
    TransitionModel.run_loop Examples.rssm Examples.state0 Examples.actions2
      Examples.belief0 None None Examples.zero_noise = Ok (st, g') /\
    TransitionModel.forward Examples.rssm Examples.state0 Examples.actions2
      Examples.belief0 None None Examples.zero_noise = Ok (out, g') /\
    Forall (fun s => length s = length Examples.actions2) out /\
    length out = 4%nat /\
    out = outputs None st /\
    TransitionModel.beliefs st !! 0%nat = Some Examples.belief0 /\
    TransitionModel.prior_states st !! 0%nat = Some Examples.state0 /\
    TransitionModel.posterior_states st !! 0%nat = Some Examples.state0.
Proof.
  apply (forward_sequence_lengths Examples.rssm Examples.state0 Examples.actions2
           Examples.belief0 None None Examples.zero_noise).
  - vm_compute. lia.
  - vm_compute. tauto.
Defined.

Lemma state_used_functional (observations nonterminals : option tensor3)
    (st : TransitionModel.lists) (t : nat) (s s' : tensor) :
  state_used observations nonterminals st t s ->
  state_used observations nonterminals st t s' -> s = s'.
Proof.
  intros (s0 & H0 & Hs) (s1 & H1 & Hs'). rewrite H0 in H1. inversion H1; subst s1.
  destruct nonterminals as [nt |]; [destruct t as [| k] |]; try congruence.
  destruct Hs as (m & Hm & ->). destruct Hs' as (m' & Hm' & ->). congruence.
Qed.

(** C4.  When a nonterminal mask is supplied and its entry [k] is zero, the
    state that enters the belief recurrence at the following loop index
    [k + 1] is all-zero, whatever the prior or posterior state stored for
    that step; and at loop index 0 the recurrence receives the supplied
    initial state and belief, whatever the mask. *)
Theorem nonterminal_masking (self : TransitionModel.t)
    (prev_state : tensor) (actions : tensor3) (prev_belief : tensor)
    (observations nonterminals : option tensor3) (g : Generator) :
  (1 <= length actions)%nat ->
  valid_lengths actions observations nonterminals ->
  exists st g',
    TransitionModel.run_loop self prev_state actions prev_belief
      observations nonterminals g = Ok (st, g') /\
    (exists a0,
       actions !! 0%nat = Some a0 /\
       (forall gx, TransitionModel.select_state observations nonterminals st 0 gx
                   = Ok (prev_state, gx)) /\
       TransitionModel.beliefs st !! 1%nat =
         Some (gru_cell (TransitionModel.rnn self)
                 (TransitionModel.act_fn self
                    (linear (TransitionModel.fc_embed_state_action self)
                       (cat prev_state a0)))
                 prev_belief)) /\
    forall nt k m,
      nonterminals = Some nt -> nt !! k = Some m -> all_zero m ->
      (k + 2 <= length actions)%nat ->
      exists s a b,
        (forall gx, TransitionModel.select_state observations nonterminals st (k + 1) gx
                    = Ok (s, gx)) /\
        all_zero s /\
        actions !! (k + 1)%nat = Some a /\
        TransitionModel.beliefs st !! (k + 1)%nat = Some b /\
        TransitionModel.beliefs st !! (k + 2)%nat =
          Some (gru_cell (TransitionModel.rnn self)
                  (TransitionModel.act_fn self
                     (linear (TransitionModel.fc_embed_state_action self) (cat s a)))
                  b).
Proof.
  intros HL Hv.
  destruct (forward_run self actions g observations nonterminals
              prev_state prev_belief HL Hv) as (st & g' & H1 & _ & Hlen & Hag & Heq).
  exists st, g'. split; [exact H1 |].
  assert (Hsel : forall t gx s, (t < length actions)%nat ->
            state_used observations nonterminals st t s ->
            TransitionModel.select_state observations nonterminals st t gx
              = Ok (s, gx)).
  { intros t gx s Ht Hs.
    destruct (select_state_run actions observations nonterminals st t
                (length actions + 1) gx Hlen ltac:(lia) eq_refl Ht Hv)
      as (s' & Hrun & Hs').
    rewrite (state_used_functional _ _ _ _ _ _ Hs Hs'). exact Hrun. }
  split.
  - destruct (Heq 1%nat ltac:(lia)) as (s & a & bp & b & Hs & Ha & Hbp & Hb & Hbeq & _).
    simpl in Hs, Ha, Hbp.
    destruct (Hag 0%nat ltac:(lia)) as (E1 & E2 & _ & _ & E5 & _).
    assert (Hinit : forall x : tensor,
              <[0%nat := x]> (replicate (length actions + 1) TransitionModel.empty)
                !! 0%nat = Some x).
    { intros x. apply list_lookup_insert_eq. rewrite length_replicate. lia. }
    unfold TransitionModel.init_lists in E1, E2, E5; simpl in E1, E2, E5.
    rewrite Hinit in E1, E2, E5.
    assert (Hs0 : s = prev_state).
    { destruct Hs as (s0 & Hs0 & Hm).
      assert (s0 = prev_state) by (destruct observations; congruence).
      destruct nonterminals; congruence. }
    assert (bp = prev_belief) by congruence. subst s bp.
    exists a. split; [exact Ha |]. split; [| congruence].
    intros gx. apply Hsel; [lia | exact Hs].
  - intros nt k m Hnt Hm Hz Hk.
    destruct (Heq (k + 2)%nat ltac:(lia))
      as (s & a & bp & b & Hs & Ha & Hbp & Hb & Hbeq & _).
    replace (k + 2 - 1)%nat with (k + 1)%nat in * by lia.
    exists s, a, bp.
    split; [intros gx; apply Hsel; [lia | exact Hs] |].
    split; [| split; [exact Ha | split; [exact Hbp | congruence]]].
    destruct Hs as (s0 & _ & Hmask). subst nonterminals.
    replace (k + 1)%nat with (S k) in Hmask by lia.
    destruct Hmask as (m' & Hm' & ->).
    assert (m' = m) by congruence. subst m'. apply mul_all_zero. exact Hz.
Qed.

Lemma nonterminal_masking_witness :
  exists st g',
    TransitionModel.run_loop Examples.rssm Examples.state0 Examples.actions2
      Examples.belief0 (Some Examples.observations2) (Some Examples.nonterminals1)
      Examples.zero_noise = Ok (st, g') /\
    (forall gx,
       TransitionModel.select_state (Some Examples.observations2)
         (Some Examples.nonterminals1) st 0 gx = Ok (Examples.state0, gx)) /\
    exists s,
      (forall gx,
         TransitionModel.select_state (Some Examples.observations2)
           (Some Examples.nonterminals1) st 1 gx = Ok (s, gx)) /\
      all_zero s.
Proof.
  destruct (nonterminal_masking Examples.rssm Examples.state0 Examples.actions2
              Examples.belief0 (Some Examples.observations2)
              (Some Examples.nonterminals1) Examples.zero_noise)
    as (st & g' & Hrun & (a0 & _ & Hfirst & _) & Hmask).
  - vm_compute. lia.
  - vm_compute. lia.
  - exists st, g'. split; [exact Hrun |]. split; [exact Hfirst |].
    destruct (Hmask Examples.nonterminals1 0%nat [[0]])
      as (s & a & b & Hsel & Hz & _).
    + reflexivity.
    + reflexivity.
    + repeat constructor.
    + vm_compute. lia.
    + exists s. split; [exact Hsel | exact Hz].
Defined.

(** C10.  The action sequence must be non-empty: with no action the loop
    body never runs and stacking the empty slices fails, instead of returning
    empty sequences; with one action or more, and sequence arguments of
    sufficient length, the call returns. *)
Theorem forward_requires_actions :
  (forall self prev_state prev_belief observations nonterminals g,
     TransitionModel.run_loop self prev_state [] prev_belief observations nonterminals g
       = Ok (TransitionModel.init_lists 1 prev_state prev_belief, g) /\
     TransitionModel.forward self prev_state [] prev_belief observations nonterminals g
       = Raise RuntimeError) /\
  (forall self prev_state actions prev_belief observations nonterminals g,
     (1 <= length actions)%nat ->
     valid_lengths actions observations nonterminals ->
     exists out g',
       TransitionModel.forward self prev_state actions prev_belief
         observations nonterminals g = Ok (out, g')).
Proof.
  split.
  - intros. split; reflexivity.
  - intros self prev_state actions prev_belief observations nonterminals g HL Hv.
    destruct (forward_run self actions g observations nonterminals
                prev_state prev_belief HL Hv) as (st & g' & _ & H2 & _).
    eauto.
Qed.

Lemma forward_requires_actions_witness :
  TransitionModel.forward Examples.rssm Examples.state0 [] Examples.belief0
    None None Examples.zero_noise = Raise RuntimeError /\
  exists out g',
    TransitionModel.forward Examples.rssm Examples.state0 Examples.actions2
      Examples.belief0 None None Examples.zero_noise = Ok (out, g').
Proof.
  destruct forward_requires_actions as [Hempty Hrun]. split.
  - apply Hempty.
  - apply Hrun.
    + vm_compute. lia.
    + vm_compute. tauto.
Defined.

End TransitionModelFacts.

(** ** Sums, means and the hyperbolic tangent *)

Section MeanFacts.
Import Torch Contract.

Lemma tanh_0 : Rtrigo_def.tanh 0 = 0.
Proof. unfold Rtrigo_def.tanh. rewrite sinh_0, cosh_0. lra. Qed.

Lemma tanh_pos (x : R) : 0 < x -> 0 < Rtrigo_def.tanh x.
Proof.
  intros Hx. unfold Rtrigo_def.tanh. apply Rdiv_lt_0_compat.
  - rewrite <- sinh_0. apply sinh_lt. exact Hx.
  - unfold cosh. pose proof (exp_pos x). pose proof (exp_pos (- x)). lra.
Qed.

Lemma sum_list_bounds (lo hi : R) (l : list R) :
  Forall (fun v => lo < v < hi) l ->
  INR (length l) * lo <= sum_list l <= INR (length l) * hi /\
  (l <> [] -> INR (length l) * lo < sum_list l < INR (length l) * hi).
Proof.
  induction 1 as [| v l Hv Hl IH].
  - simpl. split; [lra | congruence].
  - change (length (v :: l)) with (S (length l)). rewrite S_INR.
    change (sum_list (v :: l)) with (v + sum_list l).
    destruct IH as [IH _]. split; [lra | intros _; lra].
Qed.

Lemma mean_list_bounds (lo hi : R) (l : list R) :
  l <> [] -> Forall (fun v => lo < v < hi) l -> lo < mean_list l < hi.
Proof.
  intros Hne Hl. destruct (sum_list_bounds lo hi l Hl) as [_ Hs].
  specialize (Hs Hne). unfold mean_list.
  assert (Hn : 0 < INR (length l)).
  { apply lt_0_INR. destruct l; [congruence | simpl; lia]. }
  split.
  - apply Rdiv_lt_lower; [exact Hn | lra].
  - apply Rdiv_lt_upper; [exact Hn | lra].
Qed.

Lemma column_elem {A} (j : nat) (x : list (list A)) (v : A) :
  v ∈ column j x -> exists r, r ∈ x /\ r !! j = Some v.
Proof.
  unfold column. intros H. apply list_elem_of_omap in H.
  destruct H as (r & Hr & Hv). eauto.
Qed.

Lemma column_head_nonempty {A} (j : nat) (r : list A) (x : list (list A)) :
  (j < length r)%nat -> column j (r :: x) <> [].
Proof.
  intros Hj. unfold column. simpl.
  destruct (lookup_lt_is_Some_2 r j Hj) as [v Hv]. rewrite Hv. simpl. congruence.
Qed.

Lemma columns_elem {A} (x : list (list A)) (c : list A) :
  c ∈ columns (size1 x) x -> c <> [] /\ forall v, v ∈ c -> exists r, r ∈ x /\ v ∈ r.
Proof.
  unfold columns. intros H. apply list_elem_of_fmap in H.
  destruct H as (j & -> & Hj). apply elem_of_seq in Hj. split.
  - destruct x as [| r x]; simpl in Hj; [lia |].
    apply column_head_nonempty. lia.
  - intros v Hv. apply column_elem in Hv. destruct Hv as (r & Hr & Hl).
    exists r. split; [exact Hr |]. eapply list_elem_of_lookup_2. exact Hl.
Qed.

(** The mean over dimension 0 stays inside an open interval that contains
    every entry of every slice. *)
Lemma mean0_bounds (lo hi : R) (x : tensor3) :
  Forall (entries (fun v => lo < v < hi)) x ->
  entries (fun v => lo < v < hi) (mean0 x).
Proof.
  intros Hx. unfold entries, mean0, mean0_2.
  rewrite Forall_map. apply Forall_forall. intros rows Hrows.
  apply columns_elem in Hrows. destruct Hrows as [_ Hrows].
  rewrite Forall_map. apply Forall_forall. intros c Hc.
  apply columns_elem in Hc. destruct Hc as [Hne Hc].
  apply mean_list_bounds; [exact Hne |].
  apply Forall_forall. intros v Hv.
  destruct (Hc v Hv) as (r & Hr & Hvr).
  destruct (Hrows r Hr) as (s & Hs & Hrs).
  rewrite Forall_forall in Hx. specialize (Hx s Hs).
  unfold entries in Hx. rewrite Forall_forall in Hx. specialize (Hx r Hrs).
  rewrite Forall_forall in Hx. exact (Hx v Hvr).
Qed.

End MeanFacts.

(** ** Sampling from the action distribution *)

Section SamplingFacts.
Import Torch Distributions Contract.

Lemma same_draws_advance (n k : nat) (g1 g2 : Generator) :
  same_draws (n + k) g1 g2 -> same_draws k (advance n g1) (advance n g2).
Proof.
  intros H i Hi. unfold advance; simpl.
  rewrite <- !Nat.add_assoc. apply H. lia.
Qed.

Lemma randn_vec_same (n k : nat) (g1 g2 : Generator) :
  same_draws (n + k) g1 g2 ->
  fst (randn_vec n g1) = fst (randn_vec n g2) /\
  same_draws k (snd (randn_vec n g1)) (snd (randn_vec n g2)).
Proof.
  intros H. split; [| apply same_draws_advance; exact H].
  unfold randn_vec; simpl. apply map_ext_in. intros i Hi.
  apply in_seq in Hi. apply H. lia.
Qed.

Lemma randn_rows_same (rows : list nat) : forall (k : nat) (g1 g2 : Generator),
  same_draws (numel rows + k) g1 g2 ->
  fst (randn_rows rows g1) = fst (randn_rows rows g2) /\
  same_draws k (snd (randn_rows rows g1)) (snd (randn_rows rows g2)).
Proof.
  induction rows as [| n rows IH]; intros k g1 g2 H; simpl.
  - split; [reflexivity | exact H].
  - simpl in H. rewrite <- Nat.add_assoc in H.
    destruct (randn_vec_same n (numel rows + k) g1 g2 H) as [Hv Hg].
    simpl in Hv, Hg.
    destruct (IH k (advance n g1) (advance n g2) Hg) as [Hvs Hgs].
    destruct (randn_rows rows (advance n g1)) as [vs1 h1].
    destruct (randn_rows rows (advance n g2)) as [vs2 h2].
    simpl in *. split; [congruence | exact Hgs].
Qed.

Lemma rsample_draw (d : Independent) (g : Generator) :
  transforms (base d) = [TanhTransform] -> rsample d g = Ok (draw d g).
Proof.
  intros Ht. simpl. unfold transformed_rsample, normal_rsample, bind, randn_like, ret.
  unfold draw. rewrite Ht.
  destruct (randn_rows _ g) as [eps g']. reflexivity.
Qed.

Lemma rsample_expanded_draws (d : Independent) (n : nat) : forall g,
  transforms (base d) = [TanhTransform] ->
  rsample_expanded (expand n d) g = Ok (draws n d g).
Proof.
  unfold rsample_expanded, expand.
  induction n as [| n IH]; intros g Ht; [reflexivity |].
  change (mapM rsample (replicate (S n) d))
    with (bind (rsample d) (fun b =>
            bind (mapM rsample (replicate n d)) (fun bs => ret (b :: bs)))).
  unfold bind at 1. rewrite (rsample_draw d g Ht).
  change (draws (S n) d g)
    with (let (x, g1) := draw d g in
          let (xs, g2) := draws n d g1 in (x :: xs, g2)).
  destruct (draw d g) as [x g1]. cbv beta iota.
  unfold bind at 1. rewrite (IH g1 Ht).
  destruct (draws n d g1) as [xs g2]. reflexivity.
Qed.

Lemma draw_bounds (d : Independent) (g : Generator) :
  entries (fun v => -1 < v < 1) (fst (draw d g)).
Proof.
  unfold draw. destruct (randn_rows _ g) as [eps g']. simpl.
  unfold entries, tanh, pointwise. rewrite Forall_map. apply Forall_forall.
  intros r _. rewrite Forall_map. apply Forall_forall. intros v _.
  apply tanh_bounds.
Qed.

Lemma draws_bounds (d : Independent) (n : nat) : forall g,
  length (fst (draws n d g)) = n /\
  Forall (entries (fun v => -1 < v < 1)) (fst (draws n d g)).
Proof.
  induction n as [| n IH]; intros g; simpl; [split; [reflexivity | constructor] |].
  pose proof (draw_bounds d g) as Hx.
  destruct (draw d g) as [x g1]. specialize (IH g1).
  destruct (draws n d g1) as [xs g2]. simpl in *.
  destruct IH as [Hlen Hxs]. split; [lia | constructor; assumption].
Qed.

Lemma draw_same (d : Independent) (k : nat) (g1 g2 : Generator) :
  same_draws (sample_numel d + k) g1 g2 ->
  fst (draw d g1) = fst (draw d g2) /\
  same_draws k (snd (draw d g1)) (snd (draw d g2)).
Proof.
  intros H. unfold draw.
  destruct (randn_rows_same _ k g1 g2 H) as [Hv Hg].
  destruct (randn_rows _ g1) as [e1 h1]. destruct (randn_rows _ g2) as [e2 h2].
  simpl in *. split; [congruence | exact Hg].
Qed.

Lemma draws_same (d : Independent) (n : nat) : forall (k : nat) (g1 g2 : Generator),
  same_draws (n * sample_numel d + k) g1 g2 ->
  fst (draws n d g1) = fst (draws n d g2) /\
  same_draws k (snd (draws n d g1)) (snd (draws n d g2)).
Proof.
  induction n as [| n IH]; intros k g1 g2 H; simpl.
  - split; [reflexivity | exact H].
  - simpl in H. rewrite <- Nat.add_assoc in H.
    destruct (draw_same d _ g1 g2 H) as [Hx Hg].
    destruct (draw d g1) as [x1 h1]. destruct (draw d g2) as [x2 h2].
    simpl in Hx, Hg. destruct (IH k h1 h2 Hg) as [Hxs Hgs].
    destruct (draws n d h1) as [xs1 k1]. destruct (draws n d h2) as [xs2 k2].
    simpl in *. split; [congruence | exact Hgs].
Qed.

End SamplingFacts.

(** ** The two paths of [ActorModel.forward] *)

Section ActorFacts.
Import Torch Distributions Contract.

Lemma distribution_wrapped (self : ActorModel.t) (belief state : tensor) :
  ActorModel.distribution self belief state
  = SampleDist.init (wrapped self belief state).
Proof.
  unfold ActorModel.distribution, wrapped.
  destruct (ActorModel.mean_std self belief state) as [mean std]. reflexivity.
Qed.

Lemma wrapped_transforms (self : ActorModel.t) (belief state : tensor) :
  transforms (base (wrapped self belief state)) = [TanhTransform].
Proof. reflexivity. Qed.

Lemma forward_deterministic (self : ActorModel.t) (belief state : tensor)
    (with_logprob : bool) (g : Generator) :
  let d := wrapped self belief state in
  ActorModel.forward self belief state true with_logprob g
  = Ok (mean0 (fst (draws 100 d g)),
        logp_of with_logprob d (mean0 (fst (draws 100 d g))),
        snd (draws 100 d g)).
Proof.
  intros d. unfold ActorModel.forward. rewrite distribution_wrapped. fold d.
  change (ActorModel.get_mean (SampleDist.init d)) with (SampleDist.mean (SampleDist.init d)).
  change (ActorModel.call_log_prob (SampleDist.init d))
    with (fun action : tensor => ret (log_prob d action)).
  unfold SampleDist.mean, SampleDist.init, SampleDist.default_samples.
  cbn [SampleDist._dist SampleDist._samples].
  unfold bind at 1. unfold bind at 1.
  rewrite (rsample_expanded_draws d 100 g (wrapped_transforms self belief state)).
  destruct (draws 100 d g) as [sample g'].
  destruct with_logprob; reflexivity.
Qed.

Lemma forward_sampled (self : ActorModel.t) (belief state : tensor)
    (with_logprob : bool) (g : Generator) :
  let d := wrapped self belief state in
  ActorModel.forward self belief state false with_logprob g
  = Ok (fst (draw d g), logp_of with_logprob d (fst (draw d g)), snd (draw d g)).
Proof.
  intros d. unfold ActorModel.forward. rewrite distribution_wrapped. fold d.
  change (ActorModel.call_rsample (SampleDist.init d)) with (rsample d).
  change (ActorModel.call_log_prob (SampleDist.init d))
    with (fun action : tensor => ret (log_prob d action)).
  unfold bind at 1.
  rewrite (rsample_draw d g (wrapped_transforms self belief state)).
  destruct (draw d g) as [action g'].
  destruct with_logprob; reflexivity.
Qed.


(** C5, as amended.  Two calls with [deterministic=True], identical
    parameters and identical inputs return identical actions (and
    log-probabilities) whenever the generator supplies the two calls with the
    same draws: the action is the mean of 100 reparameterized samples, and
    only the draws those samples consume matter. *)
Theorem deterministic_action_same_draws (self : ActorModel.t)
    (belief state : tensor) (with_logprob : bool) (g1 g2 : Generator) :
  same_draws (100 * sample_numel (wrapped self belief state)) g1 g2 ->
  exists action logp_pi g1' g2',
    ActorModel.forward self belief state true with_logprob g1
      = Ok (action, logp_pi, g1') /\
    ActorModel.forward self belief state true with_logprob g2
      = Ok (action, logp_pi, g2') /\
    action = mean0 (fst (draws 100 (wrapped self belief state) g1)).
Proof.
  intros H. rewrite !forward_deterministic.
  rewrite <- (Nat.add_0_r (100 * _)) in H.
  destruct (draws_same (wrapped self belief state) 100 0 g1 g2 H) as [Heq _].
  rewrite <- Heq. eexists _, _, _, _. split; [reflexivity |]. split; reflexivity.
Qed.

Lemma dot_zeros (i : nat) : forall xr, dot (replicate i 0) xr = 0.
Proof.
  unfold dot. induction i as [| i IH]; intros [| x xr]; simpl; try reflexivity.
  rewrite IH. lra.
Qed.

Lemma zeros_linear_row (i o : nat) (xr : list R) :
  zip_with (fun wr b => dot wr xr + b) (replicate o (replicate i 0)) (replicate o 0)
  = replicate o 0.
Proof.
  induction o as [| o IH]; simpl; [reflexivity |].
  rewrite IH, dot_zeros. f_equal. lra.
Qed.

Lemma zeros_linear_apply (i o : nat) (x : tensor) :
  linear (Examples.zeros_linear i o) x = map (fun _ => replicate o 0) x.
Proof.
  unfold linear, Examples.zeros_linear; simpl.
  apply map_ext. intros xr. apply zeros_linear_row.
Qed.

Lemma example_mean_std :
  ActorModel.mean_std Examples.actor Examples.belief0 Examples.state0
  = ([[0]], [[Examples.sigma]]).
Proof.
  unfold ActorModel.mean_std, ActorModel.network. simpl ActorModel.fc1.
  simpl ActorModel.fc2. simpl ActorModel.fc3. simpl ActorModel.fc4.
  simpl ActorModel.fc5. simpl ActorModel.act_fn.
  rewrite !zeros_linear_apply. simpl cat. simpl map.
  unfold chunk. simpl.
  unfold ActorModel.squash_mean, ActorModel.constrain_std, Examples.sigma.
  unfold scalar_mul, div_scalar, add_scalar, softplus, tanh, pointwise. simpl.
  replace (0 / 5) with 0 by lra. rewrite tanh_0.
  replace (5 * 0) with 0 by lra. reflexivity.
Qed.

Lemma sigma_pos : 0 < Examples.sigma.
Proof.
  unfold Examples.sigma.
  pose proof (softplus1_pos (0 + ActorModel.raw_init_std Examples.actor)). lra.
Qed.

Lemma example_wrapped :
  wrapped Examples.actor Examples.belief0 Examples.state0
  = ActorModel.action_dist [[0]] [[Examples.sigma]].
Proof. unfold wrapped. rewrite example_mean_std. reflexivity. Qed.

Lemma advance_advance (n m : nat) (g : Generator) :
  advance n (advance m g) = advance (m + n) g.
Proof. unfold advance; simpl. f_equal. lia. Qed.

(** With a window of constant noise [c], every sample of the example
    distribution is [tanh (0 + c * sigma)]. *)
Lemma example_draws_const (c : R) (n : nat) : forall g,
  (forall i, (i < n)%nat -> normal g (offset g + i)%nat = c) ->
  draws n (ActorModel.action_dist [[0]] [[Examples.sigma]]) g
  = (replicate n [[Rtrigo_def.tanh (0 + c * Examples.sigma)]], advance n g).
Proof.
  induction n as [| n IH]; intros g Hc.
  - simpl. unfold advance. destruct g as [nm off]; simpl.
    rewrite Nat.add_0_r. reflexivity.
  - change (draws (S n) (ActorModel.action_dist [[0]] [[Examples.sigma]]) g)
      with (let (xs, g2) := draws n (ActorModel.action_dist [[0]] [[Examples.sigma]])
                              (advance 1 g) in
            ([[Rtrigo_def.tanh (0 + normal g (offset g + 0)%nat * Examples.sigma)]]
               :: xs, g2)).
    rewrite IH.
    + rewrite (Hc 0%nat ltac:(lia)), advance_advance. reflexivity.
    + intros i Hi. simpl. rewrite <- Nat.add_assoc. apply Hc. lia.
Qed.

Lemma sum_list_replicate (n : nat) (v : R) : sum_list (replicate n v) = INR n * v.
Proof.
  induction n as [| n IH]; [simpl; lra |].
  rewrite S_INR. simpl. fold (sum_list (replicate n v)). rewrite IH. lra.
Qed.

Lemma column_replicate {A} (j n : nat) (r : list A) (v : A) :
  r !! j = Some v -> column j (replicate n r) = replicate n v.
Proof.
  intros Hv. unfold column. induction n as [| n IH]; simpl; [reflexivity |].
  rewrite Hv. simpl. f_equal. exact IH.
Qed.

Lemma mean_list_replicate (n : nat) (v : R) :
  mean_list (replicate (S n) v) = v.
Proof.
  unfold mean_list. rewrite sum_list_replicate, length_replicate.
  field. apply not_0_INR. lia.
Qed.

Lemma mean0_replicate_scalar (n : nat) (v : R) :
  mean0 (replicate (S n) [[v]]) = [[v]].
Proof.
  unfold mean0. change (size1 (replicate (S n) [[v]])) with 1%nat.
  change (columns 1 (replicate (S n) [[v]]))
    with [column 0 (replicate (S n) [[v]])].
  rewrite (column_replicate 0 (S n) [[v]] [v] eq_refl).
  cbn [map]. unfold mean0_2. change (size1 (replicate (S n) [v])) with 1%nat.
  change (columns 1 (replicate (S n) [v])) with [column 0 (replicate (S n) [v])].
  rewrite (column_replicate 0 (S n) [v] v eq_refl).
  cbn [map]. rewrite mean_list_replicate. reflexivity.
Qed.

(** C5, refuted as stated: two successive calls with [deterministic=True],
    the same module and the same inputs return different actions when the
    generator's draws differ between the calls. *)
Lemma deterministic_calls_differ :
  exists a1 g1 a2 g2,
    ActorModel.forward Examples.actor Examples.belief0 Examples.state0 true false
      Examples.late_noise = Ok (a1, None, g1) /\
    ActorModel.forward Examples.actor Examples.belief0 Examples.state0 true false
      g1 = Ok (a2, None, g2) /\
    a1 <> a2.
Proof.
  assert (H1 : draws 100 (ActorModel.action_dist [[0]] [[Examples.sigma]])
                 Examples.late_noise
               = (replicate 100 [[Rtrigo_def.tanh (0 + 0 * Examples.sigma)]],
                  advance 100 Examples.late_noise)).
  { apply example_draws_const. intros i Hi. simpl.
    destruct (Nat.ltb_spec i 100); [reflexivity | lia]. }
  assert (H2 : draws 100 (ActorModel.action_dist [[0]] [[Examples.sigma]])
                 (advance 100 Examples.late_noise)
               = (replicate 100 [[Rtrigo_def.tanh (0 + 1 * Examples.sigma)]],
                  advance 100 (advance 100 Examples.late_noise))).
  { apply example_draws_const. intros i Hi. simpl.
    destruct (Nat.ltb_spec (100 + i) 100); [lia | reflexivity]. }
  exists [[Rtrigo_def.tanh (0 + 0 * Examples.sigma)]], (advance 100 Examples.late_noise),
    [[Rtrigo_def.tanh (0 + 1 * Examples.sigma)]],
    (advance 100 (advance 100 Examples.late_noise)).
  rewrite !forward_deterministic, example_wrapped, H1, H2.
  cbn [fst snd logp_of].
  rewrite !(mean0_replicate_scalar 99).
  split; [reflexivity |]. split; [reflexivity |].
  intros Heq. inversion Heq as [Hv].
  replace (0 + 0 * Examples.sigma) with 0 in Hv by lra.
  rewrite tanh_0 in Hv.
  pose proof (tanh_pos (0 + 1 * Examples.sigma)) as Hp.
  pose proof sigma_pos. lra.
Qed.

Lemma deterministic_action_same_draws_witness :
  exists action logp_pi g1' g2',
    ActorModel.forward Examples.actor Examples.belief0 Examples.state0 true true
      Examples.late_noise = Ok (action, logp_pi, g1') /\
    ActorModel.forward Examples.actor Examples.belief0 Examples.state0 true true
      Examples.zero_noise = Ok (action, logp_pi, g2') /\
    action = mean0 (fst (draws 100
                  (wrapped Examples.actor Examples.belief0 Examples.state0)
                  Examples.late_noise)).
Proof.
  apply (deterministic_action_same_draws Examples.actor Examples.belief0
           Examples.state0 true Examples.late_noise Examples.zero_noise).
  rewrite example_wrapped. intros i Hi. simpl in *.
  destruct (Nat.ltb_spec i 100); [reflexivity | lia].
Defined.

Lemma linear_row_length (l : Linear) (i o : nat) (x : tensor) :
  linear_shape l i o -> Forall (fun r => length r = o) (linear l x).
Proof.
  intros (Hw & _ & Hb). unfold linear. rewrite Forall_map.
  apply Forall_forall. intros xr _. rewrite length_zip_with. lia.
Qed.

Lemma chunk_size_double (n : nat) : chunk_size (2 * n) = n.
Proof. unfold chunk_size. apply Nat.div2_succ_double. Qed.

Lemma ln_1_plus_lt (y : R) : 0 < y -> ln (1 + y) < y.
Proof.
  intros Hy. rewrite <- (ln_exp y) at 2.
  apply ln_increasing; [lra |]. apply exp_ineq1. lra.
Qed.

(** The bias [raw_init_std] undoes the softplus at [init_std], up to the
    linear branch the softplus takes above its threshold. *)
Lemma softplus_raw_init_std (init : R) :
  0 < init ->
  let raw := ln (exp init - 1) in
  (raw <= 20 -> softplus1 (0 + raw) = init) /\
  init - exp (-20) < softplus1 (0 + raw) <= init.
Proof.
  intros Hi raw.
  assert (He : 1 < exp init) by (rewrite <- exp_0; apply exp_increasing; exact Hi).
  assert (Hraw : exp raw = exp init - 1) by (unfold raw; apply exp_ln; lra).
  assert (Hinit : ln (1 + exp raw) = init).
  { rewrite Hraw. replace (1 + (exp init - 1)) with (exp init) by lra. apply ln_exp. }
  pose proof (exp_pos (-20)) as H20.
  unfold softplus1. rewrite Rplus_0_l.
  destruct (Rlt_dec 20 raw) as [Hgt | Hle].
  - split; [lra |].
    assert (Hy : exp (- raw) < exp (-20)) by (apply exp_increasing; lra).
    assert (Hsplit : init = raw + ln (1 + exp (- raw))).
    { rewrite <- Hinit.
      replace (1 + exp raw) with (exp raw * (1 + exp (- raw))).
      - rewrite ln_mult; [rewrite ln_exp; reflexivity | apply exp_pos |].
        pose proof (exp_pos (- raw)). lra.
      - rewrite Rmult_plus_distr_l, <- exp_plus.
        replace (raw + - raw) with 0 by lra. rewrite exp_0. lra. }
    pose proof (ln_1_plus_lt (exp (- raw)) (exp_pos _)) as Hln.
    assert (0 < ln (1 + exp (- raw))).
    { rewrite <- ln_1. apply ln_increasing; [lra |].
      pose proof (exp_pos (- raw)). lra. }
    lra.
  - rewrite Hinit. split; [reflexivity | lra].
Qed.

(** The two halves of the network output, squashed and constrained. *)
Lemma mean_std_halves (self : ActorModel.t) (belief state : tensor)
    (hidden_size action_size : nat) :
  linear_shape (ActorModel.fc5 self) hidden_size (2 * action_size) ->
  let out := ActorModel.network self belief state in
  Forall (fun r => length r = (2 * action_size)%nat) out /\
  fst (ActorModel.mean_std self belief state)
  = pointwise (fun v => ActorModel.mean_scale self
                        * Rtrigo_def.tanh (v / ActorModel.mean_scale self))
      (map (take action_size) out) /\
  snd (ActorModel.mean_std self belief state)
  = pointwise (fun v => softplus1 (v + ActorModel.raw_init_std self)
                        + ActorModel.min_std self)
      (map (drop action_size) out).
Proof.
  intros Hshape out.
  assert (Hout : Forall (fun r => length r = (2 * action_size)%nat) out).
  { unfold out, ActorModel.network. eapply linear_row_length. exact Hshape. }
  assert (Hchunk : chunk out = (map (take action_size) out, map (drop action_size) out)).
  { unfold chunk. f_equal; apply map_ext_Forall;
      (eapply Forall_impl; [exact Hout |]); intros r Hr; cbv beta;
      rewrite Hr, chunk_size_double; reflexivity. }
  split; [exact Hout |]. split.
  - unfold ActorModel.mean_std. fold out. rewrite Hchunk. simpl.
    unfold ActorModel.squash_mean, scalar_mul, tanh, div_scalar, pointwise.
    rewrite !map_map. apply map_ext. intros r. rewrite !map_map. reflexivity.
  - unfold ActorModel.mean_std. fold out. rewrite Hchunk. simpl.
    unfold ActorModel.constrain_std, add_scalar, softplus, pointwise.
    rewrite !map_map. apply map_ext. intros r. rewrite !map_map. reflexivity.
Qed.

(** C7.  The network output, of width [2 * action_size], is split into a
    mean half and a raw std-dev half; the mean is
    [mean_scale * tanh (mean / mean_scale)], which lies in
    (-mean_scale, mean_scale); the std-dev is
    [softplus (raw_std + raw_init_std) + min_std] with
    [raw_init_std = ln (exp init_std - 1)], so that a zero raw input gives a
    std-dev within [exp (-20)] of [init_std + min_std], and exactly that value
    when the bias is below the softplus threshold. *)
Theorem actor_mean_and_std (self : ActorModel.t) (belief state : tensor)
    (hidden_size action_size : nat) :
  0 < ActorModel.mean_scale self ->
  0 < ActorModel.init_std self ->
  linear_shape (ActorModel.fc5 self) hidden_size (2 * action_size) ->
  let out := ActorModel.network self belief state in
  let mean := fst (ActorModel.mean_std self belief state) in
  let std := snd (ActorModel.mean_std self belief state) in
  let raw := ActorModel.raw_init_std self in
  Forall (fun r => length r = (2 * action_size)%nat) out /\
  mean = pointwise (fun v => ActorModel.mean_scale self
                             * Rtrigo_def.tanh (v / ActorModel.mean_scale self))
           (map (take action_size) out) /\
  std = pointwise (fun v => softplus1 (v + raw) + ActorModel.min_std self)
          (map (drop action_size) out) /\
  raw = ln (exp (ActorModel.init_std self) - 1) /\
  Forall (fun r => length r = action_size) mean /\
  Forall (fun r => length r = action_size) std /\
  entries (fun v => - ActorModel.mean_scale self < v < ActorModel.mean_scale self)
    mean /\
  (raw <= 20 ->
   softplus1 (0 + raw) + ActorModel.min_std self
   = ActorModel.init_std self + ActorModel.min_std self) /\
  Rabs (softplus1 (0 + raw) + ActorModel.min_std self
        - (ActorModel.init_std self + ActorModel.min_std self)) < exp (-20).
Proof.
  intros Hms Hinit Hshape out mean std raw.
  destruct (mean_std_halves self belief state hidden_size action_size Hshape)
    as (Hout & Hmean & Hstd).
  fold out in Hout, Hmean, Hstd. fold mean in Hmean. fold std in Hstd.
  fold raw in Hstd.
  destruct (softplus_raw_init_std (ActorModel.init_std self) Hinit) as [Hexact Hnear].
  fold (ActorModel.raw_init_std self) in Hexact, Hnear. fold raw in Hexact, Hnear.
  split; [exact Hout |]. split; [exact Hmean |]. split; [exact Hstd |].
  split; [reflexivity |].
  split; [| split; [| split; [| split]]].
  - rewrite Hmean. unfold pointwise. rewrite !Forall_map.
    eapply Forall_impl; [exact Hout |]. intros r Hr. cbv beta in *.
    rewrite length_map, length_take. lia.
  - rewrite Hstd. unfold pointwise. rewrite !Forall_map.
    eapply Forall_impl; [exact Hout |]. intros r Hr. cbv beta in *.
    rewrite length_map, length_drop. lia.
  - rewrite Hmean. unfold entries, pointwise. rewrite !Forall_map.
    apply Forall_forall. intros r _. rewrite Forall_map.
    apply Forall_forall. intros v _.
    pose proof (tanh_bounds (v / ActorModel.mean_scale self)) as [Hlo Hhi].
    split; nra.
  - intros Hle. rewrite (Hexact Hle). reflexivity.
  - pose proof (exp_pos (-20)).
    apply Rabs_def1; lra.
Qed.

Lemma actor_mean_and_std_witness :
  Forall (fun r => length r = 2%nat)
    (ActorModel.network Examples.actor Examples.belief0 Examples.state0) /\
  entries (fun v => -5 < v < 5)
    (fst (ActorModel.mean_std Examples.actor Examples.belief0 Examples.state0)).
Proof.
  destruct (actor_mean_and_std Examples.actor Examples.belief0 Examples.state0 1 1)
    as (Hout & _ & _ & _ & _ & _ & Hbound & _).
  - unfold Examples.actor; simpl. lra.
  - unfold Examples.actor; simpl. lra.
  - unfold linear_shape, Examples.actor, Examples.zeros_linear; simpl.
    repeat split; repeat constructor.
  - split; [exact Hout |].
    eapply Forall_impl; [exact Hbound |]. intros r Hr.
    eapply Forall_impl; [exact Hr |]. intros v Hv. simpl in Hv. lra.
Defined.

Lemma elem_of_drop1 {A} (l : list A) (x : A) :
  x ∈ drop 1 l -> exists t, (1 <= t < length l)%nat /\ l !! t = Some x.
Proof.
  intros H. apply list_elem_of_lookup in H. destruct H as [i Hi].
  rewrite lookup_drop in Hi. exists (1 + i)%nat. split; [| exact Hi].
  apply lookup_lt_Some in Hi. lia.
Qed.



End ActorFacts.

(** ** The Monte-Carlo estimators of [SampleDist] *)

Section EstimatorFacts.
Import Torch Distributions Contract.

Lemma column_total {A} (d : A) (j : nat) (x : list (list A)) :
  Forall (fun r => (j < length r)%nat) x ->
  column j x = map (fun r => nth j r d) x.
Proof.
  unfold column. induction 1 as [| r x Hr Hx IH]; simpl; [reflexivity |].
  destruct (lookup_lt_is_Some_2 r j Hr) as [v Hv]. rewrite Hv. simpl.
  rewrite (nth_lookup_Some r j d v Hv). f_equal. exact IH.
Qed.

Lemma columns_total {A} (d : A) (n : nat) (x : list (list A)) :
  Forall (fun r => length r = n) x ->
  columns n x = map (fun j => map (fun r => nth j r d) x) (seq 0 n).
Proof.
  intros Hx. unfold columns. apply map_ext_in. intros j Hj.
  apply in_seq in Hj. apply column_total.
  eapply Forall_impl; [exact Hx |]. intros r Hr. cbv beta in *. lia.
Qed.

Lemma size1_rows {A} (n : nat) (x : list (list A)) :
  x <> [] -> Forall (fun r => length r = n) x -> size1 x = n.
Proof.
  intros Hne Hx. destruct x as [| r x]; [congruence |].
  inversion Hx; subst. reflexivity.
Qed.

Lemma mean0_2_total (n : nat) (x : list (list R)) :
  x <> [] -> Forall (fun r => length r = n) x ->
  mean0_2 x
  = map (fun b => sum_list (map (fun r => nth b r 0) x) / INR (length x)) (seq 0 n).
Proof.
  intros Hne Hx. unfold mean0_2.
  rewrite (size1_rows n x Hne Hx), (columns_total 0 n x Hx), map_map.
  apply map_ext. intros b. unfold mean_list. rewrite length_map. reflexivity.
Qed.

Lemma mean0_total (B F : nat) (x : tensor3) :
  x <> [] -> Forall (rectangular B F) x ->
  mean0 x
  = map (fun b => map (fun f => sum_list (map (fun s => entry s b f) x)
                                / INR (length x)) (seq 0 F)) (seq 0 B).
Proof.
  intros Hne Hx. unfold mean0.
  assert (Hlen : Forall (fun s : tensor => length s = B) x).
  { eapply Forall_impl; [exact Hx |]. intros s [Hs _]. exact Hs. }
  rewrite (size1_rows B x Hne Hlen), (columns_total [] B x Hlen), map_map.
  apply map_ext_in. intros b Hb. apply in_seq in Hb.
  rewrite (mean0_2_total F).
  - apply map_ext. intros f. rewrite map_map, length_map. reflexivity.
  - destruct x; [congruence | discriminate].
  - rewrite Forall_map. eapply Forall_impl; [exact Hx |].
    intros s [Hs Hrows]. cbv beta.
    rewrite Forall_forall in Hrows. apply Hrows.
    apply list_elem_of_In. apply nth_In. lia.
Qed.

Lemma mapM_length {A B} (f : A -> M B) (l : list A) : forall g ys g',
  mapM f l g = Ok (ys, g') -> length ys = length l.
Proof.
  induction l as [| a l IH]; intros g ys g' H; simpl in H.
  - inversion H. reflexivity.
  - unfold bind in H. destruct (f a g) as [[b g1] |]; [| discriminate].
    destruct (mapM f l g1) as [[bs g2] |] eqn:E; [| discriminate].
    inversion H; subst. simpl. f_equal. eapply IH. exact E.
Qed.

(** A [mapM] of computations that neither fail nor touch the generator. *)
Lemma mapM_pure {A B} (f : A -> M B) (h : A -> B) (l : list A) (g : Generator) :
  (forall a, a ∈ l -> f a g = Ok (h a, g)) ->
  mapM f l g = Ok (map h l, g).
Proof.
  induction l as [| a l IH]; intros Hf; [reflexivity |].
  simpl. unfold bind. rewrite (Hf a ltac:(constructor)).
  rewrite IH; [reflexivity |]. intros a' Ha'. apply Hf. constructor. exact Ha'.
Qed.

Lemma getitem_Some {A} (l : list A) (i : nat) (a : A) (g : Generator) :
  l !! i = Some a -> getitem l i g = Ok (a, g).
Proof. intros H. unfold getitem. rewrite H. reflexivity. Qed.

Lemma list_tabulate {A} (d : A) (l : list A) :
  l = map (fun i => nth i l d) (seq 0 (length l)).
Proof.
  symmetry. apply nth_ext with (d := d) (d' := d).
  - rewrite length_map, length_seq. reflexivity.
  - intros i Hi. rewrite length_map, length_seq in Hi.
    rewrite (nth_indep _ d (nth 0 l d)) by (rewrite length_map, length_seq; lia).
    rewrite (map_nth (fun i => nth i l d) (seq 0 (length l)) 0%nat).
    rewrite seq_nth by lia. reflexivity.
Qed.

Lemma getitem_all {A} (l : list A) (d : A) (g : Generator) :
  mapM (getitem l) (seq 0 (length l)) g = Ok (l, g).
Proof.
  rewrite (mapM_pure (getitem l) (fun i => nth i l d)).
  - rewrite <- (list_tabulate d l). reflexivity.
  - intros i Hi. apply elem_of_seq in Hi.
    destruct (lookup_lt_is_Some_2 l i ltac:(lia)) as [v Hv].
    rewrite (getitem_Some l i v g Hv), (nth_lookup_Some l i d v Hv). reflexivity.
Qed.

Lemma argmax_from_spec (l : list R) : forall (best : R) (ibest i : nat) (p : list R),
  length p = i -> p !! ibest = Some best -> (forall w, w ∈ p -> w <= best) ->
  exists v, (p ++ l) !! argmax_from best ibest i l = Some v /\
            forall w, w ∈ p ++ l -> w <= v.
Proof.
  induction l as [| v l IH]; intros best ibest i p Hlen Hbest Hmax; simpl.
  - exists best. rewrite app_nil_r. auto.
  - replace (p ++ v :: l) with ((p ++ [v]) ++ l) by (rewrite <- app_assoc; reflexivity).
    destruct (Rlt_dec best v) as [Hlt | Hge].
    + apply IH.
      * rewrite length_app. simpl. lia.
      * rewrite lookup_app_r by lia. replace (i - length p)%nat with 0%nat by lia.
        reflexivity.
      * intros w Hw. apply elem_of_app in Hw. destruct Hw as [Hw | Hw].
        -- specialize (Hmax w Hw). lra.
        -- apply list_elem_of_singleton in Hw. subst w. lra.
    + apply IH.
      * rewrite length_app. simpl. lia.
      * rewrite lookup_app_l; [exact Hbest |]. eapply lookup_lt_Some. exact Hbest.
      * intros w Hw. apply elem_of_app in Hw. destruct Hw as [Hw | Hw].
        -- apply Hmax. exact Hw.
        -- apply list_elem_of_singleton in Hw. subst w. lra.
Qed.

Lemma argmax_list_spec (l : list R) :
  l <> [] ->
  exists v, l !! argmax_list l = Some v /\ forall w, w ∈ l -> w <= v.
Proof.
  destruct l as [| v l]; [congruence |]. intros _. unfold argmax_list.
  apply (argmax_from_spec l v 0%nat 1%nat [v]); [reflexivity | reflexivity |].
  intros w Hw. apply list_elem_of_singleton in Hw. subst w. lra.
Qed.

Lemma lookup_map_seq {A} (h : nat -> A) (n b : nat) :
  (b < n)%nat -> map h (seq 0 n) !! b = Some (h b).
Proof.
  intros Hb. change (map h (seq 0 n)) with (h <$> seq 0 n).
  rewrite list_lookup_fmap, lookup_seq_lt by lia. reflexivity.
Qed.

Lemma zip_seq_map {A} (k : nat -> A) (n : nat) : forall start,
  zip (seq start n) (map k (seq start n)) = map (fun b => (b, k b)) (seq start n).
Proof.
  induction n as [| n IH]; intros start; simpl; [reflexivity |].
  f_equal. apply IH.
Qed.

Section Generic.
Context {D : Type} `{Distribution D}.

Lemma log_prob_expanded_map (dist : D) (sample : tensor3) (n : nat) :
  length sample = n ->
  log_prob_expanded (expand n dist) sample = map (log_prob dist) sample.
Proof.
  intros <-. unfold log_prob_expanded, expand.
  induction sample as [| x sample IH]; simpl; [reflexivity |].
  f_equal. exact IH.
Qed.

(** C8.  [SampleDist], whose default sample count is 100, computes from
    the [samples] reparameterized draws of the batch-expanded distribution:
    as mean, the entry-wise arithmetic mean of the draws; as mode, for each
    batch element, the draw whose log-density under the same distribution is
    maximal; as entropy, the negated mean of the log-densities of the draws. *)
Theorem sample_dist_estimators (self : SampleDist.t D) (g g' : Generator)
    (sample : tensor3) (B F : nat) :
  (0 < SampleDist._samples self)%nat ->
  rsample_expanded (expand (SampleDist._samples self) (SampleDist._dist self)) g
    = Ok (sample, g') ->
  Forall (rectangular B F) sample ->
  Forall (fun s => length (log_prob (SampleDist._dist self) s) = B) sample ->
  let n := SampleDist._samples self in
  let lp := fun (s : tensor) (b : nat) =>
              nth b (log_prob (SampleDist._dist self) s) 0 in
  (forall dist : D, SampleDist._samples (SampleDist.init dist) = 100%nat) /\
  length sample = n /\
  SampleDist.mean self g
    = Ok (map (fun b => map (fun f => sum_list (map (fun s => entry s b f) sample)
                                      / INR n) (seq 0 F)) (seq 0 B), g') /\
  (exists md,
     SampleDist.mode self g = Ok (md, g') /\ length md = B /\
     forall b, (b < B)%nat ->
       exists i s, sample !! i = Some s /\ md !! b = s !! b /\
                   forall s', s' ∈ sample -> lp s' b <= lp s b) /\
  SampleDist.entropy self g
    = Ok (map (fun b => - (sum_list (map (fun s => lp s b) sample) / INR n))
            (seq 0 B), g').
Proof.
  intros Hn Hrs Hrect Hlp n lp.
  assert (Hlen : length sample = n).
  { apply mapM_length in Hrs. unfold expand in Hrs.
    rewrite length_replicate in Hrs. exact Hrs. }
  assert (Hne : sample <> []).
  { intros ->. simpl in Hlen. unfold n in Hlen. lia. }
  assert (Hlpmap : Forall (fun r : list R => length r = B)
                     (map (log_prob (SampleDist._dist self)) sample)).
  { rewrite Forall_map. exact Hlp. }
  assert (Hlpne : map (log_prob (SampleDist._dist self)) sample <> []).
  { destruct sample; [congruence | discriminate]. }
  split; [reflexivity |]. split; [exact Hlen |]. split; [| split].
  - unfold SampleDist.mean, bind. rewrite Hrs. unfold ret.
    rewrite (mean0_total B F sample Hne Hrect), Hlen. reflexivity.
  - unfold SampleDist.mode, bind. rewrite Hrs.
    destruct (lookup_lt_is_Some_2 sample 0 ltac:(lia)) as [first Hfirst].
    rewrite (getitem_Some sample 0 first g' Hfirst).
    rewrite (log_prob_expanded_map _ sample n Hlen).
    unfold argmax0.
    rewrite (size1_rows B _ Hlpne Hlpmap), (columns_total 0 B _ Hlpmap), map_map.
    set (k := fun b => argmax_list
                (map (fun r => nth b r 0)
                     (map (log_prob (SampleDist._dist self)) sample))).
    assert (HfirstB : length first = B).
    { rewrite Forall_forall in Hrect.
      apply (Hrect first). eapply list_elem_of_lookup_2. exact Hfirst. }
    rewrite length_map, length_seq, HfirstB, Nat.eqb_refl.
    unfold SampleDist.gather0. rewrite length_map, length_seq, zip_seq_map.
    assert (Hk : forall b, (b < B)%nat ->
              exists s, sample !! k b = Some s /\
                        forall s', s' ∈ sample -> lp s' b <= lp s b).
    { intros b Hb. unfold k.
      destruct (argmax_list_spec
                  (map (fun r => nth b r 0)
                       (map (log_prob (SampleDist._dist self)) sample)))
        as (v & Hv & Hmax).
      { destruct sample; [congruence | discriminate]. }
      apply list_lookup_fmap_Some_1 in Hv. destruct Hv as (r & -> & Hr).
      apply list_lookup_fmap_Some_1 in Hr. destruct Hr as (s & -> & Hs).
      exists s. split; [exact Hs |]. intros s' Hs'.
      apply Hmax. rewrite map_map.
      apply list_elem_of_fmap. exists s'. split; [reflexivity | exact Hs']. }
    assert (Hrows : forall s b, s ∈ sample -> (b < B)%nat ->
              length s = B /\ length (nth b s []) = F).
    { intros s b Hs Hb. rewrite Forall_forall in Hrect.
      destruct (Hrect s Hs) as [HsB HsF]. split; [exact HsB |].
      rewrite Forall_forall in HsF. apply HsF.
      apply list_elem_of_In. apply nth_In. lia. }
    assert (Hfs : (0 < B)%nat -> size1 first = F).
    { intros HB.
      assert (Hin : first ∈ sample) by (eapply list_elem_of_lookup_2; exact Hfirst).
      destruct (Hrows first 0%nat Hin HB) as [HfB HfF].
      destruct first as [| r first']; [simpl in HfB; lia |]. exact HfF. }
    rewrite (mapM_pure _ (fun '(b, i) => nth b (nth i sample []) [])).
    + rewrite map_map. eexists. split; [reflexivity |].
      split; [rewrite length_map, length_seq; reflexivity |].
      intros b Hb. destruct (Hk b Hb) as (s & Hs & Hmax).
      exists (k b), s. split; [exact Hs |]. split; [| exact Hmax].
      refine (eq_trans (lookup_map_seq _ B b Hb) _). cbv beta.
      rewrite (nth_lookup_Some sample (k b) [] s Hs).
      destruct (Hrows s b (list_elem_of_lookup_2 _ _ _ Hs) Hb) as [HsB _].
      destruct (s !! b) as [r |] eqn:Hr.
      * f_equal. apply nth_lookup_Some. exact Hr.
      * apply lookup_ge_None in Hr. lia.
    + intros [b i] Hbi. apply list_elem_of_fmap in Hbi.
      destruct Hbi as (b' & Heq & Hb'). inversion Heq; subst b' i.
      apply elem_of_seq in Hb'. destruct (Hk b ltac:(lia)) as (s & Hs & _).
      destruct (Hrows s b (list_elem_of_lookup_2 _ _ _ Hs) ltac:(lia)) as [HsB HsF].
      unfold bind. rewrite (getitem_Some sample (k b) s g' Hs).
      destruct (lookup_lt_is_Some_2 s b ltac:(lia)) as [r Hr].
      rewrite (getitem_Some s b r g' Hr).
      rewrite (nth_lookup_Some sample (k b) [] s Hs), (nth_lookup_Some s b [] r Hr).
      rewrite (nth_lookup_Some s b [] r Hr) in HsF.
      rewrite (Hfs ltac:(lia)), <- HsF. apply (getitem_all r 0).
  - unfold SampleDist.entropy, bind. rewrite Hrs. unfold ret.
    rewrite (log_prob_expanded_map _ sample n Hlen).
    rewrite (mean0_2_total B _ Hlpne Hlpmap), map_map.
    f_equal. f_equal. apply map_ext. intros b.
    rewrite map_map, length_map, Hlen. reflexivity.
Qed.

End Generic.

Lemma sample_dist_estimators_witness :
  let self := SampleDist.init_with
                (ActorModel.action_dist [[0]] [[Examples.sigma]]) 2 in
  let sample := replicate 2 [[Rtrigo_def.tanh (0 + 0 * Examples.sigma)]] in
  length sample = 2%nat /\
  SampleDist.mean self Examples.zero_noise
    = Ok ([[sum_list (map (fun s => entry s 0 0) sample) / INR 2]],
          advance 2 Examples.zero_noise).
Proof.
  intros self sample.
  destruct (sample_dist_estimators self Examples.zero_noise
              (advance 2 Examples.zero_noise) sample 1 1)
    as (_ & Hlen & Hmean & _).
  - simpl. lia.
  - simpl SampleDist._samples. simpl SampleDist._dist.
    rewrite rsample_expanded_draws by reflexivity.
    rewrite (example_draws_const 0 2 Examples.zero_noise); [reflexivity |].
    intros i Hi. reflexivity.
  - repeat constructor.
  - repeat constructor.
  - split; [exact Hlen | exact Hmean].
Defined.

End EstimatorFacts.

(** ** The closed-form log-density of the action distribution *)

Section DensityFacts.
Import Torch Distributions Contract.

Lemma tanh_log_jacobian (x : R) :
  -10 <= x ->
  2 * (ln 2 - x - softplus1 (-2 * x))
  = ln (1 - Rtrigo_def.tanh x * Rtrigo_def.tanh x).
Proof.
  intros Hx. unfold softplus1.
  destruct (Rlt_dec 20 (-2 * x)) as [Hgt | _]; [lra |].
  pose proof (exp_pos (- x)) as Hb.
  assert (Ha : exp x = / exp (- x)).
  { rewrite exp_Ropp, Rinv_inv. reflexivity. }
  assert (Hb2 : exp (-2 * x) = exp (- x) * exp (- x)).
  { rewrite <- exp_plus. f_equal. lra. }
  set (q := 2 / (exp x * (1 + exp (-2 * x)))).
  assert (Hpos : 0 < exp x * (1 + exp (-2 * x))).
  { apply Rmult_lt_0_compat; [apply exp_pos |]. pose proof (exp_pos (-2 * x)). lra. }
  assert (Hq : 0 < q) by (unfold q; apply Rdiv_lt_0_compat; lra).
  assert (Hsq : 1 - Rtrigo_def.tanh x * Rtrigo_def.tanh x = q * q).
  { unfold q, Rtrigo_def.tanh, sinh, cosh. rewrite Hb2, Ha.
    set (b := exp (- x)) in *. field. split; nra. }
  rewrite Hsq, ln_mult by exact Hq.
  unfold q. unfold Rdiv at 1 2.
  rewrite ln_mult, ln_Rinv, ln_mult, ln_exp.
  - lra.
  - apply exp_pos.
  - pose proof (exp_pos (-2 * x)). lra.
  - exact Hpos.
  - lra.
  - apply Rinv_0_lt_compat. exact Hpos.
Qed.

Lemma tanh_atanh (y : R) : -1 < y < 1 -> Rtrigo_def.tanh (atanh1 y) = y.
Proof.
  intros Hy. unfold atanh1.
  set (r := (1 + y) / (1 - y)).
  assert (Hr : 0 < r) by (unfold r; apply Rdiv_lt_0_compat; lra).
  set (e := exp (ln r / 2)).
  assert (He : 0 < e) by apply exp_pos.
  assert (Hee : e * e = r).
  { unfold e. rewrite <- exp_plus. replace (ln r / 2 + ln r / 2) with (ln r) by lra.
    apply exp_ln. exact Hr. }
  unfold Rtrigo_def.tanh, sinh, cosh. rewrite exp_Ropp. fold e.
  assert (Hy' : y = (r - 1) / (r + 1)).
  { unfold r. field. lra. }
  rewrite Hy'. rewrite <- Hee. field. split; nra.
Qed.

Lemma ln_normal_density (mu sigma x : R) :
  0 < sigma ->
  - ((x - mu) * (x - mu)) / (2 * (sigma * sigma)) - ln sigma - ln (sqrt (2 * PI))
  = ln (normal_density mu sigma x).
Proof.
  intros Hs. unfold normal_density.
  assert (Hpi : 0 < sqrt (2 * PI)).
  { apply sqrt_lt_R0. pose proof PI_RGT_0. lra. }
  rewrite ln_mult, ln_Rinv, ln_mult, ln_exp.
  - lra.
  - exact Hs.
  - exact Hpi.
  - apply Rmult_lt_0_compat; assumption.
  - apply Rinv_0_lt_compat. apply Rmult_lt_0_compat; assumption.
  - apply exp_pos.
Qed.

(** One component of the log-probability the code computes is the logarithm
    of the tanh-Normal density, wherever the softplus inside the log-Jacobian
    is below its threshold. *)
Lemma component_log_density (mu sigma y : R) :
  0 < sigma -> -1 < y < 1 -> -10 <= atanh1 y ->
  0 - 2 * (ln 2 - atanh1 y - softplus1 (-2 * atanh1 y))
  + (- ((atanh1 y - mu) * (atanh1 y - mu)) / (2 * (sigma * sigma))
     - ln sigma + - ln (sqrt (2 * PI)))
  = ln (tanh_normal_density mu sigma y).
Proof.
  intros Hs Hy Hx. unfold tanh_normal_density.
  assert (Hd : 0 < normal_density mu sigma (atanh1 y)).
  { unfold normal_density. apply Rmult_lt_0_compat; [| apply exp_pos].
    apply Rinv_0_lt_compat. apply Rmult_lt_0_compat; [exact Hs |].
    apply sqrt_lt_R0. pose proof PI_RGT_0. lra. }
  change (normal_density mu sigma (atanh1 y) / (1 - y * y))
    with (normal_density mu sigma (atanh1 y) * / (1 - y * y)).
  rewrite ln_mult, ln_Rinv.
  - rewrite <- (ln_normal_density mu sigma (atanh1 y) Hs).
    rewrite (tanh_log_jacobian (atanh1 y) Hx), (tanh_atanh y Hy). lra.
  - nra.
  - exact Hd.
  - apply Rinv_0_lt_compat. nra.
Qed.

Lemma rect_eta (B F : nat) (t : tensor) :
  rectangular B F t -> t = tabulate B F (entry t).
Proof.
  intros [HB HF]. unfold tabulate, entry.
  rewrite (list_tabulate [] t) at 1. rewrite HB.
  apply map_ext_in. intros b Hb. apply in_seq in Hb.
  rewrite (list_tabulate 0 (nth b t [])) at 1.
  rewrite Forall_forall in HF.
  rewrite (HF (nth b t [])); [reflexivity |].
  apply list_elem_of_In. apply nth_In. lia.
Qed.

Lemma tabulate_rect (B F : nat) (h : nat -> nat -> R) :
  rectangular B F (tabulate B F h).
Proof.
  unfold rectangular, tabulate. rewrite length_map, length_seq.
  split; [reflexivity |]. rewrite Forall_map. apply Forall_forall.
  intros b _. rewrite length_map, length_seq. reflexivity.
Qed.

Lemma tabulate_ext (B F : nat) (h h' : nat -> nat -> R) :
  (forall b f, (b < B)%nat -> (f < F)%nat -> h b f = h' b f) ->
  tabulate B F h = tabulate B F h'.
Proof.
  intros Hh. unfold tabulate. apply map_ext_in. intros b Hb. apply in_seq in Hb.
  apply map_ext_in. intros f Hf. apply in_seq in Hf. apply Hh; lia.
Qed.

Lemma pointwise_tabulate (g : R -> R) (B F : nat) (h : nat -> nat -> R) :
  pointwise g (tabulate B F h) = tabulate B F (fun b f => g (h b f)).
Proof.
  unfold pointwise, tabulate. rewrite map_map. apply map_ext. intros b.
  rewrite map_map. reflexivity.
Qed.

Lemma broadcast_map_seq {A B C} (f : A -> B -> C) (u : nat -> A) (v : nat -> B)
    (n : nat) :
  broadcast f (map u (seq 0 n)) (map v (seq 0 n))
  = map (fun i => f (u i) (v i)) (seq 0 n).
Proof.
  assert (Hz : forall start,
            zip_with f (map u (seq start n)) (map v (seq start n))
            = map (fun i => f (u i) (v i)) (seq start n)).
  { induction n as [| n IH]; intros start; simpl; [reflexivity |].
    f_equal. apply IH. }
  destruct n as [| [| n]]; [reflexivity | reflexivity |].
  rewrite <- Hz. reflexivity.
Qed.

Lemma binop_tabulate (f : R -> R -> R) (B F : nat) (h h' : nat -> nat -> R) :
  binop f (tabulate B F h) (tabulate B F h')
  = tabulate B F (fun b j => f (h b j) (h' b j)).
Proof.
  unfold binop, tabulate. rewrite broadcast_map_seq.
  apply map_ext. intros b. apply broadcast_map_seq.
Qed.

Lemma sum_last_tabulate (B F : nat) (h : nat -> nat -> R) :
  sum_last (tabulate B F h)
  = map (fun b => sum_list (map (fun j => h b j) (seq 0 F))) (seq 0 B).
Proof. unfold sum_last, tabulate. rewrite map_map. reflexivity. Qed.

Lemma randn_rows_shape (rows : list nat) : forall g,
  shape (fst (randn_rows rows g)) = rows.
Proof.
  induction rows as [| n rows IH]; intros g; simpl; [reflexivity |].
  specialize (IH (advance n g)).
  destruct (randn_rows rows (advance n g)) as [vs g2]. simpl in *.
  rewrite length_map, length_seq, IH. reflexivity.
Qed.

Lemma rect_shape (B F : nat) (x : tensor) :
  rectangular B F x <-> shape x = replicate B F.
Proof.
  unfold rectangular, shape. split.
  - intros [HB HF]. subst B.
    induction HF as [| r x Hr HF IH]; simpl; [reflexivity |].
    rewrite Hr, IH. reflexivity.
  - revert B. induction x as [| r x IH]; intros [| B] Hs; simpl in Hs;
      try discriminate.
    + split; [reflexivity | constructor].
    + injection Hs as Hr Hx. destruct (IH B Hx) as [HB HF].
      split; [simpl; lia | constructor; assumption].
Qed.

Ltac tabulate_ops :=
  unfold add, sub, mul, div, neg, scalar_mul, add_scalar, tanh, atanh in *;
  repeat (rewrite ?pointwise_tabulate, ?binop_tabulate).

(** The code's log-probability on rectangular operands, component by
    component. *)
Lemma log_prob_tabulate (B F : nat) (m sd a : nat -> nat -> R) :
  log_prob (ActorModel.action_dist (tabulate B F m) (tabulate B F sd))
           (tabulate B F a)
  = map (fun b =>
           sum_list (map (fun j =>
             0 - 2 * (ln 2 - atanh1 (a b j) - softplus1 (-2 * atanh1 (a b j)))
             + (- ((atanh1 (a b j) - m b j) * (atanh1 (a b j) - m b j))
                  / (2 * (sd b j * sd b j))
                - ln (sd b j) + - ln (sqrt (2 * PI)))) (seq 0 F)))
        (seq 0 B).
Proof.
  cbn [log_prob independent_distribution ActorModel.action_dist base].
  unfold transformed_log_prob.
  cbn [transforms base_dist rev app fold_left transform_inv log_abs_det_jacobian].
  unfold normal_log_prob. cbn [loc scale].
  change (sub [[0]] ?x) with (pointwise (fun v => 0 - v) x).
  tabulate_ops. rewrite sum_last_tabulate. reflexivity.
Qed.

Lemma log_prob_rect (B F : nat) (mean std action : tensor) :
  rectangular B F mean -> rectangular B F std -> rectangular B F action ->
  log_prob (ActorModel.action_dist mean std) action
  = map (fun b =>
           sum_list (map (fun j =>
             0 - 2 * (ln 2 - atanh1 (entry action b j)
                      - softplus1 (-2 * atanh1 (entry action b j)))
             + (- ((atanh1 (entry action b j) - entry mean b j)
                   * (atanh1 (entry action b j) - entry mean b j))
                  / (2 * (entry std b j * entry std b j))
                - ln (entry std b j) + - ln (sqrt (2 * PI)))) (seq 0 F)))
        (seq 0 B).
Proof.
  intros Hm Hs Ha.
  pose proof (log_prob_tabulate B F (entry mean) (entry std) (entry action)) as H.
  rewrite <- (rect_eta B F mean Hm), <- (rect_eta B F std Hs),
    <- (rect_eta B F action Ha) in H.
  exact H.
Qed.

Lemma entries_entry (P : R -> Prop) (B F : nat) (x : tensor) (b j : nat) :
  rectangular B F x -> entries P x -> (b < B)%nat -> (j < F)%nat ->
  P (entry x b j).
Proof.
  intros [HB HF] HP Hb Hj. unfold entry, entries in *.
  rewrite Forall_forall in HP, HF.
  assert (Hin : nth b x [] ∈ x) by (apply list_elem_of_In, nth_In; lia).
  specialize (HP _ Hin). specialize (HF _ Hin). rewrite Forall_forall in HP.
  apply HP. apply list_elem_of_In, nth_In. lia.
Qed.

Lemma pointwise_rect (f : R -> R) (B F : nat) (x : tensor) :
  rectangular B F x -> rectangular B F (pointwise f x).
Proof.
  intros Hx. rewrite (rect_eta B F x Hx), pointwise_tabulate. apply tabulate_rect.
Qed.

Lemma mean_std_rect (self : ActorModel.t) (belief state : tensor)
    (hidden_size action_size : nat) :
  linear_shape (ActorModel.fc5 self) hidden_size (2 * action_size) ->
  let B := length (ActorModel.network self belief state) in
  rectangular B action_size (fst (ActorModel.mean_std self belief state)) /\
  rectangular B action_size (snd (ActorModel.mean_std self belief state)).
Proof.
  intros Hshape B.
  destruct (mean_std_halves self belief state hidden_size action_size Hshape)
    as (Hout & -> & ->).
  split; apply pointwise_rect; unfold rectangular;
    (split; [rewrite length_map; reflexivity |]);
    rewrite Forall_map; (eapply Forall_impl; [exact Hout |]);
    intros r Hr; cbv beta in *.
  - rewrite length_take. lia.
  - rewrite length_drop. lia.
Qed.

Lemma draw_rect (B F : nat) (mean std : tensor) (g : Generator) :
  rectangular B F mean -> rectangular B F std ->
  rectangular B F (fst (draw (ActorModel.action_dist mean std) g)).
Proof.
  intros Hm Hs. unfold draw. cbn [ActorModel.action_dist base base_dist loc scale].
  pose proof (randn_rows_shape (shape (add mean std)) g) as Heps.
  destruct (randn_rows (shape (add mean std)) g) as [eps g']. simpl in *.
  assert (Hsum : rectangular B F (add mean std)).
  { rewrite (rect_eta B F mean Hm), (rect_eta B F std Hs).
    unfold add. rewrite binop_tabulate. apply tabulate_rect. }
  assert (He : rectangular B F eps).
  { apply rect_shape. rewrite Heps. apply rect_shape. exact Hsum. }
  rewrite (rect_eta B F mean Hm), (rect_eta B F std Hs), (rect_eta B F eps He).
  unfold tanh, add, mul. rewrite !binop_tabulate, pointwise_tabulate.
  apply tabulate_rect.
Qed.

Lemma draws_rect (B F : nat) (mean std : tensor) (n : nat) : forall g,
  rectangular B F mean -> rectangular B F std ->
  Forall (rectangular B F) (fst (draws n (ActorModel.action_dist mean std) g)).
Proof.
  induction n as [| n IH]; intros g Hm Hs; simpl; [constructor |].
  pose proof (draw_rect B F mean std g Hm Hs) as Hx.
  destruct (draw (ActorModel.action_dist mean std) g) as [x g1].
  specialize (IH g1 Hm Hs).
  destruct (draws n (ActorModel.action_dist mean std) g1) as [xs g2].
  simpl in *. constructor; assumption.
Qed.

Lemma mean0_rect (B F : nat) (x : tensor3) :
  x <> [] -> Forall (rectangular B F) x -> rectangular B F (mean0 x).
Proof.
  intros Hne Hx. rewrite (mean0_total B F x Hne Hx).
  apply (tabulate_rect B F
           (fun b f => sum_list (map (fun s => entry s b f) x) / INR (length x))).
Qed.

Lemma log_prob_joint (B F : nat) (mean std action : tensor) :
  rectangular B F mean -> rectangular B F std -> rectangular B F action ->
  entries (fun v => 0 < v) std ->
  entries (fun v => -1 < v < 1) action ->
  entries (fun v => -10 <= atanh1 v) action ->
  log_prob (ActorModel.action_dist mean std) action
  = joint_log_density F mean std action.
Proof.
  intros Hm Hs Ha Hpos Hunit Hthr.
  rewrite (log_prob_rect B F mean std action Hm Hs Ha).
  unfold joint_log_density. destruct Ha as [HaB HaF]. rewrite HaB.
  apply map_ext_in. intros b Hb. apply in_seq in Hb. f_equal.
  apply map_ext_in. intros j Hj. apply in_seq in Hj.
  apply component_log_density.
  - apply (entries_entry _ B F std b j Hs Hpos); lia.
  - apply (entries_entry _ B F action b j (conj HaB HaF) Hunit); lia.
  - apply (entries_entry _ B F action b j (conj HaB HaF) Hthr); lia.
Qed.

Lemma actor_std_positive (self : ActorModel.t) (belief state : tensor) :
  0 <= ActorModel.min_std self ->
  entries (fun v => 0 < v) (snd (ActorModel.mean_std self belief state)).
Proof.
  intros Hmin. unfold ActorModel.mean_std.
  destruct (chunk (ActorModel.network self belief state)) as [mean raw]. simpl.
  unfold ActorModel.constrain_std.
  pose proof (std_dev_above_floor (add_scalar raw (ActorModel.raw_init_std self))
                (ActorModel.min_std self)) as H.
  unfold entries in *. eapply Forall_impl; [exact H |]. intros r Hr.
  eapply Forall_impl; [exact Hr |]. intros v Hv. cbv beta in Hv. lra.
Qed.



End DensityFacts.

(** ** The encoder and the decoder heads, row by row *)

Section HeadFacts.
Import Torch Shapes Rows.

Lemma map_zip_with_fuse {A B C E} (f : C -> E) (h : A -> B -> C)
    (x : list A) (y : list B) :
  map f (zip_with h x y) = zip_with (fun u v => f (h u v)) x y.
Proof.
  revert y. induction x as [| u x IH]; intros [| v y]; simpl; try reflexivity.
  f_equal. apply IH.
Qed.

Lemma layer_rows (f : tensor -> tensor) (a : R -> R) (l : Linear) (x : tensor) :
  pointwise_act f a -> f (linear l x) = map (layer_row a l) x.
Proof.
  intros Hf. rewrite Hf. unfold pointwise, linear, layer_row, linear_row.
  rewrite map_map. reflexivity.
Qed.

Lemma linear_rows (l : Linear) (x : tensor) : linear l x = map (linear_row l) x.
Proof. reflexivity. Qed.

Lemma linear_row_width (l : Linear) (i o : nat) (xr : list R) :
  linear_shape l i o -> length (linear_row l xr) = o.
Proof.
  intros (Hw & _ & Hb). unfold linear_row. rewrite length_zip_with. lia.
Qed.

Lemma sigmoid1_bounds (x : R) : 0 < sigmoid1 x < 1.
Proof.
  unfold sigmoid1. pose proof (exp_pos (- x)) as He. split.
  - apply Rinv_0_lt_compat. lra.
  - rewrite <- Rinv_1 at 2. apply Rinv_lt_contravar; lra.
Qed.

(** Squeezing the last dimension of rows of width one. *)
Lemma squeeze_last_rows {A} (dim : Z) (h : A -> list R) (xs : list A)
    (g : Generator) :
  dim = 1%Z \/ dim = (-1)%Z ->
  (forall u, length (h u) = 1%nat) ->
  squeeze dim (map h xs) g = Ok (Rank1 (map (fun u => nth 0 (h u) 0) xs), g).
Proof.
  intros Hdim Hh. unfold squeeze.
  assert (Hd : ((dim =? 1) || (dim =? -1))%Z = true).
  { destruct Hdim as [-> | ->]; reflexivity. }
  rewrite Hd.
  assert (Hall : forallb (fun r => (length r =? 1)%nat) (map h xs) = true).
  { apply forallb_forall. intros r Hr. apply in_map_iff in Hr.
    destruct Hr as (u & <- & _). rewrite Hh. reflexivity. }
  rewrite Hall, map_map. reflexivity.
Qed.

Lemma reward_rows (self : RewardModel.t) (a : R -> R) (hidden_size : nat)
    (belief state : tensor) (g : Generator) :
  pointwise_act (RewardModel.act_fn self) a ->
  linear_shape (RewardModel.fc3 self) hidden_size 1 ->
  RewardModel.forward self belief state g
  = Ok (Rank1 (zip_with (reward_row self a) belief state), g).
Proof.
  intros Hact Hshape. unfold RewardModel.forward.
  rewrite (layer_rows _ a _ _ Hact), (layer_rows _ a _ _ Hact), linear_rows.
  unfold cat. rewrite !map_map, squeeze_last_rows.
  - rewrite map_zip_with_fuse. reflexivity.
  - right. reflexivity.
  - intros u. eapply linear_row_width. exact Hshape.
Qed.

Lemma value_rows (self : ValueModel.t) (a : R -> R) (hidden_size : nat)
    (belief state : tensor) (g : Generator) :
  pointwise_act (ValueModel.act_fn self) a ->
  linear_shape (ValueModel.fc4 self) hidden_size 1 ->
  ValueModel.forward self belief state g
  = Ok (Rank1 (zip_with (value_row self a) belief state), g).
Proof.
  intros Hact Hshape. unfold ValueModel.forward.
  rewrite (layer_rows _ a _ _ Hact), (layer_rows _ a _ _ Hact),
    (layer_rows _ a _ _ Hact), linear_rows.
  unfold cat. rewrite !map_map, squeeze_last_rows.
  - rewrite map_zip_with_fuse. reflexivity.
  - left. reflexivity.
  - intros u. eapply linear_row_width. exact Hshape.
Qed.

Lemma observation_rows (self : ObservationModel.t) (a : R -> R)
    (belief state : tensor) :
  pointwise_act (ObservationModel.act_fn self) a ->
  ObservationModel.forward self belief state
  = zip_with (observation_row self a) belief state.
Proof.
  intros Hact. unfold ObservationModel.forward.
  rewrite (layer_rows _ a _ _ Hact), (layer_rows _ a _ _ Hact), linear_rows.
  unfold cat. rewrite !map_map, map_zip_with_fuse. reflexivity.
Qed.

(** X1.  With an entry-wise activation and a final layer of one output
    feature, [RewardModel.forward] and [ValueModel.forward] return a rank-1
    value with one scalar per batch row, each computed from its own
    (belief, state) row alone; squeezing [dim=-1] and [dim=1] come to the same. *)
Theorem scalar_heads_rows (a : R -> R) (hidden_size : nat)
    (belief state : tensor) (g : Generator) :
  (forall self : RewardModel.t,
     pointwise_act (RewardModel.act_fn self) a ->
     linear_shape (RewardModel.fc3 self) hidden_size 1 ->
     RewardModel.forward self belief state g
     = Ok (Rank1 (zip_with (reward_row self a) belief state), g)) /\
  (forall self : ValueModel.t,
     pointwise_act (ValueModel.act_fn self) a ->
     linear_shape (ValueModel.fc4 self) hidden_size 1 ->
     ValueModel.forward self belief state g
     = Ok (Rank1 (zip_with (value_row self a) belief state), g)).
Proof.
  split.
  - intros self. apply reward_rows.
  - intros self. apply value_rows.
Qed.

Lemma scalar_heads_rows_witness :
  RewardModel.forward Examples.reward_model [[1]; [2]] [[5]; [6]] Examples.zero_noise
  = Ok (Rank1 (zip_with (reward_row Examples.reward_model relu1) [[1]; [2]] [[5]; [6]]),
        Examples.zero_noise) /\
  ValueModel.forward Examples.value_model [[1]; [2]] [[5]; [6]] Examples.zero_noise
  = Ok (Rank1 (zip_with (value_row Examples.value_model relu1) [[1]; [2]] [[5]; [6]]),
        Examples.zero_noise).
Proof.
  destruct (scalar_heads_rows relu1 1 [[1]; [2]] [[5]; [6]] Examples.zero_noise)
    as [Hr Hv].
  split.
  - apply Hr.
    + intros x. reflexivity.
    + unfold linear_shape, Examples.reward_model, Examples.zeros_linear; simpl.
      repeat split; repeat constructor.
  - apply Hv.
    + intros x. reflexivity.
    + unfold linear_shape, Examples.value_model, Examples.zeros_linear; simpl.
      repeat split; repeat constructor.
Defined.



(** X3.  With an entry-wise activation, [ObservationModel.forward] and
    [Encoder.forward] act on each batch row separately, and every output row
    has the width of the final layer: [observation_size] for the decoder,
    [embedding_size] for the encoder. *)
Theorem vector_heads_rows (a : R -> R) (hidden_size out_size : nat) :
  (forall (self : ObservationModel.t) (belief state : tensor),
     pointwise_act (ObservationModel.act_fn self) a ->
     linear_shape (ObservationModel.fc3 self) hidden_size out_size ->
     ObservationModel.forward self belief state
       = zip_with (observation_row self a) belief state /\
     Forall (fun r => length r = out_size)
       (ObservationModel.forward self belief state)) /\
  (forall (self : Encoder.t) (observation : tensor),
     pointwise_act (Encoder.act_fn self) a ->
     linear_shape (Encoder.fc3 self) hidden_size out_size ->
     Encoder.forward self observation = map (encoder_row self a) observation /\
     length (Encoder.forward self observation) = length observation /\
     Forall (fun r => length r = out_size) (Encoder.forward self observation)).
Proof.
  split.
  - intros self belief state Hact Hshape.
    pose proof (observation_rows self a belief state Hact) as Heq.
    split; [exact Heq |]. rewrite Heq. apply Forall_forall. intros r Hr.
    apply elem_of_zip_with in Hr. destruct Hr as (b & s & -> & _).
    unfold observation_row. eapply linear_row_width. exact Hshape.
  - intros self observation Hact Hshape.
    assert (Heq : Encoder.forward self observation
                  = map (encoder_row self a) observation).
    { unfold Encoder.forward.
      rewrite (layer_rows _ a _ _ Hact), (layer_rows _ a _ _ Hact), linear_rows.
      rewrite !map_map. reflexivity. }
    split; [exact Heq |]. rewrite Heq. split; [apply length_map |].
    rewrite Forall_map. apply Forall_forall. intros o _.
    unfold encoder_row. eapply linear_row_width. exact Hshape.
Qed.

Lemma vector_heads_rows_witness :
  Forall (fun r => length r = 3%nat)
    (ObservationModel.forward Examples.observation_model [[1]; [2]] [[5]; [6]]) /\
  length (Encoder.forward Examples.encoder [[1; 2; 3]]) = 1%nat.
Proof.
  split.
  - destruct (vector_heads_rows relu1 1 3) as [Hobs _].
    apply Hobs.
    + intros x. reflexivity.
    + unfold linear_shape, Examples.observation_model, Examples.zeros_linear; simpl.
      repeat split; repeat constructor.
  - destruct (vector_heads_rows relu1 2 2) as [_ Henc].
    apply (Henc Examples.encoder [[1; 2; 3]]).
    + intros x. reflexivity.
    + unfold linear_shape, Examples.encoder, Examples.zeros_linear; simpl.
      repeat split; repeat constructor.
Defined.

End HeadFacts.

(** ** The helper [bottle] *)

Section BottleFacts.
Import Torch Shapes Rows.

Lemma unflatten_concat {A} (B : nat) (xs : list (list A)) :
  Forall (fun s => length s = B) xs ->
  unflatten (length xs) B (concat xs) = xs.
Proof.
  induction 1 as [| x xs Hx Hxs IH]; simpl; [reflexivity |].
  rewrite <- Hx. rewrite take_app_length, drop_app_length.
  rewrite Hx. f_equal. exact IH.
Qed.

Lemma concat_unflatten {A} (T B : nat) : forall y : list A,
  length y = (T * B)%nat -> concat (unflatten T B y) = y.
Proof.
  induction T as [| T IH]; intros y Hy; simpl in *.
  - destruct y; [reflexivity | discriminate].
  - rewrite IH; [apply take_drop |]. rewrite length_drop. lia.
Qed.

Lemma unflatten_slices {A} (T B : nat) : forall y : list A,
  length y = (T * B)%nat ->
  length (unflatten T B y) = T /\
  Forall (fun s => length s = B) (unflatten T B y).
Proof.
  induction T as [| T IH]; intros y Hy; simpl in *.
  - split; [reflexivity | constructor].
  - destruct (IH (drop B y)) as [HT HB]; [rewrite length_drop; lia |].
    split; [lia |]. constructor; [rewrite length_take; lia | exact HB].
Qed.

Lemma length_concat_slices {A} (T B : nat) (xs : list (list A)) :
  length xs = T -> Forall (fun s => length s = B) xs ->
  length (concat xs) = (T * B)%nat.
Proof.
  intros <- H. induction H as [| x xs Hx Hxs IH]; simpl; [reflexivity |].
  rewrite length_app, IH, Hx. reflexivity.
Qed.

Lemma zip_with_concat {A B C} (f : A -> B -> C) (xs : list (list A)) :
  forall ys : list (list B),
  Forall2 (fun x y => length x = length y) xs ys ->
  zip_with f (concat xs) (concat ys) = concat (zip_with (zip_with f) xs ys).
Proof.
  induction xs as [| x xs IH]; intros ys H; inversion H as [| ? y ? ys' Hxy Hrest];
    subst; simpl; [reflexivity |].
  rewrite zip_with_app by exact Hxy. f_equal. apply IH. exact Hrest.
Qed.

Lemma slices_size01 (T B : nat) (x : tensor3) :
  slices T B x -> (1 <= T)%nat -> size01 x = (T, B).
Proof.
  intros [HT HB] H1. unfold size01. rewrite HT. f_equal.
  destruct x as [| s x]; [simpl in HT; lia |].
  inversion HB as [| ? ? Hs ?]. exact Hs.
Qed.

Lemma slices_Forall2 {A C} (T B : nat) (xs : list (list A)) (ys : list (list C)) :
  length xs = T -> Forall (fun s => length s = B) xs ->
  length ys = T -> Forall (fun s => length s = B) ys ->
  Forall2 (fun x y => length x = length y) xs ys.
Proof.
  intros <- Hx. revert ys. induction Hx as [| x xs Hx Hxs IH]; intros ys Hlen Hy.
  - destruct ys; [constructor | discriminate].
  - destruct ys as [| y ys]; [discriminate |]. inversion Hy; subst.
    constructor; [congruence |]. apply IH; [simpl in Hlen; lia | assumption].
Qed.

Lemma zip_with_slices {A C E} (f : A -> C -> E) (T B : nat)
    (xs : list (list A)) (ys : list (list C)) :
  length xs = T -> Forall (fun s => length s = B) xs ->
  length ys = T -> Forall (fun s => length s = B) ys ->
  length (zip_with (zip_with f) xs ys) = T /\
  Forall (fun s => length s = B) (zip_with (zip_with f) xs ys).
Proof.
  intros HxT Hx HyT Hy. split; [rewrite length_zip_with; lia |].
  apply Forall_forall. intros z Hz. apply elem_of_zip_with in Hz.
  destruct Hz as (x & y & -> & Hxin & Hyin).
  rewrite Forall_forall in Hx. rewrite Forall_forall in Hy.
  rewrite length_zip_with, (Hx x Hxin), (Hy y Hyin).
  lia.
Qed.

(** X4.  When the first argument has [T] time steps of [B] rows and [f]
    returns [T * B] rows, [bottle] returns the result of [f] cut back into [T]
    steps of [B] rows, in order: flattening what [bottle] returns gives back
    what [f] returned, at rank 1 as at rank 2. *)
Theorem bottle_restores_time_and_batch (f : list tensor -> M squeezed)
    (x0 : tensor3) (rest : list tensor3) (T B : nat) (g g' : Generator) :
  slices T B x0 -> (1 <= T)%nat ->
  (forall v,
     f (map flatten (x0 :: rest)) g = Ok (Rank1 v, g') ->
     length v = (T * B)%nat ->
     bottle f (x0 :: rest) g = Ok (Seq2 (unflatten T B v), g') /\
     concat (unflatten T B v) = v /\
     length (unflatten T B v) = T /\
     Forall (fun s => length s = B) (unflatten T B v)) /\
  (forall y,
     f (map flatten (x0 :: rest)) g = Ok (Rank2 y, g') ->
     length y = (T * B)%nat -> size1 y <> 0%nat ->
     bottle f (x0 :: rest) g = Ok (Seq3 (unflatten T B y), g') /\
     flatten (unflatten T B y) = y /\
     slices T B (unflatten T B y)).
Proof.
  intros Hx HT. pose proof (slices_size01 T B x0 Hx HT) as Hsize.
  split.
  - intros v Hf Hv.
    destruct (unflatten_slices T B v Hv) as [H1 H2].
    split; [| split; [apply concat_unflatten; exact Hv | split; assumption]].
    unfold bottle, bind. rewrite Hf. simpl map. unfold getitem. simpl lookup.
    unfold ret at 1. rewrite Hsize. simpl.
    rewrite Hv, Nat.eqb_refl. reflexivity.
  - intros y Hf Hy Hw.
    destruct (unflatten_slices T B y Hy) as [H1 H2].
    split; [| split; [apply concat_unflatten; exact Hy | split; assumption]].
    unfold bottle, bind. rewrite Hf. simpl map. unfold getitem. simpl lookup.
    unfold ret at 1. rewrite Hsize. simpl.
    destruct (Nat.eqb_spec (size1 y) 0); [contradiction |].
    rewrite Hy, Nat.eqb_refl. reflexivity.
Qed.

Lemma bottle_restores_time_and_batch_witness :
  bottle (call1 (fun x => ret (Rank2 x))) [Examples.beliefs22] Examples.zero_noise
  = Ok (Seq3 (unflatten 2 2 (flatten Examples.beliefs22)), Examples.zero_noise).
Proof.
  destruct (bottle_restores_time_and_batch (call1 (fun x => ret (Rank2 x)))
              Examples.beliefs22 [] 2 2 Examples.zero_noise Examples.zero_noise)
    as [_ H2].
  - split; [reflexivity | repeat constructor].
  - lia.
  - apply (H2 (flatten Examples.beliefs22)).
    + reflexivity.
    + reflexivity.
    + simpl. lia.
Defined.

(** X5.  Through [bottle], a decoder head with an entry-wise activation is
    applied at every time step and every batch row separately: the reward of
    step [t], row [b] is the reward of that row's belief and state, and the
    reconstructed observation likewise. *)
Theorem bottle_decoder_heads (a : R -> R) (hidden_size : nat) (T B : nat)
    (beliefs states : tensor3) (g : Generator) :
  slices T B beliefs -> slices T B states -> (1 <= T)%nat ->
  (forall self : RewardModel.t,
     pointwise_act (RewardModel.act_fn self) a ->
     linear_shape (RewardModel.fc3 self) hidden_size 1 ->
     bottle (call2 (RewardModel.forward self)) [beliefs; states] g
     = Ok (Seq2 (zip_with (zip_with (reward_row self a)) beliefs states), g)) /\
  (forall (self : ObservationModel.t) (observation_size : nat),
     pointwise_act (ObservationModel.act_fn self) a ->
     linear_shape (ObservationModel.fc3 self) hidden_size observation_size ->
     (1 <= B)%nat -> (1 <= observation_size)%nat ->
     bottle (call2 (fun b s => ret (Rank2 (ObservationModel.forward self b s))))
       [beliefs; states] g
     = Ok (Seq3 (zip_with (zip_with (observation_row self a)) beliefs states), g)).
Proof.
  intros [HbT HbB] [HsT HsB] HT.
  pose proof (slices_size01 T B beliefs (conj HbT HbB) HT) as Hsize.
  pose proof (slices_Forall2 T B beliefs states HbT HbB HsT HsB) as H2.
  split.
  - intros self Hact Hshape.
    destruct (zip_with_slices (reward_row self a) T B beliefs states
                HbT HbB HsT HsB) as [HzT HzB].
    unfold bottle, bind. simpl map. unfold call2.
    rewrite (reward_rows self a hidden_size _ _ g Hact Hshape).
    unfold getitem. simpl lookup. unfold ret at 1. rewrite Hsize. simpl.
    unfold flatten. rewrite (zip_with_concat _ _ _ H2).
    rewrite (length_concat_slices T B _ HzT HzB), Nat.eqb_refl.
    rewrite <- HzT at 1. rewrite (unflatten_concat B _ HzB). reflexivity.
  - intros self observation_size Hact Hshape HB Hobs.
    destruct (zip_with_slices (observation_row self a) T B beliefs states
                HbT HbB HsT HsB) as [HzT HzB].
    unfold bottle, bind. simpl map. unfold call2, ret at 1.
    rewrite (observation_rows self a _ _ Hact).
    unfold getitem. simpl lookup. unfold ret at 1. rewrite Hsize. simpl.
    unfold flatten. rewrite (zip_with_concat _ _ _ H2).
    remember (zip_with (zip_with (observation_row self a)) beliefs states)
      as zs eqn:Hzs.
    pose proof (length_concat_slices T B zs HzT HzB) as Hlen.
    assert (Hrows : Forall (fun r => length r = observation_size) (concat zs)).
    { rewrite Hzs, <- (zip_with_concat _ _ _ H2). apply Forall_forall.
      intros r Hr. apply elem_of_zip_with in Hr. destruct Hr as (b & s & -> & _).
      unfold observation_row. eapply linear_row_width. exact Hshape. }
    assert (Hw : size1 (concat zs) <> 0%nat).
    { rewrite (size1_rows observation_size (concat zs)); [lia | | exact Hrows].
      intros Hnil. rewrite Hnil in Hlen. simpl in Hlen. nia. }
    destruct (Nat.eqb_spec (size1 (concat zs)) 0); [contradiction |].
    rewrite Hlen, Nat.eqb_refl.
    rewrite <- HzT at 1. rewrite (unflatten_concat B _ HzB). reflexivity.
Qed.

Lemma bottle_decoder_heads_witness :
  bottle (call2 (RewardModel.forward Examples.reward_model))
    [Examples.beliefs22; Examples.states22] Examples.zero_noise
  = Ok (Seq2 (zip_with (zip_with (reward_row Examples.reward_model relu1))
                Examples.beliefs22 Examples.states22), Examples.zero_noise).
Proof.
  destruct (bottle_decoder_heads relu1 1 2 2 Examples.beliefs22 Examples.states22
              Examples.zero_noise) as [Hr _].
  - split; [reflexivity | repeat constructor].
  - split; [reflexivity | repeat constructor].
  - lia.
  - apply Hr.
    + intros x. reflexivity.
    + unfold linear_shape, Examples.reward_model, Examples.zeros_linear; simpl.
      repeat split; repeat constructor.
Defined.



End BottleFacts.

(** ** How [TransitionModel.forward] fails *)

Section FailureFacts.
Import Torch Contract.

Variable self : TransitionModel.t.
Variable actions : tensor3.

Lemma getitem_None {A} (l : list A) (i : nat) (g : Generator) :
  l !! i = None -> getitem l i g = Raise IndexError.
Proof. intros H. unfold getitem. rewrite H. reflexivity. Qed.

Lemma bind_getitem_Some {A B} (l : list A) (i : nat) (a : A) (k : A -> M B)
    (g : Generator) :
  l !! i = Some a -> bind (getitem l i) k g = k a g.
Proof. intros H. unfold bind. rewrite (getitem_Some l i a g H). reflexivity. Qed.

Lemma bind_getitem_None {A B} (l : list A) (i : nat) (k : A -> M B)
    (g : Generator) :
  l !! i = None -> bind (getitem l i) k g = Raise IndexError.
Proof. intros H. unfold bind. rewrite (getitem_None l i g H). reflexivity. Qed.

Lemma gaussian_total (min_std : R) (out : tensor) (g : Generator) :
  exists v g', TransitionModel.gaussian min_std out g = Ok (v, g').
Proof.
  destruct (gaussian_run g min_std out g eq_refl)
    as (mean & std & state & g' & Hrun & _).
  eauto.
Qed.

Lemma bind_cases {A B} (m : M A) (k : A -> M B) (g : Generator)
    (P : result (B * Generator) -> Prop) :
  (forall e, m g = Raise e -> P (Raise e)) ->
  (forall a g', m g = Ok (a, g') -> P (k a g')) ->
  P (bind m k g).
Proof.
  intros Hraise Hok. unfold bind. destruct (m g) as [[a g'] | e]; auto.
Qed.

Lemma getitem_cases {A} (l : list A) (i : nat) (g : Generator) :
  (forall e, getitem l i g = Raise e -> e = IndexError) /\
  (forall a g', getitem l i g = Ok (a, g') -> l !! i = Some a /\ g' = g).
Proof.
  unfold getitem, ret, raise. destruct (l !! i) as [a |]; split.
  - intros e He. discriminate.
  - intros a' g' He. inversion He. auto.
  - intros e He. inversion He. reflexivity.
  - intros a' g' He. discriminate.
Qed.

Lemma select_state_cases (observations nonterminals : option tensor3)
    (st : TransitionModel.lists) (t : nat) (g : Generator) :
  (forall e, TransitionModel.select_state observations nonterminals st t g = Raise e ->
             e = IndexError) /\
  (forall s g', TransitionModel.select_state observations nonterminals st t g
                = Ok (s, g') ->
     g' = g /\
     forall nt, nonterminals = Some nt -> (1 <= t)%nat -> (t - 1 < length nt)%nat).
Proof.
  unfold TransitionModel.select_state.
  set (P := fun r : result (tensor * Generator) =>
              (forall e, r = Raise e -> e = IndexError) /\
              (forall s g', r = Ok (s, g') ->
                 g' = g /\
                 forall nt, nonterminals = Some nt -> (1 <= t)%nat ->
                            (t - 1 < length nt)%nat)).
  match goal with |- (forall e, ?r = _ -> _) /\ _ => change (P r) end.
  apply bind_cases.
  - intros e He. split; [| intros; discriminate].
    intros e' He'. inversion He'; subst e'.
    eapply (proj1 (getitem_cases _ t g)). exact He.
  - intros s0 g1 Hs0.
    destruct (proj2 (getitem_cases _ t g) s0 g1 Hs0) as [_ ->].
    destruct nonterminals as [nt |].
    + destruct (Nat.eqb_spec t 0) as [-> | Hne].
      * split; [intros; discriminate |]. intros s g' H. inversion H.
        split; [reflexivity |]. intros; lia.
      * unfold bind. destruct (nt !! (t - 1)%nat) as [m |] eqn:Hm.
        -- rewrite (getitem_Some nt (t - 1) m g Hm).
           split; [intros; discriminate |]. intros s g' H. inversion H.
           split; [reflexivity |]. intros nt' Heq _. inversion Heq; subst nt'.
           eapply lookup_lt_Some. exact Hm.
        -- rewrite (getitem_None nt (t - 1) g Hm).
           split; [| intros; discriminate].
           intros e He. inversion He. reflexivity.
    + split; [intros; discriminate |]. intros s g' H. inversion H.
      split; [reflexivity |]. intros; discriminate.
Qed.

(** An iteration raises nothing but [IndexError], and it completes only if
    the observations and the mask reach its index. *)
Lemma step_cases (observations nonterminals : option tensor3)
    (st : TransitionModel.lists) (t : nat) (g : Generator) :
  match TransitionModel.step self actions observations nonterminals t st g with
  | Raise e => e = IndexError
  | Ok _ =>
      (forall obs, observations = Some obs -> (t < length obs)%nat) /\
      (forall nt, nonterminals = Some nt -> (1 <= t)%nat -> (t - 1 < length nt)%nat)
  end.
Proof.
  set (P := fun r : result (TransitionModel.lists * Generator) =>
              match r with
              | Raise e => e = IndexError
              | Ok _ =>
                  (forall obs, observations = Some obs -> (t < length obs)%nat) /\
                  (forall nt, nonterminals = Some nt -> (1 <= t)%nat ->
                              (t - 1 < length nt)%nat)
              end).
  change (P (TransitionModel.step self actions observations nonterminals t st g)).
  unfold TransitionModel.step.
  destruct (select_state_cases observations nonterminals st t g) as [Hsr Hso].
  apply bind_cases; [intros e He; exact (Hsr e He) | intros s g1 Hs].
  destruct (Hso s g1 Hs) as [-> Hnt].
  apply bind_cases;
    [intros e He; exact (proj1 (getitem_cases actions t g) e He) | intros a g1 _].
  apply bind_cases;
    [intros e He;
     exact (proj1 (getitem_cases (TransitionModel.beliefs st) t g1) e He)
    | intros b g2 _].
  apply bind_cases.
  { intros e He. match type of He with
    | TransitionModel.gaussian ?m ?o ?h = _ =>
        destruct (gaussian_total m o h) as (v & h' & Hv) end.
    congruence. }
  intros [[mean std] state] g3 _.
  destruct observations as [obs |].
  - replace (Z.to_nat (Z.of_nat t - 1 + 1)) with t by lia.
    apply bind_cases;
      [intros e He; exact (proj1 (getitem_cases obs t g3) e He) | intros o g4 Ho].
    destruct (proj2 (getitem_cases obs t g3) o g4 Ho) as [Hlook _].
    apply bind_cases.
    { intros e He. match type of He with
      | TransitionModel.gaussian ?m ?o ?h = _ =>
          destruct (gaussian_total m o h) as (v & h' & Hv) end.
      congruence. }
    intros [[qmean qstd] qstate] g5 _. unfold ret, P. split; [| exact Hnt].
    intros obs' Heq. inversion Heq; subst obs'. eapply lookup_lt_Some. exact Hlook.
  - unfold ret, P. split; [| exact Hnt]. intros obs' Heq. discriminate.
Qed.

Lemma loop_cases (observations nonterminals : option tensor3)
    (st0 : TransitionModel.lists) (g : Generator) (n : nat) :
  match for_range n (TransitionModel.step self actions observations nonterminals)
          st0 g with
  | Raise e => e = IndexError
  | Ok _ =>
      forall t, (t < n)%nat ->
        (forall obs, observations = Some obs -> (t < length obs)%nat) /\
        (forall nt, nonterminals = Some nt -> (1 <= t)%nat ->
                    (t - 1 < length nt)%nat)
  end.
Proof.
  induction n as [| n IH].
  - simpl. intros t Ht. lia.
  - rewrite for_range_S. unfold bind.
    destruct (for_range n _ st0 g) as [[st g1] | e]; [| exact IH].
    pose proof (step_cases observations nonterminals st n g1) as Hstep.
    destruct (TransitionModel.step self actions observations nonterminals n st g1)
      as [[st' g2] | e]; [| exact Hstep].
    intros t Ht. destruct (decide (t = n)) as [-> | Hne]; [exact Hstep |].
    apply IH. lia.
Qed.

Lemma run_loop_valid (prev_state prev_belief : tensor)
    (observations nonterminals : option tensor3) (g : Generator) :
  match TransitionModel.run_loop self prev_state actions prev_belief
          observations nonterminals g with
  | Raise e => e = IndexError
  | Ok _ => valid_lengths actions observations nonterminals
  end.
Proof.
  unfold TransitionModel.run_loop.
  replace (length actions + 1 - 1)%nat with (length actions) by lia.
  pose proof (loop_cases observations nonterminals
                (TransitionModel.init_lists (length actions + 1) prev_state prev_belief)
                g (length actions)) as H.
  destruct (for_range (length actions) _ _ g) as [[st g1] | e]; [| exact H].
  unfold valid_lengths. split.
  - destruct observations as [obs |]; [| exact I].
    destruct (length actions) as [| n] eqn:HL; [lia |].
    destruct (H n ltac:(lia)) as [Ho _]. specialize (Ho obs eq_refl). lia.
  - destruct nonterminals as [nt |]; [| exact I].
    destruct (length actions) as [| [| n]] eqn:HL; [lia | lia |].
    destruct (H (S n) ltac:(lia)) as [_ Hn].
    specialize (Hn nt eq_refl ltac:(lia)). lia.
Qed.

End FailureFacts.

Section OutcomeFacts.
Import Torch Contract.



End OutcomeFacts.

(** ** Prefixes and chunks of a rollout *)

Section ChunkFacts.
Import Torch Contract Chunks.

Variable self : TransitionModel.t.

Lemma bind_ext {A B} (m : M A) (k1 k2 : A -> M B) (g : Generator) :
  (forall a g', k1 a g' = k2 a g') -> bind m k1 g = bind m k2 g.
Proof.
  intros H. unfold bind. destruct (m g) as [[a g'] | e]; [apply H | reflexivity].
Qed.

Lemma bind_assoc {A B C} (m : M A) (f : A -> M B) (k : B -> M C) (g : Generator) :
  bind (bind m f) k g = bind m (fun a => bind (f a) k) g.
Proof.
  unfold bind. destruct (m g) as [[a g'] | e]; reflexivity.
Qed.

(** An iteration computes its values from what it reads, then writes them. *)
Lemma step_decompose (actions : tensor3) (observations nonterminals : option tensor3)
    (t : nat) (st : TransitionModel.lists) (g : Generator) :
  TransitionModel.step self actions observations nonterminals t st g
  = bind (values self actions observations nonterminals t st)
         (fun v => ret (write t v st)) g.
Proof.
  unfold values, TransitionModel.step.
  rewrite !bind_assoc. apply bind_ext. intros s g1.
  rewrite !bind_assoc. apply bind_ext. intros a g2.
  rewrite !bind_assoc. apply bind_ext. intros b g3.
  unfold compute. rewrite !bind_assoc. apply bind_ext.
  intros [[mean std] state] g4.
  destruct observations as [obs |]; simpl option_map; cbv beta iota.
  - replace (Z.to_nat (Z.of_nat t - 1 + 1)) with t by lia.
    destruct (obs !! t) as [e |] eqn:He.
    2:{ rewrite (bind_getitem_None _ _ _ _ He). reflexivity. }
    rewrite (bind_getitem_Some _ _ _ _ _ He).
    unfold bind, ret. cbv beta iota.
    match goal with
    | |- context [TransitionModel.gaussian ?m ?o g4] =>
        destruct (TransitionModel.gaussian m o g4) as [[[[qm qs] qst] g5] | e']
    end; reflexivity.
  - reflexivity.
Qed.

Lemma bind_congr {A B} (m1 m2 : M A) (k1 k2 : A -> M B) (g : Generator) :
  m1 g = m2 g -> (forall a g', k1 a g' = k2 a g') -> bind m1 k1 g = bind m2 k2 g.
Proof.
  intros Hm Hk. unfold bind. rewrite Hm.
  destruct (m2 g) as [[a g'] | e]; [apply Hk | reflexivity].
Qed.

Lemma bind_Ok_inv {A B} (m : M A) (k : A -> M B) (g g' : Generator) (b : B) :
  bind m k g = Ok (b, g') ->
  exists a g1, m g = Ok (a, g1) /\ k a g1 = Ok (b, g').
Proof.
  unfold bind. destruct (m g) as [[a g1] | e]; [eauto | discriminate].
Qed.

Lemma getitem_congr {A} (l1 l2 : list A) (i j : nat) (g : Generator) :
  l1 !! i = l2 !! j -> getitem l1 i g = getitem l2 j g.
Proof. intros H. unfold getitem. rewrite H. reflexivity. Qed.

Lemma values_congruence (actions1 actions2 : tensor3)
    (obs1 nt1 obs2 nt2 : option tensor3) (i j : nat)
    (st1 st2 : TransitionModel.lists) (g : Generator) :
  (forall h, TransitionModel.select_state obs1 nt1 st1 i h
             = TransitionModel.select_state obs2 nt2 st2 j h) ->
  actions1 !! i = actions2 !! j ->
  TransitionModel.beliefs st1 !! i = TransitionModel.beliefs st2 !! j ->
  option_map (fun o : tensor3 => o !! i) obs1
    = option_map (fun o : tensor3 => o !! j) obs2 ->
  values self actions1 obs1 nt1 i st1 g = values self actions2 obs2 nt2 j st2 g.
Proof.
  intros Hsel Hact Hbel Hobs. unfold values.
  apply bind_congr; [apply Hsel |]. intros s g1.
  apply bind_congr; [apply getitem_congr; exact Hact |]. intros a g2.
  apply bind_congr; [apply getitem_congr; exact Hbel |]. intros b g3.
  rewrite Hobs. reflexivity.
Qed.

(** The posterior triple is computed exactly when observations are given. *)
Lemma values_posterior (actions : tensor3) (observations nonterminals : option tensor3)
    (t : nat) (st : TransitionModel.lists) (g g' : Generator) (v : step_values) :
  values self actions observations nonterminals t st g = Ok (v, g') ->
  match observations with
  | Some _ => exists p, sv_posterior v = Some p
  | None => sv_posterior v = None
  end.
Proof.
  intros H. unfold values in H.
  apply bind_Ok_inv in H. destruct H as (s & g1 & _ & H).
  apply bind_Ok_inv in H. destruct H as (a & g2 & _ & H).
  apply bind_Ok_inv in H. destruct H as (b & g3 & _ & H).
  unfold compute in H.
  apply bind_Ok_inv in H. destruct H as ([[mean std] state] & g4 & _ & H).
  destruct observations as [obs |]; simpl in H.
  - destruct (obs !! t) as [e |]; [| discriminate].
    apply bind_Ok_inv in H. destruct H as ([[qm qs] qst] & g5 & _ & H).
    inversion H; subst. simpl. eauto.
  - inversion H; subst. reflexivity.
Qed.

Lemma write_lengths (T t : nat) (v : step_values) (st : TransitionModel.lists) :
  lengths T st -> lengths T (write t v st).
Proof.
  intros (H1 & H2 & H3 & H4 & H5 & H6 & H7). unfold lengths, write; simpl.
  destruct (sv_posterior v) as [[[m d] s] |]; rewrite ?length_insert; tauto.
Qed.

Lemma write_frame (t n : nat) (v : step_values) (st : TransitionModel.lists) :
  (n <= t)%nat -> agree_upto n st (write t v st).
Proof.
  intros Hn i Hi. unfold write; simpl.
  destruct (sv_posterior v) as [[[m d] s] |];
    rewrite ?list_lookup_insert_ne by lia; tauto.
Qed.

Lemma write_other (t i : nat) (v : step_values) (st : TransitionModel.lists) :
  i <> S t ->
  TransitionModel.beliefs (write t v st) !! i = TransitionModel.beliefs st !! i /\
  TransitionModel.prior_states (write t v st) !! i
    = TransitionModel.prior_states st !! i /\
  TransitionModel.prior_means (write t v st) !! i
    = TransitionModel.prior_means st !! i /\
  TransitionModel.prior_std_devs (write t v st) !! i
    = TransitionModel.prior_std_devs st !! i /\
  TransitionModel.posterior_states (write t v st) !! i
    = TransitionModel.posterior_states st !! i /\
  TransitionModel.posterior_means (write t v st) !! i
    = TransitionModel.posterior_means st !! i /\
  TransitionModel.posterior_std_devs (write t v st) !! i
    = TransitionModel.posterior_std_devs st !! i.
Proof.
  intros Hi. unfold write; simpl.
  destruct (sv_posterior v) as [[[m d] s] |];
    rewrite ?list_lookup_insert_ne by lia; tauto.
Qed.

Lemma write_here (T t : nat) (v : step_values) (st : TransitionModel.lists) :
  lengths T st -> (S t < T)%nat ->
  TransitionModel.beliefs (write t v st) !! S t = Some (sv_belief v) /\
  TransitionModel.prior_states (write t v st) !! S t = Some (sv_prior_state v) /\
  TransitionModel.prior_means (write t v st) !! S t = Some (sv_prior_mean v) /\
  TransitionModel.prior_std_devs (write t v st) !! S t = Some (sv_prior_std v) /\
  (forall m d s, sv_posterior v = Some (m, d, s) ->
     TransitionModel.posterior_states (write t v st) !! S t = Some s /\
     TransitionModel.posterior_means (write t v st) !! S t = Some m /\
     TransitionModel.posterior_std_devs (write t v st) !! S t = Some d).
Proof.
  intros (H1 & H2 & H3 & H4 & H5 & H6 & H7) Ht. unfold write; simpl.
  rewrite !list_lookup_insert_eq by lia.
  repeat split; try reflexivity;
    rewrite H; apply list_lookup_insert_eq; lia.
Qed.

Lemma iterate_from_S (actions : tensor3) (observations nonterminals : option tensor3)
    (k m : nat) (st : TransitionModel.lists) (g : Generator) :
  iterate_from self actions observations nonterminals k (S m) st g
  = bind (iterate_from self actions observations nonterminals k m st)
         (TransitionModel.step self actions observations nonterminals (k + m)) g.
Proof. unfold iterate_from. rewrite seq_S, fold_left_app. reflexivity. Qed.

Lemma fold_bind {S} (body : nat -> S -> M S) (l : list nat) :
  forall (acc : M S) (g : Generator),
  fold_left (fun acc t => bind acc (body t)) l acc g
  = bind acc (fun st => fold_left (fun acc t => bind acc (body t)) l (ret st)) g.
Proof.
  induction l as [| t l IH]; intros acc g; simpl.
  - unfold bind, ret. destruct (acc g) as [[st g'] | e]; reflexivity.
  - rewrite IH, bind_assoc. apply bind_ext. intros st g'.
    rewrite (IH (bind (ret st) (body t))). reflexivity.
Qed.

Lemma iterate_from_split (actions : tensor3)
    (observations nonterminals : option tensor3) (n m : nat)
    (st : TransitionModel.lists) (g : Generator) :
  iterate_from self actions observations nonterminals 0 (n + m) st g
  = bind (iterate_from self actions observations nonterminals 0 n st)
         (iterate_from self actions observations nonterminals n m) g.
Proof.
  unfold iterate_from. rewrite seq_app, fold_left_app. simpl. apply fold_bind.
Qed.

(** The state selected at index [k + t] of one run and at index [t >= 1] of
    another, when the stored states and the mask entries correspond. *)
Lemma select_state_shifted (obs1 nt1 obs2 nt2 : option tensor3) (k t m : nat)
    (st1 st2 : TransitionModel.lists) (h : Generator) :
  (1 <= t <= m)%nat ->
  shifted k m (match obs1 with Some _ => true | None => false end) st1 st2 ->
  (obs1 = None <-> obs2 = None) ->
  match nt1, nt2 with
  | None, None => True
  | Some n1, Some n2 => n1 !! (k + t - 1)%nat = n2 !! (t - 1)%nat
  | _, _ => False
  end ->
  TransitionModel.select_state obs1 nt1 st1 (k + t) h
  = TransitionModel.select_state obs2 nt2 st2 t h.
Proof.
  intros Ht Hsh Hkind Hnt. unfold TransitionModel.select_state.
  destruct (Hsh t Ht) as (_ & Hps & _ & _ & Hpost).
  apply bind_congr.
  - apply getitem_congr. destruct obs1 as [o1 |]; destruct obs2 as [o2 |].
    + apply Hpost. reflexivity.
    + exfalso. assert (Some o1 = None) by (apply Hkind; reflexivity). discriminate.
    + exfalso. assert (@None tensor3 = None) as _ by reflexivity.
      assert (Some o2 = None) by (apply Hkind; reflexivity). discriminate.
    + exact Hps.
  - intros s g1. destruct nt1 as [n1 |]; destruct nt2 as [n2 |]; try contradiction;
      [| reflexivity].
    destruct (Nat.eqb_spec (k + t) 0) as [H0 | _]; [lia |].
    destruct (Nat.eqb_spec t 0) as [H0 | _]; [lia |].
    apply bind_congr; [apply getitem_congr; exact Hnt | reflexivity].
Qed.

Lemma select_state_frame (observations nonterminals : option tensor3)
    (st st' : TransitionModel.lists) (n t : nat) (h : Generator) :
  agree_upto n st st' -> (t <= n)%nat ->
  TransitionModel.select_state observations nonterminals st' t h
  = TransitionModel.select_state observations nonterminals st t h.
Proof.
  intros Hag Ht. unfold TransitionModel.select_state.
  destruct (Hag t Ht) as (_ & Hps & _ & _ & Hqs & _).
  apply bind_congr; [| reflexivity].
  apply getitem_congr. destruct observations; assumption.
Qed.

(** Two runs of the loop that read corresponding inputs, one from index [k]
    on and one from index 0 on, write corresponding values. *)
Lemma loop_shift (actions1 actions2 : tensor3) (obs1 nt1 obs2 nt2 : option tensor3)
    (k T1 T2 : nat) (st1_0 st2_0 : TransitionModel.lists) :
  lengths T1 st1_0 -> lengths T2 st2_0 ->
  (obs1 = None <-> obs2 = None) ->
  (forall h, TransitionModel.select_state obs1 nt1 st1_0 k h
             = TransitionModel.select_state obs2 nt2 st2_0 0 h) ->
  TransitionModel.beliefs st1_0 !! k = TransitionModel.beliefs st2_0 !! 0%nat ->
  forall m,
  (k + m < T1)%nat -> (m < T2)%nat ->
  (forall t, (t < m)%nat ->
     actions1 !! (k + t)%nat = actions2 !! t /\
     option_map (fun o : tensor3 => o !! (k + t)%nat) obs1
       = option_map (fun o : tensor3 => o !! t) obs2) ->
  (forall t, (1 <= t < m)%nat ->
     match nt1, nt2 with
     | None, None => True
     | Some n1, Some n2 => n1 !! (k + t - 1)%nat = n2 !! (t - 1)%nat
     | _, _ => False
     end) ->
  forall g st1 g',
  iterate_from self actions1 obs1 nt1 k m st1_0 g = Ok (st1, g') ->
  exists st2,
    iterate_from self actions2 obs2 nt2 0 m st2_0 g = Ok (st2, g') /\
    lengths T1 st1 /\ lengths T2 st2 /\
    shifted k m (match obs1 with Some _ => true | None => false end) st1 st2 /\
    agree_upto k st1_0 st1 /\ agree_upto 0 st2_0 st2.
Proof.
  intros HL1 HL2 Hkind Hsel0 Hbel0 m.
  induction m as [| m IH]; intros Hk1 Hk2 Hin Hmask g st1 g' Hrun.
  - unfold iterate_from in Hrun. simpl in Hrun. inversion Hrun; subst st1 g'.
    exists st2_0. split; [reflexivity |]. split; [exact HL1 |]. split; [exact HL2 |].
    split; [intros i Hi; lia |]. split; intros i Hi; tauto.
  - rewrite iterate_from_S in Hrun. apply bind_Ok_inv in Hrun.
    destruct Hrun as (st1m & gm & Hiter & Hstep).
    destruct (IH ltac:(lia) ltac:(lia)
                (fun t Ht => Hin t ltac:(lia)) (fun t Ht => Hmask t ltac:(lia))
                g st1m gm Hiter)
      as (st2m & Hiter2 & HL1m & HL2m & Hsh & Hf1 & Hf2).
    destruct (Hin m ltac:(lia)) as [Hact Hobs].
    assert (Hsel : forall h, TransitionModel.select_state obs1 nt1 st1m (k + m) h
                             = TransitionModel.select_state obs2 nt2 st2m m h).
    { intros h. destruct m as [| m'].
      - rewrite Nat.add_0_r.
        rewrite (select_state_frame obs1 nt1 st1_0 st1m k k h Hf1 ltac:(lia)).
        rewrite (select_state_frame obs2 nt2 st2_0 st2m 0 0 h Hf2 ltac:(lia)).
        apply Hsel0.
      - apply (select_state_shifted obs1 nt1 obs2 nt2 k (S m') (S m'));
          [lia | exact Hsh | exact Hkind |].
        apply (Hmask (S m')). lia. }
    assert (Hbel : TransitionModel.beliefs st1m !! (k + m)%nat
                   = TransitionModel.beliefs st2m !! m).
    { destruct m as [| m'].
      - rewrite Nat.add_0_r.
        destruct (Hf1 k ltac:(lia)) as (E1 & _).
        destruct (Hf2 0%nat ltac:(lia)) as (E2 & _). congruence.
      - destruct (Hsh (S m') ltac:(lia)) as (E & _). exact E. }
    pose proof (values_congruence actions1 actions2 obs1 nt1 obs2 nt2 (k + m) m
                  st1m st2m gm Hsel Hact Hbel Hobs) as Hval.
    rewrite step_decompose in Hstep. apply bind_Ok_inv in Hstep.
    destruct Hstep as (v & gv & Hv & Hret). inversion Hret; subst st1 gv.
    exists (write m v st2m).
    split.
    { rewrite iterate_from_S. change (0 + m)%nat with m.
      unfold bind at 1. rewrite Hiter2.
      rewrite step_decompose. unfold bind. rewrite <- Hval, Hv. reflexivity. }
    split; [apply write_lengths; exact HL1m |].
    split; [apply write_lengths; exact HL2m |].
    split; [| split].
    + intros i Hi. destruct (decide (i = S m)) as [-> | Hne].
      * replace (k + S m)%nat with (S (k + m)) by lia.
        destruct (write_here T1 (k + m) v st1m HL1m ltac:(lia))
          as (A1 & A2 & A3 & A4 & A5).
        destruct (write_here T2 m v st2m HL2m ltac:(lia))
          as (B1 & B2 & B3 & B4 & B5).
        rewrite A1, A2, A3, A4, B1, B2, B3, B4.
        repeat (split; [reflexivity |]).
        intros Hwp. pose proof (values_posterior _ _ _ _ _ _ _ _ Hv) as Hp.
        destruct obs1 as [o1 |]; [| discriminate].
        destruct Hp as ([[pm pd] ps] & Hp).
        destruct (A5 pm pd ps Hp) as (C1 & C2 & C3).
        destruct (B5 pm pd ps Hp) as (D1 & D2 & D3).
        rewrite C1, C2, C3, D1, D2, D3. auto.
      * destruct (write_other (k + m) (k + i) v st1m ltac:(lia))
          as (A1 & A2 & A3 & A4 & A5 & A6 & A7).
        destruct (write_other m i v st2m ltac:(lia))
          as (B1 & B2 & B3 & B4 & B5 & B6 & B7).
        destruct (Hsh i ltac:(lia)) as (E1 & E2 & E3 & E4 & E5).
        rewrite A1, A2, A3, A4, A5, A6, A7, B1, B2, B3, B4, B5, B6, B7.
        repeat (split; [assumption |]). exact E5.
    + apply (agree_upto_trans k k st1_0 st1m);
        [lia | exact Hf1 | apply write_frame; lia].
    + apply (agree_upto_trans 0 0 st2_0 st2m);
        [lia | exact Hf2 | apply write_frame; lia].
Qed.

Lemma run_loop_iterate (prev_state : tensor) (actions : tensor3) (prev_belief : tensor)
    (observations nonterminals : option tensor3) :
  TransitionModel.run_loop self prev_state actions prev_belief observations nonterminals
  = iterate_from self actions observations nonterminals 0 (length actions)
      (TransitionModel.init_lists (length actions + 1) prev_state prev_belief).
Proof.
  unfold TransitionModel.run_loop, for_range, iterate_from.
  replace (length actions + 1 - 1)%nat with (length actions) by lia. reflexivity.
Qed.

(** Iterations from index [k] on leave the entries up to [k] alone. *)
Lemma iterate_from_frame (actions : tensor3) (observations nonterminals : option tensor3)
    (k T m : nat) : forall (st0 st : TransitionModel.lists) (g g' : Generator),
  lengths T st0 ->
  iterate_from self actions observations nonterminals k m st0 g = Ok (st, g') ->
  lengths T st /\ agree_upto k st0 st.
Proof.
  induction m as [| m IH]; intros st0 st g g' HL Hrun.
  - unfold iterate_from in Hrun. simpl in Hrun. inversion Hrun; subst.
    split; [exact HL |]. intros i Hi. tauto.
  - rewrite iterate_from_S in Hrun. apply bind_Ok_inv in Hrun.
    destruct Hrun as (stm & gm & Hiter & Hstep).
    destruct (IH st0 stm g gm HL Hiter) as [HLm Hf].
    rewrite step_decompose in Hstep. apply bind_Ok_inv in Hstep.
    destruct Hstep as (v & gv & Hv & Hret). inversion Hret; subst.
    split; [apply write_lengths; exact HLm |].
    apply (agree_upto_trans k k st0 stm); [lia | exact Hf | apply write_frame; lia].
Qed.

Lemma select_state_first (observations nonterminals : option tensor3)
    (st : TransitionModel.lists) (s : tensor) (h : Generator) :
  match observations with
  | None => TransitionModel.prior_states st
  | Some _ => TransitionModel.posterior_states st
  end !! 0%nat = Some s ->
  TransitionModel.select_state observations nonterminals st 0 h = Ok (s, h).
Proof.
  intros H. unfold TransitionModel.select_state.
  rewrite (bind_getitem_Some _ _ _ _ _ H). destruct nonterminals; reflexivity.
Qed.

Lemma init_lookup0 (T : nat) (prev_state prev_belief : tensor) :
  (1 <= T)%nat ->
  TransitionModel.beliefs (TransitionModel.init_lists T prev_state prev_belief) !! 0%nat
    = Some prev_belief /\
  TransitionModel.prior_states (TransitionModel.init_lists T prev_state prev_belief)
    !! 0%nat = Some prev_state /\
  TransitionModel.posterior_states (TransitionModel.init_lists T prev_state prev_belief)
    !! 0%nat = Some prev_state.
Proof.
  intros HT. unfold TransitionModel.init_lists; simpl.
  repeat split; apply list_lookup_insert_eq; rewrite length_replicate; lia.
Qed.

Lemma select_state_init (observations nonterminals : option tensor3) (T : nat)
    (prev_state prev_belief : tensor) (h : Generator) :
  (1 <= T)%nat ->
  TransitionModel.select_state observations nonterminals
    (TransitionModel.init_lists T prev_state prev_belief) 0 h = Ok (prev_state, h).
Proof.
  intros HT. destruct (init_lookup0 T prev_state prev_belief HT) as (_ & Hp & Hq).
  apply select_state_first. destruct observations; assumption.
Qed.

(** The slice [l[1:]] of a list that continues [l1] with the entries of [l2]. *)
Lemma drop1_app {A} (n1 n2 : nat) (l l1 l2 : list A) :
  length l = (n1 + n2 + 1)%nat -> length l1 = (n1 + 1)%nat ->
  length l2 = (n2 + 1)%nat ->
  (forall i, (1 <= i <= n1)%nat -> l !! i = l1 !! i) ->
  (forall i, (1 <= i <= n2)%nat -> l !! (n1 + i)%nat = l2 !! i) ->
  drop 1 l = drop 1 l1 ++ drop 1 l2.
Proof.
  intros HL HL1 HL2 H1 H2. apply list_eq. intros i. rewrite lookup_drop.
  destruct (decide (i < n1)%nat) as [Hi | Hi].
  - rewrite lookup_app_l by (rewrite length_drop; lia).
    rewrite lookup_drop. apply H1. lia.
  - rewrite lookup_app_r by (rewrite length_drop; lia).
    rewrite length_drop, lookup_drop, HL1.
    destruct (decide (i < n1 + n2)%nat) as [Hj | Hj].
    + replace (1 + i)%nat with (n1 + (1 + (i - n1)))%nat by lia.
      rewrite H2 by lia. f_equal. lia.
    + rewrite !lookup_ge_None_2 by lia. reflexivity.
Qed.

Lemma last_lookup_default {A} (d x : A) : forall l : list A,
  l !! (length l - 1)%nat = Some x -> List.last l d = x.
Proof.
  induction l as [| a l IH]; intros H; [discriminate |].
  destruct l as [| b l].
  - simpl in H. inversion H. reflexivity.
  - change (List.last (b :: l) d = x). apply IH.
    simpl in *. rewrite Nat.sub_0_r in *. exact H.
Qed.

Lemma last_of_drop1 (l : list tensor) (n : nat) (x : tensor) :
  length l = (n + 1)%nat -> (1 <= n)%nat -> l !! n = Some x ->
  last_of (drop 1 l) = x.
Proof.
  intros HL Hn Hx. unfold last_of. apply last_lookup_default.
  rewrite lookup_drop, length_drop, HL.
  replace (1 + (n + 1 - 1 - 1))%nat with n by lia. exact Hx.
Qed.

Lemma iterate_prefix (actions : tensor3) (observations nonterminals : option tensor3)
    (n N : nat) (st stF : TransitionModel.lists) (g g' : Generator) :
  (n <= N)%nat ->
  iterate_from self actions observations nonterminals 0 N st g = Ok (stF, g') ->
  exists stA gA,
    iterate_from self actions observations nonterminals 0 n st g = Ok (stA, gA) /\
    iterate_from self actions observations nonterminals n (N - n) stA gA
      = Ok (stF, g').
Proof.
  intros Hn Hrun. replace N with (n + (N - n))%nat in Hrun by lia.
  rewrite iterate_from_split in Hrun. apply bind_Ok_inv in Hrun. exact Hrun.
Qed.

Lemma take_drop1_eq {A} (n : nat) (l l' : list A) :
  (forall i, (1 <= i <= n)%nat -> l !! i = l' !! i) ->
  take n (drop 1 l) = take n (drop 1 l').
Proof.
  intros H. apply list_eq. intros i.
  destruct (decide (i < n)%nat) as [Hi | Hi].
  - rewrite !lookup_take_lt by exact Hi. rewrite !lookup_drop. apply H. lia.
  - rewrite !lookup_take_ge by lia. reflexivity.
Qed.

Lemma take_lookup_eq {A} (n i : nat) (l l' : list A) :
  take n l = take n l' -> (i < n)%nat -> l !! i = l' !! i.
Proof.
  intros H Hi. rewrite <- (lookup_take_lt l n i Hi), <- (lookup_take_lt l' n i Hi).
  rewrite H. reflexivity.
Qed.

(** X9.  A rollout may be computed in two calls.  The second call starts
    from the last belief of the first and from its last state (posterior with
    observations, prior without), multiplied by the mask entry of the last
    step when a mask is given; it receives the remaining actions,
    observations and mask entries and the generator the first call left.
    Each returned sequence of the one-call rollout is the sequence of the
    first call followed by that of the second, and the generator ends in the
    same state. *)
Theorem forward_in_chunks (prev_state prev_belief : tensor) (a1 a2 : tensor3)
    (observations nonterminals : option tensor3) (g : Generator) :
  (1 <= length a1)%nat -> (1 <= length a2)%nat ->
  valid_lengths (a1 ++ a2) observations nonterminals ->
  exists out1 g1 out2 g2,
    TransitionModel.forward self prev_state a1 prev_belief
      observations nonterminals g = Ok (out1, g1) /\
    TransitionModel.forward self
      (carry_state observations nonterminals (length a1) out1) a2 (carry_belief out1)
      (drop (length a1) <$> observations) (drop (length a1) <$> nonterminals) g1
      = Ok (out2, g2) /\
    TransitionModel.forward self prev_state (a1 ++ a2) prev_belief
      observations nonterminals g = Ok (zip_with app out1 out2, g2).
Proof.
  intros Hn1 Hn2 Hv.
  assert (Hv1 : valid_lengths a1 observations nonterminals).
  { destruct Hv as [Ho Hn]. split.
    - destruct observations; [rewrite length_app in Ho; lia | exact I].
    - destruct nonterminals; [rewrite length_app in Hn; lia | exact I]. }
  assert (Hv2 : valid_lengths a2 (drop (length a1) <$> observations)
                  (drop (length a1) <$> nonterminals)).
  { destruct Hv as [Ho Hn]. split.
    - destruct observations; simpl; [| exact I].
      rewrite length_app in Ho. rewrite length_drop. lia.
    - destruct nonterminals; simpl; [| exact I].
      rewrite length_app in Hn. rewrite length_drop. lia. }
  destruct (forward_run self (a1 ++ a2) g observations nonterminals
              prev_state prev_belief ltac:(rewrite length_app; lia) Hv)
    as (stF & gF & HrunF & HfwF & HLF & _).
  destruct (forward_run self a1 g observations nonterminals
              prev_state prev_belief Hn1 Hv1)
    as (st1 & g1 & Hrun1 & Hfw1 & HL1 & _).
  set (out1 := outputs observations st1) in *.
  destruct (forward_run self a2 g1 (drop (length a1) <$> observations)
              (drop (length a1) <$> nonterminals)
              (carry_state observations nonterminals (length a1) out1)
              (carry_belief out1) Hn2 Hv2)
    as (st2 & g2 & Hrun2 & Hfw2 & HL2 & _).
  exists out1, g1, (outputs (drop (length a1) <$> observations) st2), g2.
  split; [exact Hfw1 |]. split; [exact Hfw2 |].
  rewrite run_loop_iterate in HrunF, Hrun1, Hrun2.
  rewrite length_app in HrunF, HLF. rewrite iterate_from_split in HrunF.
  apply bind_Ok_inv in HrunF. destruct HrunF as (stA & gA & HiterA & HiterB).
  (* the first call *)
  assert (Hsel0 : forall h,
            TransitionModel.select_state observations nonterminals
              (TransitionModel.init_lists (length a1 + length a2 + 1)
                 prev_state prev_belief) 0 h
            = TransitionModel.select_state observations nonterminals
                (TransitionModel.init_lists (length a1 + 1) prev_state prev_belief) 0 h).
  { intros h. rewrite !select_state_init by lia. reflexivity. }
  assert (Hbel0 : TransitionModel.beliefs
                    (TransitionModel.init_lists (length a1 + length a2 + 1)
                       prev_state prev_belief) !! 0%nat
                  = TransitionModel.beliefs
                      (TransitionModel.init_lists (length a1 + 1)
                         prev_state prev_belief) !! 0%nat).
  { destruct (init_lookup0 (length a1 + length a2 + 1) prev_state prev_belief
                ltac:(lia)) as (E1 & _).
    destruct (init_lookup0 (length a1 + 1) prev_state prev_belief ltac:(lia))
      as (E2 & _).
    congruence. }
  assert (Hin0 : forall t, (t < length a1)%nat ->
            (a1 ++ a2) !! (0 + t)%nat = a1 !! t /\
            option_map (fun o : tensor3 => o !! (0 + t)%nat) observations
            = option_map (fun o : tensor3 => o !! t) observations).
  { intros t Ht. split; [apply lookup_app_l; exact Ht | reflexivity]. }
  assert (Hmask0 : forall t, (1 <= t < length a1)%nat ->
            match nonterminals, nonterminals with
            | None, None => True
            | Some n1, Some n2 => n1 !! (0 + t - 1)%nat = n2 !! (t - 1)%nat
            | _, _ => False
            end).
  { intros t Ht. destruct nonterminals; [reflexivity | exact I]. }
  destruct (loop_shift (a1 ++ a2) a1 observations nonterminals
              observations nonterminals 0 (length a1 + length a2 + 1) (length a1 + 1)
              _ _ (init_lengths _ prev_state prev_belief)
              (init_lengths _ prev_state prev_belief)
              (conj (fun H => H) (fun H => H)) Hsel0 Hbel0 (length a1)
              ltac:(lia) ltac:(lia)
              Hin0 Hmask0 g stA gA HiterA)
    as (st1' & Hiter1 & HLA & _ & Hsh1 & _ & _).
  rewrite Hrun1 in Hiter1. inversion Hiter1; subst st1' gA. clear Hiter1.
  unfold shifted in Hsh1. cbn [Nat.add] in Hsh1.
  (* what the second call starts from *)
  assert (HB : TransitionModel.beliefs stA !! length a1 = Some (carry_belief out1)).
  { destruct (Hsh1 (length a1) ltac:(lia)) as (E & _). rewrite E.
    destruct HL1 as (L & _).
    destruct (lookup_lt_is_Some_2 (TransitionModel.beliefs st1) (length a1)
                ltac:(lia)) as [x Hx].
    rewrite Hx. f_equal. symmetry. unfold carry_belief, out1, outputs. simpl.
    apply (last_of_drop1 _ (length a1)); [exact L | exact Hn1 | exact Hx]. }
  assert (HS : forall h,
            TransitionModel.select_state observations nonterminals stA (length a1) h
            = Ok (carry_state observations nonterminals (length a1) out1, h)).
  { intros h. unfold TransitionModel.select_state.
    destruct (Hsh1 (length a1) ltac:(lia)) as (_ & Ep & _ & _ & Eq).
    destruct HL1 as (_ & Lp & _ & _ & Lq & _).
    assert (Hs : match observations with
                 | None => TransitionModel.prior_states stA
                 | Some _ => TransitionModel.posterior_states stA
                 end !! length a1
                 = Some (last_of (nth (match observations with
                                       | None => 1 | Some _ => 4 end)%nat out1 []))).
    { unfold out1, outputs. destruct observations as [obs |]; simpl.
      - destruct (Eq eq_refl) as (E & _). rewrite E.
        destruct (lookup_lt_is_Some_2 (TransitionModel.posterior_states st1)
                    (length a1) ltac:(lia)) as [x Hx].
        rewrite Hx. f_equal. symmetry.
        apply (last_of_drop1 _ (length a1)); [exact Lq | exact Hn1 | exact Hx].
      - rewrite Ep.
        destruct (lookup_lt_is_Some_2 (TransitionModel.prior_states st1)
                    (length a1) ltac:(lia)) as [x Hx].
        rewrite Hx. f_equal. symmetry.
        apply (last_of_drop1 _ (length a1)); [exact Lp | exact Hn1 | exact Hx]. }
    rewrite (bind_getitem_Some _ _ _ _ _ Hs). unfold carry_state.
    destruct nonterminals as [nt |]; [| reflexivity].
    destruct (Nat.eqb_spec (length a1) 0) as [H0 | _]; [lia |].
    destruct Hv as [_ Hnt]. rewrite length_app in Hnt.
    destruct (lookup_lt_is_Some_2 nt (length a1 - 1) ltac:(lia)) as [m Hm].
    rewrite (bind_getitem_Some _ _ _ _ _ Hm).
    rewrite (nth_lookup_Some _ _ _ _ Hm). reflexivity. }
  assert (Hsel0' : forall h,
            TransitionModel.select_state observations nonterminals stA (length a1) h
            = TransitionModel.select_state (drop (length a1) <$> observations)
                (drop (length a1) <$> nonterminals)
                (TransitionModel.init_lists (length a2 + 1)
                   (carry_state observations nonterminals (length a1) out1)
                   (carry_belief out1)) 0 h).
  { intros h. rewrite HS, select_state_init by lia. reflexivity. }
  assert (Hbel0' : TransitionModel.beliefs stA !! length a1
                   = TransitionModel.beliefs
                       (TransitionModel.init_lists (length a2 + 1)
                          (carry_state observations nonterminals (length a1) out1)
                          (carry_belief out1)) !! 0%nat).
  { rewrite HB. symmetry. apply init_lookup0. lia. }
  assert (Hkind : observations = None <-> drop (length a1) <$> observations = None).
  { destruct observations; simpl; split; intros; congruence. }
  assert (Hin : forall t, (t < length a2)%nat ->
            (a1 ++ a2) !! (length a1 + t)%nat = a2 !! t /\
            option_map (fun o : tensor3 => o !! (length a1 + t)%nat) observations
            = option_map (fun o : tensor3 => o !! t)
                (drop (length a1) <$> observations)).
  { intros t Ht. split.
    - rewrite lookup_app_r by lia. f_equal. lia.
    - destruct observations as [obs |]; [| reflexivity].
      change (Some (obs !! (length a1 + t)%nat) = Some (drop (length a1) obs !! t)).
      rewrite lookup_drop. reflexivity. }
  assert (Hmask : forall t, (1 <= t < length a2)%nat ->
            match nonterminals, drop (length a1) <$> nonterminals with
            | None, None => True
            | Some n1, Some n2 => n1 !! (length a1 + t - 1)%nat = n2 !! (t - 1)%nat
            | _, _ => False
            end).
  { intros t Ht. destruct nonterminals as [nt |]; [| exact I].
    change (nt !! (length a1 + t - 1)%nat = drop (length a1) nt !! (t - 1)%nat).
    rewrite lookup_drop. f_equal. lia. }
  destruct (loop_shift (a1 ++ a2) a2 observations nonterminals
              (drop (length a1) <$> observations) (drop (length a1) <$> nonterminals)
              (length a1) (length a1 + length a2 + 1) (length a2 + 1)
              stA _ HLA (init_lengths _ _ _) Hkind Hsel0' Hbel0' (length a2)
              ltac:(lia) ltac:(lia) Hin Hmask g1 stF gF HiterB)
    as (st2' & Hiter2 & _ & _ & Hsh2 & HfA & _).
  rewrite Hrun2 in Hiter2. inversion Hiter2; subst st2' gF. clear Hiter2.
  rewrite HfwF. f_equal. f_equal.
  destruct HLF as (F1 & F2 & F3 & F4 & F5 & F6 & F7).
  destruct HL1 as (A1 & A2 & A3 & A4 & A5 & A6 & A7).
  destruct HL2 as (B1 & B2 & B3 & B4 & B5 & B6 & B7).
  assert (Hlow : forall i, (1 <= i <= length a1)%nat ->
            TransitionModel.beliefs stF !! i = TransitionModel.beliefs st1 !! i /\
            TransitionModel.prior_states stF !! i
              = TransitionModel.prior_states st1 !! i /\
            TransitionModel.prior_means stF !! i
              = TransitionModel.prior_means st1 !! i /\
            TransitionModel.prior_std_devs stF !! i
              = TransitionModel.prior_std_devs st1 !! i /\
            (forall obs, observations = Some obs ->
             TransitionModel.posterior_states stF !! i
               = TransitionModel.posterior_states st1 !! i /\
             TransitionModel.posterior_means stF !! i
               = TransitionModel.posterior_means st1 !! i /\
             TransitionModel.posterior_std_devs stF !! i
               = TransitionModel.posterior_std_devs st1 !! i)).
  { intros i Hi.
    destruct (HfA i ltac:(lia)) as (P1 & P2 & P3 & P4 & P5 & P6 & P7).
    destruct (Hsh1 i Hi) as (S1 & S2 & S3 & S4 & S5).
    rewrite P1, P2, P3, P4, P5, P6, P7.
    repeat (split; [assumption |]).
    intros obs ->. apply S5. reflexivity. }
  unfold out1, outputs.
  destruct observations as [obs |]; simpl.
  - repeat f_equal;
      (apply (drop1_app (length a1) (length a2)); try assumption;
       [ intros i Hi; destruct (Hlow i Hi) as (Q1 & Q2 & Q3 & Q4 & Q5);
         destruct (Q5 obs eq_refl) as (Q6 & Q7 & Q8); assumption
       | intros i Hi; destruct (Hsh2 i Hi) as (Q1 & Q2 & Q3 & Q4 & Q5);
         destruct (Q5 eq_refl) as (Q6 & Q7 & Q8); assumption ]).
  - repeat f_equal;
      (apply (drop1_app (length a1) (length a2)); try assumption;
       [ intros i Hi; destruct (Hlow i Hi) as (Q1 & Q2 & Q3 & Q4 & Q5); assumption
       | intros i Hi; destruct (Hsh2 i Hi) as (Q1 & Q2 & Q3 & Q4 & Q5); assumption ]).
Qed.

(** X8.  The rollout never looks ahead.  Two calls from the same initial
    state, belief and generator, whose actions and observations agree on the
    first [n] entries and whose masks agree on the first [n - 1], return
    sequences with the same first [n] entries, whatever the later inputs and
    the lengths of the two calls are. *)
Theorem forward_causal (n : nat) (prev_state prev_belief : tensor)
    (actions actions' : tensor3)
    (observations observations' nonterminals nonterminals' : option tensor3)
    (g : Generator) :
  (1 <= n)%nat -> (n <= length actions)%nat -> (n <= length actions')%nat ->
  valid_lengths actions observations nonterminals ->
  valid_lengths actions' observations' nonterminals' ->
  take n actions = take n actions' ->
  same_upto n observations observations' ->
  same_upto (n - 1) nonterminals nonterminals' ->
  exists out g1 out' g1',
    TransitionModel.forward self prev_state actions prev_belief
      observations nonterminals g = Ok (out, g1) /\
    TransitionModel.forward self prev_state actions' prev_belief
      observations' nonterminals' g = Ok (out', g1') /\
    map (take n) out = map (take n) out'.
Proof.
  intros H1n Hn Hn' Hv Hv' Hact Hobs Hnt.
  destruct (forward_run self actions g observations nonterminals
              prev_state prev_belief ltac:(lia) Hv)
    as (stF & g1 & Hrun & Hfw & _).
  destruct (forward_run self actions' g observations' nonterminals'
              prev_state prev_belief ltac:(lia) Hv')
    as (stF' & g1' & Hrun' & Hfw' & _).
  exists (outputs observations stF), g1, (outputs observations' stF'), g1'.
  split; [exact Hfw |]. split; [exact Hfw' |]. clear Hfw Hfw'.
  rewrite run_loop_iterate in Hrun, Hrun'.
  apply (iterate_prefix _ _ _ n) in Hrun; [| exact Hn].
  apply (iterate_prefix _ _ _ n) in Hrun'; [| exact Hn'].
  destruct Hrun as (stA & gA & HiterA & HiterB).
  destruct Hrun' as (stA' & gA' & HiterA' & HiterB').
  assert (Hkind : observations = None <-> observations' = None).
  { destruct observations, observations'; simpl in Hobs;
      split; intros; try congruence; contradiction. }
  assert (Hsel0 : forall h,
            TransitionModel.select_state observations nonterminals
              (TransitionModel.init_lists (length actions + 1)
                 prev_state prev_belief) 0 h
            = TransitionModel.select_state observations' nonterminals'
                (TransitionModel.init_lists (length actions' + 1)
                   prev_state prev_belief) 0 h).
  { intros h. rewrite !select_state_init by lia. reflexivity. }
  assert (Hbel0 : TransitionModel.beliefs
                    (TransitionModel.init_lists (length actions + 1)
                       prev_state prev_belief) !! 0%nat
                  = TransitionModel.beliefs
                      (TransitionModel.init_lists (length actions' + 1)
                         prev_state prev_belief) !! 0%nat).
  { destruct (init_lookup0 (length actions + 1) prev_state prev_belief
                ltac:(lia)) as (E1 & _).
    destruct (init_lookup0 (length actions' + 1) prev_state prev_belief
                ltac:(lia)) as (E2 & _).
    congruence. }
  assert (Hin : forall t, (t < n)%nat ->
            actions !! (0 + t)%nat = actions' !! t /\
            option_map (fun o : tensor3 => o !! (0 + t)%nat) observations
            = option_map (fun o : tensor3 => o !! t) observations').
  { intros t Ht. split; [exact (take_lookup_eq n t _ _ Hact Ht) |].
    destruct observations as [o |], observations' as [o' |];
      simpl in Hobs; try contradiction; [| reflexivity].
    change (Some (o !! t) = Some (o' !! t)).
    f_equal. exact (take_lookup_eq n t _ _ Hobs Ht). }
  assert (Hmask : forall t, (1 <= t < n)%nat ->
            match nonterminals, nonterminals' with
            | None, None => True
            | Some n1, Some n2 => n1 !! (0 + t - 1)%nat = n2 !! (t - 1)%nat
            | _, _ => False
            end).
  { intros t Ht. destruct nonterminals as [m |], nonterminals' as [m' |];
      simpl in Hnt; try contradiction; [| exact I].
    exact (take_lookup_eq (n - 1) (t - 1) _ _ Hnt ltac:(lia)). }
  destruct (loop_shift actions actions' observations nonterminals
              observations' nonterminals' 0 (length actions + 1) (length actions' + 1)
              _ _ (init_lengths _ prev_state prev_belief)
              (init_lengths _ prev_state prev_belief)
              Hkind Hsel0 Hbel0 n ltac:(lia) ltac:(lia) Hin Hmask g stA gA HiterA)
    as (st2 & Hiter2 & HLA & HLA' & Hsh & _ & _).
  rewrite HiterA' in Hiter2. inversion Hiter2; subst st2 gA'. clear Hiter2.
  destruct (iterate_from_frame _ _ _ _ _ _ _ _ _ _ HLA HiterB) as [_ Hf].
  destruct (iterate_from_frame _ _ _ _ _ _ _ _ _ _ HLA' HiterB') as [_ Hf'].
  unfold shifted in Hsh. cbn [Nat.add] in Hsh.
  assert (Hcore : forall i, (1 <= i <= n)%nat ->
            TransitionModel.beliefs stF !! i = TransitionModel.beliefs stF' !! i /\
            TransitionModel.prior_states stF !! i
              = TransitionModel.prior_states stF' !! i /\
            TransitionModel.prior_means stF !! i
              = TransitionModel.prior_means stF' !! i /\
            TransitionModel.prior_std_devs stF !! i
              = TransitionModel.prior_std_devs stF' !! i /\
            (observations <> None ->
             TransitionModel.posterior_states stF !! i
               = TransitionModel.posterior_states stF' !! i /\
             TransitionModel.posterior_means stF !! i
               = TransitionModel.posterior_means stF' !! i /\
             TransitionModel.posterior_std_devs stF !! i
               = TransitionModel.posterior_std_devs stF' !! i)).
  { intros i Hi.
    destruct (Hf i ltac:(lia)) as (P1 & P2 & P3 & P4 & P5 & P6 & P7).
    destruct (Hf' i ltac:(lia)) as (Q1 & Q2 & Q3 & Q4 & Q5 & Q6 & Q7).
    destruct (Hsh i Hi) as (S1 & S2 & S3 & S4 & S5).
    rewrite P1, P2, P3, P4, P5, P6, P7, Q1, Q2, Q3, Q4, Q5, Q6, Q7.
    repeat (split; [assumption |]).
    intros Hsome. apply S5. destruct observations; [reflexivity | congruence]. }
  assert (E1 : take n (drop 1 (TransitionModel.beliefs stF))
               = take n (drop 1 (TransitionModel.beliefs stF')))
    by (apply take_drop1_eq; intros i Hi; apply (Hcore i Hi)).
  assert (E2 : take n (drop 1 (TransitionModel.prior_states stF))
               = take n (drop 1 (TransitionModel.prior_states stF')))
    by (apply take_drop1_eq; intros i Hi; apply (Hcore i Hi)).
  assert (E3 : take n (drop 1 (TransitionModel.prior_means stF))
               = take n (drop 1 (TransitionModel.prior_means stF')))
    by (apply take_drop1_eq; intros i Hi; apply (Hcore i Hi)).
  assert (E4 : take n (drop 1 (TransitionModel.prior_std_devs stF))
               = take n (drop 1 (TransitionModel.prior_std_devs stF')))
    by (apply take_drop1_eq; intros i Hi; apply (Hcore i Hi)).
  unfold outputs.
  destruct observations as [o |], observations' as [o' |];
    simpl in Hobs; try contradiction; simpl; rewrite E1, E2, E3, E4;
    [| reflexivity].
  assert (E5 : take n (drop 1 (TransitionModel.posterior_states stF))
               = take n (drop 1 (TransitionModel.posterior_states stF')))
    by (apply take_drop1_eq; intros i Hi; apply (Hcore i Hi); discriminate).
  assert (E6 : take n (drop 1 (TransitionModel.posterior_means stF))
               = take n (drop 1 (TransitionModel.posterior_means stF')))
    by (apply take_drop1_eq; intros i Hi; apply (Hcore i Hi); discriminate).
  assert (E7 : take n (drop 1 (TransitionModel.posterior_std_devs stF))
               = take n (drop 1 (TransitionModel.posterior_std_devs stF')))
    by (apply take_drop1_eq; intros i Hi; apply (Hcore i Hi); discriminate).
  rewrite E5, E6, E7. reflexivity.
Qed.

End ChunkFacts.

Section ChunkExamples.
Import Torch Contract Chunks.

Lemma forward_causal_witness :
  exists out g1 out' g1',
    TransitionModel.forward Examples.rssm Examples.state0 Examples.actions2
      Examples.belief0 (Some Examples.observations2) (Some Examples.nonterminals1)
      Examples.zero_noise = Ok (out, g1) /\
    TransitionModel.forward Examples.rssm Examples.state0 Examples.actions3
      Examples.belief0 (Some Examples.observations3) (Some Examples.nonterminals2)
      Examples.zero_noise = Ok (out', g1') /\
    map (take 1) out = map (take 1) out'.
Proof.
  apply (forward_causal Examples.rssm 1 Examples.state0 Examples.belief0
           Examples.actions2 Examples.actions3
           (Some Examples.observations2) (Some Examples.observations3)
           (Some Examples.nonterminals1) (Some Examples.nonterminals2)
           Examples.zero_noise).
  - lia.
  - simpl. lia.
  - simpl. lia.
  - unfold valid_lengths. simpl. lia.
  - unfold valid_lengths. simpl. lia.
  - reflexivity.
  - reflexivity.
  - reflexivity.
Defined.

Lemma forward_in_chunks_witness :
  exists out1 g1 out2 g2,
    TransitionModel.forward Examples.rssm Examples.state0 [[[1]]]
      Examples.belief0 (Some Examples.observations3) (Some Examples.nonterminals2)
      Examples.zero_noise = Ok (out1, g1) /\
    TransitionModel.forward Examples.rssm
      (carry_state (Some Examples.observations3) (Some Examples.nonterminals2) 1 out1)
      [[[2]]; [[3]]] (carry_belief out1)
      (Some (drop 1 Examples.observations3)) (Some (drop 1 Examples.nonterminals2))
      g1 = Ok (out2, g2) /\
    TransitionModel.forward Examples.rssm Examples.state0 Examples.actions3
      Examples.belief0 (Some Examples.observations3) (Some Examples.nonterminals2)
      Examples.zero_noise = Ok (zip_with app out1 out2, g2).
Proof.
  apply (forward_in_chunks Examples.rssm Examples.state0 Examples.belief0
           [[[1]]] [[[2]]; [[3]]]
           (Some Examples.observations3) (Some Examples.nonterminals2)
           Examples.zero_noise).
  - simpl. lia.
  - simpl. lia.
  - unfold valid_lengths. simpl. lia.
Defined.

End ChunkExamples.

(** ** Random draws the actor consumes *)

Section ConsumptionFacts.
Import Torch Distributions Contract.

Lemma advance_0 (g : Generator) : advance 0 g = g.
Proof. destruct g as [nm off]. unfold advance; simpl. f_equal. lia. Qed.

Lemma randn_rows_advance (rows : list nat) : forall g,
  snd (randn_rows rows g) = advance (numel rows) g.
Proof.
  induction rows as [| n rows IH]; intros g; simpl.
  - symmetry. apply advance_0.
  - specialize (IH (advance n g)).
    destruct (randn_rows rows (advance n g)) as [vs g2]. simpl in *.
    rewrite IH. apply advance_advance.
Qed.

Lemma draw_advance (d : Independent) (g : Generator) :
  snd (draw d g) = advance (sample_numel d) g.
Proof.
  unfold draw, sample_numel.
  pose proof (randn_rows_advance
                (shape (add (loc (base_dist (base d))) (scale (base_dist (base d))))) g)
    as H.
  destruct (randn_rows _ g) as [eps g']. exact H.
Qed.

Lemma draws_advance (d : Independent) (n : nat) : forall g,
  snd (draws n d g) = advance (n * sample_numel d) g.
Proof.
  induction n as [| n IH]; intros g; simpl.
  - symmetry. apply advance_0.
  - pose proof (draw_advance d g) as Hd.
    destruct (draw d g) as [x g1]. simpl in Hd. subst g1.
    specialize (IH (advance (sample_numel d) g)).
    destruct (draws n d (advance (sample_numel d) g)) as [xs g2]. simpl in *.
    rewrite IH. apply advance_advance.
Qed.

Lemma draws_length (d : Independent) (n : nat) : forall g,
  length (fst (draws n d g)) = n.
Proof.
  induction n as [| n IH]; intros g; simpl; [reflexivity |].
  destruct (draw d g) as [x g1]. specialize (IH g1).
  destruct (draws n d g1) as [xs g2]. simpl in *. rewrite IH. reflexivity.
Qed.

Lemma numel_replicate (B F : nat) : numel (replicate B F) = (B * F)%nat.
Proof. induction B as [| B IH]; simpl; [reflexivity | rewrite IH; reflexivity]. Qed.

Lemma sample_numel_wrapped (self : ActorModel.t) (belief state : tensor)
    (hidden_size action_size : nat) :
  linear_shape (ActorModel.fc5 self) hidden_size (2 * action_size) ->
  sample_numel (wrapped self belief state)
  = (length (ActorModel.network self belief state) * action_size)%nat.
Proof.
  intros Hshape.
  destruct (mean_std_rect self belief state hidden_size action_size Hshape)
    as [Hm Hs].
  unfold sample_numel, wrapped.
  cbn [ActorModel.action_dist base base_dist loc scale].
  set (B := length (ActorModel.network self belief state)) in *.
  set (mean := fst (ActorModel.mean_std self belief state)) in *.
  set (std := snd (ActorModel.mean_std self belief state)) in *.
  assert (Hsum : rectangular B action_size (add mean std)).
  { rewrite (rect_eta B action_size mean Hm), (rect_eta B action_size std Hs).
    unfold add. rewrite binop_tabulate. apply tabulate_rect. }
  apply rect_shape in Hsum. rewrite Hsum. apply numel_replicate.
Qed.



End ConsumptionFacts.
